(** * Compute tasks of the Octavia controller worker (v2)

    A shallow embedding of
    [octavia/controller/worker/v2/tasks/compute_tasks.py] and the
    properties of its compensable tasks: instance create and revert,
    bulk teardown, the readiness poller and the server-group tasks.

    The tasks are methods that talk to three collaborators: the compute
    driver ([self.compute]), the build rate limit ([self.rate_limit]) and
    the load balancer repository; they also call two module functions
    that may raise, [db_apis.get_session] and [time.sleep].  They are
    embedded as computations in a state-and-exception monad.  The state holds the store of Python
    dictionaries reachable from the arguments, the chronological trace of
    every call made to a collaborator, and the state of the rate limit. *)

From Stdlib Require Import ZArith List String Lia.
From stdpp Require Import gmap strings list fin_maps.

Import ListNotations.
Open Scope Z_scope.
Open Scope string_scope.

(** ** Python values *)

(** Exceptions that travel through the tasks.  The first two are raised
    by the module itself, the next three by the interpreter (a missing
    key, an attribute of [None], a sleep of negative length); the last
    stands for whatever a collaborator raises ([except Exception] catches
    every one of them). *)
Inductive exn : Type :=
| ComputeBuildException (fault : option string)
| ComputeWaitTimeoutException (id : string)
| KeyError (key : string)
| AttributeError (what : string)
| ValueError (what : string)
| CollaboratorError (what : string).

(** What a call gives back: a value, or a raised exception. *)
Inductive outcome (A : Type) : Type :=
| Returns (a : A)
| Raises (e : exn).
Arguments Returns {A} a.
Arguments Raises {A} e.

(** The values that reach [revert] as [result] and the driver as an
    identifier: [None], a string, or a taskflow [failure.Failure]
    wrapping the exception that made [execute] fail. *)
Inductive pyval : Type :=
| VNone
| VStr (s : string)
| VFailure (e : exn).

(** [isinstance(result, failure.Failure)] *)
Definition is_Failure (v : pyval) : bool :=
  match v with VFailure _ => true | _ => false end.

(** A Python [dict] with string keys and string values. *)
Abbreviation dict := (gmap string string).

(** References to dictionaries: a dictionary argument is passed by
    reference, so a write through the parameter is seen by the caller. *)
Abbreviation loc := nat (only parsing).

(** ** Data models read by the tasks *)

Record port := { port_id : string }.

(** The amphora object returned by [compute.get_amphora]: only its
    [status] attribute and the result of its [to_dict()] are used. *)
Record amphora := { status : string; to_dict : dict }.

(** A row of [db_lb.amphorae]. *)
Record db_amphora := { amp_id : string; amp_compute_id : pyval }.

Record db_loadbalancer := { amphorae : list db_amphora }.

Record server_group := { sg_id : string }.

(** ** Configuration and constants *)

(** The options of [CONF] that the module reads. *)
Record conf := {
  amp_boot_network_list : list string;
  user_data_config_drive : bool;
  amp_ssh_key_name : option string;
  loadbalancer_topology : string;
  amp_flavor_id : string;
  amp_image_id : string;
  amp_image_tag : string;
  amp_image_owner_id : string;
  amp_secgroup_list : list string;
  amp_active_retries : Z;
  amp_active_wait_sec : Z;
  build_rate_limit : Z;
  logging_template_override : option string;
  anti_affinity_policy : string
}.

(** The names of [octavia.common.constants] that the module uses; their
    values are taken as given. *)
Record constants := {
  LB_CREATE_NORMAL_PRIORITY : Z;
  LOADBALANCER_TOPOLOGY : string;
  COMPUTE_FLAVOR : string;
  COMPUTE_ZONE : string;
  MANAGEMENT_NETWORK : string;
  LOADBALANCER_ID : string;
  ID : string;
  COMPUTE_ID : string;
  ACTIVE : string;
  ERROR : string
}.

(** ** Calls to collaborators *)

(** The keyword arguments of [compute.build]. *)
Record build_args := {
  b_name : string;
  b_amphora_flavor : string;
  b_image_id : string;
  b_image_tag : string;
  b_image_owner : string;
  b_key_name : option string;
  b_sec_groups : list string;
  b_network_ids : list string;
  b_port_ids : list string;
  b_config_drive_files : option dict;
  b_user_data : option string;
  b_server_group_id : option string;
  b_availability_zone : option string
}.

Inductive level : Type := LvlDebug | LvlWarning | LvlError | LvlException.

(** One entry of the trace. *)
Inductive event : Type :=
| call_build (a : build_args)
| call_delete (compute_id : pyval)
| call_get_amphora (compute_id : string) (amp_network : option string)
| call_create_server_group (name policy : string)
| call_delete_server_group (server_group_id : pyval)
| call_add_to_build_request_queue (amphora_id : string) (priority : Z)
| call_remove_from_build_req_queue (amphora_id : string)
| call_get_session
| call_repo_get (lb_id : string)
| call_sleep (seconds : Z)
| call_log (lvl : level) (msg : string).

Definition is_build (e : event) : bool :=
  match e with call_build _ => true | _ => false end.
Definition is_delete (e : event) : bool :=
  match e with call_delete _ => true | _ => false end.
Definition is_get_amphora (e : event) : bool :=
  match e with call_get_amphora _ _ => true | _ => false end.
Definition is_create_server_group (e : event) : bool :=
  match e with call_create_server_group _ _ => true | _ => false end.
Definition is_delete_server_group (e : event) : bool :=
  match e with call_delete_server_group _ => true | _ => false end.
Definition is_repo_get (e : event) : bool :=
  match e with call_repo_get _ => true | _ => false end.
Definition is_get_session (e : event) : bool :=
  match e with call_get_session => true | _ => false end.
Definition is_sleep (e : event) : bool :=
  match e with call_sleep _ => true | _ => false end.

Definition is_add_to_build_request_queue (e : event) : bool :=
  match e with call_add_to_build_request_queue _ _ => true | _ => false end.
Definition is_remove_from_build_req_queue (e : event) : bool :=
  match e with call_remove_from_build_req_queue _ => true | _ => false end.

(** A call on [self.compute]. *)
Definition is_driver_call (e : event) : bool :=
  match e with
  | call_build _ | call_delete _ | call_get_amphora _ _
  | call_create_server_group _ _ | call_delete_server_group _ => true
  | _ => false
  end.

(** A call on [self.rate_limit]. *)
Definition is_gate_call (e : event) : bool :=
  match e with
  | call_add_to_build_request_queue _ _
  | call_remove_from_build_req_queue _ => true
  | _ => false
  end.

(** Number of entries of a trace of the given kind. *)
Definition calls (p : event -> bool) (t : list event) : nat :=
  length (List.filter p t).

(** The compute driver is chosen by configuration and is arbitrary.  Each
    operation answers from its arguments and from the number of earlier
    calls of the same operation, so an answer may change from one call to
    the next (a status that moves from building to active, a delete that
    fails the second time). *)
Record ComputeDriver := {
  driver_build : nat -> build_args -> outcome string;
  driver_delete : nat -> pyval -> outcome unit;
  driver_get_amphora :
    nat -> string -> option string -> outcome (amphora * option string);
  driver_create_server_group : nat -> string -> string -> outcome server_group;
  driver_delete_server_group : nat -> pyval -> outcome unit
}.

(** The jinja templaters: renderers of their arguments, which may raise. *)
Record Templaters := {
  build_agent_config : string -> string -> outcome string;
  build_logging_config : option string -> outcome string;
  build_user_data_config : dict -> outcome string
}.

(** [LoadBalancerRepository.get]: [None] when there is no such row. *)
Record LoadBalancerRepository := {
  repo_get : nat -> string -> outcome (option db_loadbalancer)
}.

(** [octavia.db.api]: [get_session()] gives a database session or
    raises.  The session is only handed on to the repository, whose
    answer is the repository's own, so it is not represented further. *)
Class DbApis := {
  get_session : nat -> outcome unit
}.

(** The [time] module of the interpreter: [time.sleep(seconds)] returns
    once the interval has passed, or raises without sleeping when it
    does not accept the interval (a negative one gives a
    [ValueError]). *)
Class TimeModule := {
  time_sleep : Z -> outcome unit
}.

(** The interface of [amphora_rate_limit.AmphoraBuildRateLimit] over its
    own state [G]. *)
Class AmphoraBuildRateLimit (G : Type) := {
  add_to_build_request_queue : string -> Z -> G -> outcome unit * G;
  remove_from_build_req_queue : string -> G -> outcome unit * G
}.

(** ** The Admission Gate *)

(** Modelled from the spec: the module
    [octavia.controller.worker.amphora_rate_limit], which implements the
    rate limit, is missing.  Section 3 gives the ticket as
    (amphora id, priority class, enqueue timestamp), section 5 keeps the
    tickets in a map keyed by amphora id; here the timestamp is the
    gate's own logical clock. *)
Record ticket := { priority : Z; enqueued : nat }.

Record admission_gate := { tickets : gmap string ticket; clock : nat }.

(** Modelled from the spec: [admission], the gate's first operation,
    registers a ticket if the gate is below the configured limit, and
    unconditionally if the limit is disabled (section 4.2); at capacity
    this gate rejects, one of the policies that section 7 allows. *)
Definition admission (limit : Z) (amphora_id : string) (prio : Z)
    (g : admission_gate) : outcome unit * admission_gate :=
  if bool_decide (limit = -1 ∨ Z.of_nat (size (tickets g)) < limit)%Z then
    (Returns tt,
     {| tickets := <[amphora_id := {| priority := prio; enqueued := clock g |}]>
                     (tickets g);
        clock := S (clock g) |})
  else (Raises (CollaboratorError "admission gate at capacity"), g).

(** Modelled from the spec: [release] removes the ticket if present and
    is a no-op otherwise (section 4.2). *)
Definition release (amphora_id : string) (g : admission_gate)
    : outcome unit * admission_gate :=
  (Returns tt,
   {| tickets := base.delete amphora_id (tickets g); clock := clock g |}).

(** Number of outstanding tickets of an amphora id. *)
Definition ticket_count (g : admission_gate) (amphora_id : string) : nat :=
  match tickets g !! amphora_id with
  | Some _ => 1%nat
  | None => 0%nat
  end.

(** The rate limit of the tasks, played by the gate of the spec. *)
Definition spec_gate (limit : Z) : AmphoraBuildRateLimit admission_gate :=
  {| add_to_build_request_queue := admission limit;
     remove_from_build_req_queue := release |}.

(** ** The monad of the tasks *)

(** The store of dictionaries, the trace and the rate limit's state. *)
Record world (G : Type) := World {
  heap : gmap loc dict;
  trace : list event;
  gate : G
}.
Arguments World {G} heap trace gate.
Arguments heap {G} w.
Arguments trace {G} w.
Arguments gate {G} w.

Definition M (G A : Type) : Type := world G -> outcome A * world G.

Definition ret {G A} (a : A) : M G A := fun w => (Returns a, w).

Definition raise {G A} (e : exn) : M G A := fun w => (Raises e, w).

Definition bind {G A B} (m : M G A) (k : A -> M G B) : M G B :=
  fun w =>
    match m w with
    | (Returns a, w') => k a w'
    | (Raises e, w') => (Raises e, w')
    end.

Notation "x <- m ;; k" := (bind m (fun x => k))
  (at level 100, m at next level, right associativity).
Notation "m ;;; k" := (bind m (fun _ => k))
  (at level 100, right associativity).

(** [try: m except Exception as e: h e]; what [m] did to the state
    before it raised stays done. *)
Definition try_except {G A} (m : M G A) (h : exn -> M G A) : M G A :=
  fun w =>
    match m w with
    | (Returns a, w') => (Returns a, w')
    | (Raises e, w') => h e w'
    end.

(** Appends one entry to the trace. *)
Definition emit {G} (e : event) : M G unit :=
  fun w => (Returns tt, World (heap w) (trace w ++ [e]) (gate w)).

(** A call to a collaborator that answers by the number of earlier calls
    of the same kind. *)
Definition collaborator_call {G A} (kind : event -> bool) (e : event)
    (answer : nat -> outcome A) : M G A :=
  fun w => (answer (calls kind (trace w)),
            World (heap w) (trace w ++ [e]) (gate w)).

(** A call to the rate limit, which owns the [gate] component. *)
Definition gate_call {G} (e : event) (op : G -> outcome unit * G) : M G unit :=
  fun w => let (r, g) := op (gate w) in
           (r, World (heap w) (trace w ++ [e]) g).

Definition LOG {G} (lvl : level) (msg : string) : M G unit :=
  emit (call_log lvl msg).

(** [time.sleep(seconds)]: the call is made and returns or raises as
    the [time] module has it. *)
Definition sleep {G} {time_module : TimeModule} (seconds : Z) : M G unit :=
  collaborator_call is_sleep (call_sleep seconds)
    (fun _ => time_sleep seconds).

(** The dictionary a reference points to; a reference always points to
    one in Python, and a location outside the store reads as empty. *)
Definition deref (h : gmap loc dict) (l : loc) : dict := default ∅ (h !! l).

(** Truth value of a dictionary: the empty one is false. *)
Definition dict_truthy (h : gmap loc dict) (l : loc) : bool :=
  negb (bool_decide (deref h l = ∅)).

(** An expression that only reads the store. *)
Definition reads {G A} (f : gmap loc dict -> A) : M G A :=
  fun w => (Returns (f (heap w)), w).

(** [{}]: a new dictionary at a location not yet in the store. *)
Definition new_dict {G} : M G loc :=
  fun w => let l := fresh (dom (heap w)) in
           (Returns l, World (<[l := ∅]> (heap w)) (trace w) (gate w)).

(** [d[key] = value] *)
Definition dict_set {G} (l : loc) (key value : string) : M G unit :=
  fun w => (Returns tt,
            World (<[l := <[key := value]> (deref (heap w) l)]> (heap w))
                  (trace w) (gate w)).

(** Lifts a templater's answer. *)
Definition lift {G A} (r : outcome A) : M G A := fun w => (r, w).

Section Tasks.

Context {G : Type} {rate_limit : AmphoraBuildRateLimit G}.
Context {time_module : TimeModule} {db_apis : DbApis}.
Variable CONF : conf.
Variable K : constants.
Variable compute : ComputeDriver.
Variable templaters : Templaters.
Variable loadbalancer_repo : LoadBalancerRepository.

(** *** [self.compute] *)

Definition compute_build (a : build_args) : M G string :=
  collaborator_call is_build (call_build a) (fun n => driver_build compute n a).

Definition compute_delete (compute_id : pyval) : M G unit :=
  collaborator_call is_delete (call_delete compute_id)
    (fun n => driver_delete compute n compute_id).

Definition compute_get_amphora (compute_id : string) (amp_network : option string)
    : M G (amphora * option string) :=
  collaborator_call is_get_amphora (call_get_amphora compute_id amp_network)
    (fun n => driver_get_amphora compute n compute_id amp_network).

Definition compute_create_server_group (name policy : string) : M G server_group :=
  collaborator_call is_create_server_group (call_create_server_group name policy)
    (fun n => driver_create_server_group compute n name policy).

Definition compute_delete_server_group (server_group_id : pyval) : M G unit :=
  collaborator_call is_delete_server_group
    (call_delete_server_group server_group_id)
    (fun n => driver_delete_server_group compute n server_group_id).

(** *** [self.rate_limit] *)

Definition rate_limit_add_to_build_request_queue (amphora_id : string)
    (priority : Z) : M G unit :=
  gate_call (call_add_to_build_request_queue amphora_id priority)
    (add_to_build_request_queue amphora_id priority).

Definition rate_limit_remove_from_build_req_queue (amphora_id : string) : M G unit :=
  gate_call (call_remove_from_build_req_queue amphora_id)
    (remove_from_build_req_queue amphora_id).

(** *** [ComputeActiveWait] *)

(** Lines 228-231: the management network of the availability zone,
    read in store [h]. *)
Definition resolve_amp_network (h : gmap loc dict)
    (availability_zone : option loc) : option string :=
  match availability_zone with
  | Some az =>
      if dict_truthy h az then deref h az !! MANAGEMENT_NETWORK K else None
  | None => None
  end.

(** Lines 232-242: the [for] loop over [range(amp_active_retries)] with
    [n] iterations left, followed by the [raise] after the loop. *)
Fixpoint active_wait_loop (n : nat) (compute_id amphora_id : string)
    (amp_network : option string) : M G dict :=
  match n with
  | O => raise (ComputeWaitTimeoutException compute_id)
  | S n' =>
      r <- compute_get_amphora compute_id amp_network ;;
      let '(amp, fault) := r in
      if String.eqb (status amp) (ACTIVE K) then
        (if negb (Z.eqb (build_rate_limit CONF) (-1))
         then rate_limit_remove_from_build_req_queue amphora_id
         else ret tt) ;;;
        ret (to_dict amp)
      else if String.eqb (status amp) (ERROR K) then
        raise (ComputeBuildException fault)
      else
        sleep (amp_active_wait_sec CONF) ;;;
        active_wait_loop n' compute_id amphora_id amp_network
  end.

Definition ComputeActiveWait_execute (compute_id amphora_id : string)
    (availability_zone : option loc) : M G dict :=
  amp_network <- reads (fun h => resolve_amp_network h availability_zone) ;;
  active_wait_loop (Z.to_nat (amp_active_retries CONF))
    compute_id amphora_id amp_network.

(** *** [ComputeCreate] *)

(** [config_drive_files or {}]: the caller's dictionary when it is given
    and not empty, a new empty one otherwise. *)
Definition or_new_dict (o : option loc) : M G loc :=
  match o with
  | Some l =>
      b <- reads (fun h => dict_truthy h l) ;;
      if b then ret l else new_dict
  | None => new_dict
  end.

(** [ports or []] *)
Definition or_empty_list (ports : option (list port)) : list port :=
  match ports with
  | Some ps => ps
  | None => []
  end.

(** Truth value of a string: the empty one is false. *)
Definition str_truthy (s : string) : bool := negb (String.eqb s "").

(** Lines 76-83: topology and compute flavor, from the Octavia flavor
    when there is one, read in store [h]. *)
Definition resolve_flavor (h : gmap loc dict) (flavor : option loc)
    : string * string :=
  match flavor with
  | Some fl =>
      if dict_truthy h fl then
        (default (loadbalancer_topology CONF)
           (deref h fl !! LOADBALANCER_TOPOLOGY K),
         default (amp_flavor_id CONF) (deref h fl !! COMPUTE_FLAVOR K))
      else (loadbalancer_topology CONF, amp_flavor_id CONF)
  | None => (loadbalancer_topology CONF, amp_flavor_id CONF)
  end.

(** Lines 85-92: the compute zone and the network list, read in store
    [h]; [network_ids] comes in as the copy of [amp_boot_network_list]
    made on line 67. *)
Definition resolve_availability_zone (h : gmap loc dict)
    (availability_zone : option loc) (network_ids : list string)
    : option string * list string :=
  match availability_zone with
  | Some az =>
      if dict_truthy h az then
        let amp_availability_zone := deref h az !! COMPUTE_ZONE K in
        let amp_network := deref h az !! MANAGEMENT_NETWORK K in
        (amp_availability_zone,
         match amp_network with
         | Some n => if str_truthy n then [n] else network_ids
         | None => network_ids
         end)
      else (None, network_ids)
  | None => (None, network_ids)
  end.

(** Lines 94-96: the build slot, asked for unless the rate limit is
    disabled. *)
Definition request_build_slot (amphora_id : string) (build_type_priority : Z)
    : M G unit :=
  if negb (Z.eqb (build_rate_limit CONF) (-1))
  then rate_limit_add_to_build_request_queue amphora_id build_type_priority
  else ret tt.

(** Lines 98-111: the agent and logging configurations are rendered and
    stored in [config_drive_files]; the result is the pair
    ([config_drive_files], [user_data]) that goes to the driver. *)
Definition render_config_drive (amphora_id topology : string)
    (config_drive_files : loc) : M G (option dict * option string) :=
  agent_config <- lift (build_agent_config templaters amphora_id topology) ;;
  dict_set config_drive_files "/etc/octavia/amphora-agent.conf" agent_config ;;;
  logging_config <-
    lift (build_logging_config templaters (logging_template_override CONF)) ;;
  dict_set config_drive_files "/etc/rsyslog.d/10-rsyslog.conf" logging_config ;;;
  files <- reads (fun h => deref h config_drive_files) ;;
  if user_data_config_drive CONF then
    user_data <- lift (build_user_data_config templaters files) ;;
    ret (None, Some user_data)
  else
    ret (Some files, None).

(** Lines 113-130: the driver builds the instance. *)
Definition build_instance (amphora_id : string)
    (server_group_id : option string) (ports : list port)
    (network_ids : list string) (amp_compute_flavor : string)
    (amp_availability_zone : option string)
    (payload : option dict * option string) : M G string :=
  compute_id <- compute_build
    {| b_name := "amphora-" ++ amphora_id;
       b_amphora_flavor := amp_compute_flavor;
       b_image_id := amp_image_id CONF;
       b_image_tag := amp_image_tag CONF;
       b_image_owner := amp_image_owner_id CONF;
       b_key_name := amp_ssh_key_name CONF;
       b_sec_groups := amp_secgroup_list CONF;
       b_network_ids := network_ids;
       b_port_ids := List.map port_id ports;
       b_config_drive_files := fst payload;
       b_user_data := snd payload;
       b_server_group_id := server_group_id;
       b_availability_zone := amp_availability_zone |} ;;
  LOG LvlDebug "Server created with id: %s for amphora id: %s" ;;;
  ret compute_id.

(** Lines 94-130: the body of the [try]. *)
Definition ComputeCreate_try (amphora_id : string) (config_drive_files : loc)
    (build_type_priority : Z) (server_group_id : option string)
    (ports : list port) (network_ids : list string)
    (topology amp_compute_flavor : string)
    (amp_availability_zone : option string) : M G string :=
  request_build_slot amphora_id build_type_priority ;;;
  payload <- render_config_drive amphora_id topology config_drive_files ;;
  build_instance amphora_id server_group_id ports network_ids
    amp_compute_flavor amp_availability_zone payload.

(** Lines 93-135: the [try] with its [except] clause, which logs and
    raises the exception again. *)
Definition ComputeCreate_guarded (amphora_id : string)
    (config_drive_files : loc) (build_type_priority : Z)
    (server_group_id : option string) (ports : list port)
    (network_ids : list string) (topology amp_compute_flavor : string)
    (amp_availability_zone : option string) : M G string :=
  try_except
    (ComputeCreate_try amphora_id config_drive_files build_type_priority
       server_group_id ports network_ids topology amp_compute_flavor
       amp_availability_zone)
    (fun e =>
       LOG LvlException "Compute create for amphora id: %s failed" ;;;
       raise e).

(** [ComputeCreate.execute].  The keyword arguments that default to
    [None] are options; [build_type_priority] is passed by the caller
    ([LB_CREATE_NORMAL_PRIORITY] when the flow leaves it out). *)
Definition ComputeCreate_execute (amphora_id : string)
    (config_drive_files : option loc) (build_type_priority : Z)
    (server_group_id : option string) (ports : option (list port))
    (flavor availability_zone : option loc) : M G string :=
  let ports := or_empty_list ports in
  let network_ids := amp_boot_network_list CONF in
  config_drive_files <- or_new_dict config_drive_files ;;
  LOG LvlDebug "Compute create execute for amphora with id %s" ;;;
  fl <- reads (fun h => resolve_flavor h flavor) ;;
  az <- reads (fun h => resolve_availability_zone h availability_zone
                          network_ids) ;;
  ComputeCreate_guarded amphora_id config_drive_files build_type_priority
    server_group_id ports (snd az) (fst fl) (snd fl) (fst az).

(** [ComputeCreate.revert] *)
Definition ComputeCreate_revert (result : pyval) (amphora_id : string)
    : M G unit :=
  if is_Failure result then ret tt
  else
    let compute_id := result in
    LOG LvlWarning
      "Reverting compute create for amphora with id %(amp)s and compute id: %(comp)s" ;;;
    try_except (compute_delete compute_id)
      (fun _ => LOG LvlException "Reverting compute create failed").

(** *** [DeleteAmphoraeOnLoadBalancer] *)

(** [d[key]] *)
Definition dict_subscript (l : loc) (key : string) : M G string :=
  fun w => match deref (heap w) l !! key with
           | Some v => (Returns v, w)
           | None => (Raises (KeyError key), w)
           end.

Definition loadbalancer_repo_get (lb_id : string)
    : M G (option db_loadbalancer) :=
  collaborator_call is_repo_get (call_repo_get lb_id)
    (fun n => repo_get loadbalancer_repo n lb_id).

(** Lines 192-199: the [for] loop over [db_lb.amphorae]. *)
Fixpoint delete_amphorae (amps : list db_amphora) : M G unit :=
  match amps with
  | [] => ret tt
  | amp :: rest =>
      try_except (compute_delete (amp_compute_id amp))
        (fun e =>
           LOG LvlException "Compute delete for amphora id: %s failed" ;;;
           raise e) ;;;
      delete_amphorae rest
  end.

(** [db_apis.get_session()] *)
Definition db_apis_get_session : M G unit :=
  collaborator_call is_get_session call_get_session get_session.

(** Lines 190-199.  The arguments of [loadbalancer_repo.get] are
    evaluated from left to right: the session is asked for first, then
    the load balancer id is read. *)
Definition DeleteAmphoraeOnLoadBalancer_execute (loadbalancer : loc)
    : M G unit :=
  session <- db_apis_get_session ;;
  lb_id <- dict_subscript loadbalancer (LOADBALANCER_ID K) ;;
  db_lb <- loadbalancer_repo_get lb_id ;;
  match db_lb with
  | Some lb => delete_amphorae (amphorae lb)
  | None => raise (AttributeError "amphorae")
  end.

(** *** [ComputeDelete] *)

Definition ComputeDelete_execute (amphora : loc) : M G unit :=
  LOG LvlDebug "Compute Delete execute for amphora with id %s" ;;;
  try_except
    (compute_id <- dict_subscript amphora (COMPUTE_ID K) ;;
     compute_delete (VStr compute_id))
    (fun e =>
       LOG LvlException "Compute delete for amphora id: %s failed" ;;;
       raise e).

(** *** [NovaServerGroupCreate] and [NovaServerGroupDelete] *)

Definition NovaServerGroupCreate_execute (loadbalancer_id : string)
    : M G string :=
  let name := "octavia-lb-" ++ loadbalancer_id in
  server_group <-
    compute_create_server_group name (anti_affinity_policy CONF) ;;
  LOG LvlDebug "Server Group created with id: %s for load balancer id: %s" ;;;
  ret (sg_id server_group).

Definition NovaServerGroupCreate_revert (result : pyval) : M G unit :=
  let server_group_id := result in
  LOG LvlWarning "Reverting server group create with id:%s" ;;;
  try_except (compute_delete_server_group server_group_id)
    (fun _ =>
       LOG LvlError
         "Failed to delete server group.  Resources may still be in use for server group: %(sg)s due to error: %(except)s").

Definition NovaServerGroupDelete_execute (server_group_id : pyval)
    : M G unit :=
  match server_group_id with
  | VNone => ret tt
  | _ => compute_delete_server_group server_group_id
  end.

(** *** Vocabulary of the properties *)

(** The entries a run added to the trace. *)
Definition new_events (w w' : world G) : list event :=
  drop (length (trace w)) (trace w').

(** A status that keeps the poller waiting: neither [ACTIVE] nor
    [ERROR] (the instance is still building). *)
Definition still_building (a : amphora) : Prop :=
  status a ≠ ACTIVE K ∧ status a ≠ ERROR K.

(** What the driver reports at the [i]-th poll (from 0) of a run that
    starts in [w]. *)
Definition reported (w : world G) (compute_id : string)
    (amp_network : option string) (i : nat)
    : outcome (amphora * option string) :=
  driver_get_amphora compute (calls is_get_amphora (trace w) + i)
    compute_id amp_network.

(** The first [k] polls all report a building instance. *)
Definition building_until (w : world G) (compute_id : string)
    (amp_network : option string) (k : nat) : Prop :=
  ∀ i, (i < k)%nat →
    ∃ a f, reported w compute_id amp_network i = Returns (a, f)
           ∧ still_building a.

(** The trace of [k] polls that found the instance building: each a
    status query followed by the sleep. *)
Fixpoint building_rounds (k : nat) (compute_id : string)
    (amp_network : option string) : list event :=
  match k with
  | O => []
  | S k' =>
      call_get_amphora compute_id amp_network
        :: call_sleep (amp_active_wait_sec CONF)
        :: building_rounds k' compute_id amp_network
  end.

(** A task [m] keeps the relation [R] between the state it starts in
    and the state it ends in, whatever its outcome. *)
Definition preserves {A} (R : relation (world G)) (m : M G A) : Prop :=
  ∀ w, R w (snd (m w)).

(** The run only added entries that satisfy [P] to the trace. *)
Definition emits_only (P : event → Prop) : relation (world G) :=
  λ w w', ∃ evs, trace w' = (trace w ++ evs)%list ∧ Forall P evs.

(** The run left the rate limit's state as it was. *)
Definition same_gate : relation (world G) :=
  λ w w', gate w' = gate w.

(** The run left the whole store as it was. *)
Definition same_heap : relation (world G) :=
  λ w w', heap w' = heap w.

(** The run left the store as it was, except for the entries [keys] of
    the dictionary at [l]. *)
Definition writes_within (l : loc) (keys : list string)
    : relation (world G) :=
  λ w w', ∀ l',
    (l' ≠ l → heap w' !! l' = heap w !! l')
    ∧ (∀ k, k ∉ keys → deref (heap w') l !! k = deref (heap w) l !! k).

End Tasks.

(** *** [CertComputeCreate] *)

(** What [CertComputeCreate.execute] reads before it delegates: the file
    named by [CONF.controller_worker.client_ca], the passphrase given by
    [utils.get_compatible_server_certs_key_passphrase()] and the Fernet
    decryption under that key ([fernet.Fernet(key)] followed by
    [decrypt]); each may raise. *)
Record CertMaterial := {
  client_ca : string;
  read_file : string -> outcome string;
  get_compatible_server_certs_key_passphrase : outcome string;
  fernet_decrypt : string -> string -> outcome string
}.

(** A dictionary display [{k1: v1, ...}]: a new dictionary with the given
    content, at a location not yet in the store. *)
Definition new_dict_of {G} (d : dict) : M G loc :=
  fun w => let l := fresh (dom (heap w)) in
           (Returns l, World (<[l := d]> (heap w)) (trace w) (gate w)).

Section CertTasks.

Context {G : Type} {rate_limit : AmphoraBuildRateLimit G}.
Variable CONF : conf.
Variable K : constants.
Variable compute : ComputeDriver.
Variable templaters : Templaters.
Variable cert : CertMaterial.

(** Lines 155-180: the CA file is read, the server certificate is
    decrypted, both go into a new dictionary, and the base class's
    [execute] runs on it. *)
Definition CertComputeCreate_execute (amphora_id server_pem : string)
    (build_type_priority : Z) (server_group_id : option string)
    (ports : option (list port)) (flavor availability_zone : option loc)
    : M G string :=
  ca <- lift (read_file cert (client_ca cert)) ;;
  key <- lift (get_compatible_server_certs_key_passphrase cert) ;;
  pem <- lift (fernet_decrypt cert key server_pem) ;;
  config_drive_files <-
    new_dict_of (<["/etc/octavia/certs/client_ca.pem" := ca]>
                   (<["/etc/octavia/certs/server.pem" := pem]> ∅)) ;;
  ComputeCreate_execute CONF K compute templaters amphora_id
    (Some config_drive_files) build_type_priority server_group_id ports
    flavor availability_zone.

End CertTasks.

(** *** The provisioning saga *)

Section SagaTasks.

Context {G : Type} {rate_limit : AmphoraBuildRateLimit G}.
Context {time_module : TimeModule}.
Variable CONF : conf.
Variable K : constants.
Variable compute : ComputeDriver.
Variable templaters : Templaters.
Variable cert : CertMaterial.

(** The placement group of a run: the one the request names, if any, or
    a new one that the saga allocates for the load balancer. *)
Inductive placement : Type :=
| ExistingGroup (server_group_id : option string)
| NewGroup (loadbalancer_id : string).

(** The Instance Create step of a run: [ComputeCreate] on the request's
    boot-config payload, or [CertComputeCreate] on the stored encrypted
    certificate. *)
Inductive instance_create : Type :=
| PlainCreate (config_drive_files : option loc)
| CertCreate (server_pem : string).

Definition instance_create_execute (step : instance_create)
    (amphora_id : string) (build_type_priority : Z)
    (server_group_id : option string) (ports : option (list port))
    (flavor availability_zone : option loc) : M G string :=
  match step with
  | PlainCreate config_drive_files =>
      ComputeCreate_execute CONF K compute templaters amphora_id
        config_drive_files build_type_priority server_group_id ports flavor
        availability_zone
  | CertCreate server_pem =>
      CertComputeCreate_execute CONF K compute templaters cert amphora_id
        server_pem build_type_priority server_group_id ports flavor
        availability_zone
  end.

(** Modelled from the spec: the orchestrator is the flow engine, outside
    this module.  Section 2 has it run Instance Create, then the
    Readiness Poller, and on a failure revert what ran before;
    section 4.1 hands [revert] the failure marker when the step's own
    [execute] failed and its result when a later step failed.  A revert's
    own outcome is never looked at.  [CertComputeCreate] inherits the
    [revert] of [ComputeCreate]; [ComputeActiveWait] defines none.  The
    admission of section 2 is the request that Instance Create itself
    makes on lines 94-96. *)
Definition create_and_wait (step : instance_create) (amphora_id : string)
    (build_type_priority : Z) (server_group_id : option string)
    (ports : option (list port)) (flavor availability_zone : option loc)
    : M G dict :=
  fun w =>
    match instance_create_execute step amphora_id build_type_priority
            server_group_id ports flavor availability_zone w with
    | (Raises e, w1) =>
        (Raises e, snd (ComputeCreate_revert compute (VFailure e) amphora_id w1))
    | (Returns compute_id, w1) =>
        match ComputeActiveWait_execute CONF K compute compute_id amphora_id
                availability_zone w1 with
        | (Returns amp, w2) => (Returns amp, w2)
        | (Raises e, w2) =>
            (Raises e,
             snd (ComputeCreate_revert compute (VStr compute_id) amphora_id w2))
        end
    end.

(** Modelled from the spec: section 2 sequences Group Create before
    Instance Create.  When the saga allocates the group, its id is the
    placement group of the instance, and the group's [revert] runs last
    in the unwinding, on the group id, or on the failure marker when
    Group Create itself failed. *)
Definition provision_saga (group : placement) (step : instance_create)
    (amphora_id : string) (build_type_priority : Z)
    (ports : option (list port)) (flavor availability_zone : option loc)
    : M G dict :=
  match group with
  | ExistingGroup server_group_id =>
      create_and_wait step amphora_id build_type_priority server_group_id
        ports flavor availability_zone
  | NewGroup loadbalancer_id =>
      fun w =>
        match NovaServerGroupCreate_execute CONF compute loadbalancer_id w with
        | (Raises e, w1) =>
            (Raises e, snd (NovaServerGroupCreate_revert compute (VFailure e) w1))
        | (Returns server_group_id, w1) =>
            match create_and_wait step amphora_id build_type_priority
                    (Some server_group_id) ports flavor availability_zone w1 with
            | (Returns amp, w2) => (Returns amp, w2)
            | (Raises e, w2) =>
                (Raises e,
                 snd (NovaServerGroupCreate_revert compute
                        (VStr server_group_id) w2))
            end
        end
  end.

End SagaTasks.

(** ** Sample deployments

    Concrete collaborators on which the properties are exercised. *)

Definition sample_constants : constants :=
  {| LB_CREATE_NORMAL_PRIORITY := 40;
     LOADBALANCER_TOPOLOGY := "loadbalancer_topology";
     COMPUTE_FLAVOR := "compute_flavor";
     COMPUTE_ZONE := "compute_zone";
     MANAGEMENT_NETWORK := "management_network";
     LOADBALANCER_ID := "loadbalancer_id";
     ID := "id";
     COMPUTE_ID := "compute_id";
     ACTIVE := "ACTIVE";
     ERROR := "ERROR" |}.

(** A configuration with the given sleep interval, build rate limit and
    retry count. *)
Definition sample_conf_wait (wait limit retries : Z) : conf :=
  {| amp_boot_network_list := ["lb-mgmt-net"; "backup-net"];
     user_data_config_drive := false;
     amp_ssh_key_name := Some "octavia_ssh_key";
     loadbalancer_topology := "SINGLE";
     amp_flavor_id := "65";
     amp_image_id := "";
     amp_image_tag := "amphora";
     amp_image_owner_id := "";
     amp_secgroup_list := ["lb-mgmt-sec-grp"];
     amp_active_retries := retries;
     amp_active_wait_sec := wait;
     build_rate_limit := limit;
     logging_template_override := None;
     anti_affinity_policy := "anti-affinity" |}.

(** The same with no wait between polls. *)
Definition sample_conf (limit retries : Z) : conf :=
  sample_conf_wait 0 limit retries.

(** [time.sleep] as the interpreter has it on the intervals used here:
    a negative one raises [ValueError]. *)
Definition python_time : TimeModule :=
  {| time_sleep := fun seconds =>
       if Z.ltb seconds 0
       then Raises (ValueError "sleep length must be non-negative")
       else Returns tt |}.

(** A database that gives a session, or has none to give. *)
Definition sample_db_apis (available : bool) : DbApis :=
  {| get_session := fun _ =>
       if available then Returns tt
       else Raises (CollaboratorError "database unreachable") |}.

Definition sample_templaters : Templaters :=
  {| build_agent_config := fun amphora_id topology =>
       Returns ("[DEFAULT] amphora_id = " ++ amphora_id);
     build_logging_config := fun _ => Returns "*.* action(type=omfwd)";
     build_user_data_config := fun _ => Returns "#cloud-config" |}.

(** A driver that reports the statuses of a script, one per poll
    (["BUILD"] once the script is over) and whose [n]-th delete fails
    when [failing_delete] is [Some n]. *)
Definition scripted_driver (statuses : list string)
    (failing_delete : option nat) : ComputeDriver :=
  {| driver_build := fun _ _ => Returns "vm-1";
     driver_delete := fun n _ =>
       if bool_decide (failing_delete = Some n)
       then Raises (CollaboratorError "delete failed")
       else Returns tt;
     driver_get_amphora := fun n compute_id _ =>
       let st := nth n statuses "BUILD" in
       Returns ({| status := st; to_dict := {[ "compute_id" := compute_id ]} |},
                if String.eqb st "ERROR" then Some "No valid host was found"
                else None);
     driver_create_server_group := fun _ name _ =>
       Returns {| sg_id := "sg-" ++ name |};
     driver_delete_server_group := fun _ _ =>
       Raises (CollaboratorError "server group in use") |}.

(** A repository whose load balancer has three amphorae. *)
Definition sample_repo : LoadBalancerRepository :=
  {| repo_get := fun _ _ =>
       Returns (Some {| amphorae :=
         [ {| amp_id := "amp-1"; amp_compute_id := VStr "vm-1" |};
           {| amp_id := "amp-2"; amp_compute_id := VStr "vm-2" |};
           {| amp_id := "amp-3"; amp_compute_id := VStr "vm-3" |} ] |}) |}.

(** Certificate material whose decryption succeeds or, when [broken],
    raises. *)
Definition sample_cert (broken : bool) : CertMaterial :=
  {| client_ca := "/etc/octavia/certs/ca_01.pem";
     read_file := fun _ => Returns "CA";
     get_compatible_server_certs_key_passphrase := Returns "passphrase";
     fernet_decrypt := fun _ token =>
       if broken then Raises (CollaboratorError "InvalidToken")
       else Returns ("PEM:" ++ token) |}.

(** A driver whose build fails, whose polls raise from the [n]-th on
    when [failing_poll] is [Some n] and report ["BUILD"] before, and
    whose other calls return. *)
Definition failing_driver (failing_poll : option nat) : ComputeDriver :=
  {| driver_build := fun _ _ => Raises (CollaboratorError "no quota");
     driver_delete := fun _ _ => Returns tt;
     driver_get_amphora := fun n compute_id _ =>
       match failing_poll with
       | Some k =>
           if bool_decide (k ≤ n)%nat
           then Raises (CollaboratorError "nova unreachable")
           else Returns ({| status := "BUILD"; to_dict := ∅ |}, None)
       | None => Returns ({| status := "BUILD"; to_dict := ∅ |}, None)
       end;
     driver_create_server_group := fun _ name _ =>
       Returns {| sg_id := "sg-" ++ name |};
     driver_delete_server_group := fun _ _ => Returns tt |}.

(** A repository with no row for the load balancer. *)
Definition empty_repo : LoadBalancerRepository :=
  {| repo_get := fun _ _ => Returns None |}.

(** A repository whose load balancer has no amphora. *)
Definition vacant_repo : LoadBalancerRepository :=
  {| repo_get := fun _ _ => Returns (Some {| amphorae := [] |}) |}.

(** Templaters whose logging configuration fails to render. *)
Definition failing_templaters : Templaters :=
  {| build_agent_config := fun amphora_id topology =>
       Returns ("[DEFAULT] amphora_id = " ++ amphora_id);
     build_logging_config := fun _ =>
       Raises (CollaboratorError "TemplateNotFound");
     build_user_data_config := fun _ => Returns "#cloud-config" |}.

(** An entry of the trace written by [LOG.exception]. *)
Definition is_exception_log (e : event) : bool :=
  match e with call_log LvlException _ => true | _ => false end.

(** The gate with no ticket. *)
Definition empty_gate : admission_gate := {| tickets := ∅; clock := 0 |}.

(** A rate limit that does nothing, for runs that never reach it. *)
Definition no_gate : AmphoraBuildRateLimit unit :=
  {| add_to_build_request_queue := fun _ _ g => (Returns tt, g);
     remove_from_build_req_queue := fun _ g => (Returns tt, g) |}.

(** ** Properties *)

Local Open Scope list_scope.

Section Properties.

Context {G : Type} {rate_limit : AmphoraBuildRateLimit G}.
Context {time_module : TimeModule} {db_apis : DbApis}.
Variable CONF : conf.
Variable K : constants.
Variable compute : ComputeDriver.

(** *** Frames *)

Global Instance emits_only_preorder (P : event → Prop) :
  PreOrder (emits_only (G:=G) P).
Proof.
  split.
  - intros w. exists []. by rewrite app_nil_r.
  - intros w1 w2 w3 (e1 & H1 & F1) (e2 & H2 & F2).
    exists (e1 ++ e2). rewrite H2, H1, app_assoc. split; [done|].
    by apply Forall_app.
Qed.

Global Instance same_gate_preorder : PreOrder (same_gate (G:=G)).
Proof.
  split; [done|]. unfold same_gate. intros w1 w2 w3 H1 H2. congruence.
Qed.

Global Instance same_heap_preorder : PreOrder (same_heap (G:=G)).
Proof.
  split; [done|]. unfold same_heap. intros w1 w2 w3 H1 H2. congruence.
Qed.

Global Instance writes_within_preorder (l : loc) (keys : list string) :
  PreOrder (writes_within (G:=G) l keys).
Proof.
  split; [done|].
  intros w1 w2 w3 H1 H2 l'. destruct (H1 l') as [A1 B1], (H2 l') as [A2 B2].
  split.
  - intros Hne. by rewrite A2, A1.
  - intros k Hk. by rewrite B2, B1.
Qed.

Section Compose.

Context (R : relation (world G)) `{!PreOrder R}.

Lemma preserves_ret {A} (a : A) : preserves R (ret a).
Proof. intros w. reflexivity. Qed.

Lemma preserves_raise {A} (e : exn) : preserves (A:=A) R (raise e).
Proof. intros w. reflexivity. Qed.

Lemma preserves_lift {A} (r : outcome A) : preserves R (lift r).
Proof. intros w. reflexivity. Qed.

Lemma preserves_reads {A} (f : gmap loc dict → A) : preserves R (reads f).
Proof. intros w. reflexivity. Qed.

Lemma preserves_bind {A B} (m : M G A) (k : A → M G B) :
  preserves R m → (∀ a, preserves R (k a)) → preserves R (bind m k).
Proof.
  intros Hm Hk w. unfold bind. specialize (Hm w).
  destruct (m w) as [[a|e] w1]; cbn [snd] in *; [|done].
  etrans; [exact Hm|apply Hk].
Qed.

Lemma preserves_try_except {A} (m : M G A) (h : exn → M G A) :
  preserves R m → (∀ e, preserves R (h e)) → preserves R (try_except m h).
Proof.
  intros Hm Hh w. unfold try_except. specialize (Hm w).
  destruct (m w) as [[a|e] w1]; cbn [snd] in *; [done|].
  etrans; [exact Hm|apply Hh].
Qed.

Lemma preserves_dict_subscript (l : loc) (key : string) :
  preserves R (dict_subscript (G:=G) l key).
Proof.
  intros w. unfold dict_subscript.
  destruct (deref (heap w) l !! key); reflexivity.
Qed.

End Compose.

(** What each kind of step does to the three frames. *)

Lemma emit_emits (P : event → Prop) (e : event) :
  P e → preserves (emits_only P) (emit (G:=G) e).
Proof. intros He w. exists [e]. split; [done|]. by apply Forall_singleton. Qed.

Lemma collaborator_call_emits {A} (P : event → Prop) (kind : event → bool)
    (e : event) (answer : nat → outcome A) :
  P e → preserves (emits_only P) (collaborator_call (G:=G) kind e answer).
Proof. intros He w. exists [e]. split; [done|]. by apply Forall_singleton. Qed.

Lemma gate_call_emits (P : event → Prop) (e : event)
    (op : G → outcome unit * G) :
  P e → preserves (emits_only P) (gate_call e op).
Proof.
  intros He w. exists [e]. unfold gate_call. destruct (op (gate w)).
  split; [done|]. by apply Forall_singleton.
Qed.

Lemma dict_set_emits (P : event → Prop) (l : loc) (k v : string) :
  preserves (emits_only P) (dict_set (G:=G) l k v).
Proof. intros w. exists []. cbn. by rewrite app_nil_r. Qed.

Lemma emit_same_gate (e : event) : preserves same_gate (emit (G:=G) e).
Proof. done. Qed.

Lemma collaborator_call_same_gate {A} (kind : event → bool) (e : event)
    (answer : nat → outcome A) :
  preserves same_gate (collaborator_call (G:=G) kind e answer).
Proof. done. Qed.

Lemma dict_set_same_gate (l : loc) (k v : string) :
  preserves same_gate (dict_set (G:=G) l k v).
Proof. done. Qed.

Lemma emit_same_heap (e : event) : preserves same_heap (emit (G:=G) e).
Proof. done. Qed.

Lemma collaborator_call_same_heap {A} (kind : event → bool) (e : event)
    (answer : nat → outcome A) :
  preserves same_heap (collaborator_call (G:=G) kind e answer).
Proof. done. Qed.

Lemma gate_call_same_heap (e : event) (op : G → outcome unit * G) :
  preserves same_heap (gate_call e op).
Proof. intros w. unfold gate_call. by destruct (op (gate w)). Qed.

Lemma emit_writes_within (l : loc) (keys : list string) (e : event) :
  preserves (writes_within l keys) (emit (G:=G) e).
Proof. done. Qed.

Lemma collaborator_call_writes_within {A} (l : loc) (keys : list string)
    (kind : event → bool) (e : event) (answer : nat → outcome A) :
  preserves (writes_within l keys) (collaborator_call (G:=G) kind e answer).
Proof. done. Qed.

Lemma gate_call_writes_within (l : loc) (keys : list string) (e : event)
    (op : G → outcome unit * G) :
  preserves (writes_within l keys) (gate_call e op).
Proof. intros w l'. unfold gate_call. by destruct (op (gate w)). Qed.

Lemma deref_insert (h : gmap loc dict) (l : loc) (d : dict) :
  deref (<[l := d]> h) l = d.
Proof. unfold deref. by rewrite lookup_insert_eq. Qed.

Lemma dict_set_writes_within (l : loc) (keys : list string) (k v : string) :
  k ∈ keys → preserves (writes_within l keys) (dict_set (G:=G) l k v).
Proof.
  intros Hk w l'. cbn [dict_set snd heap]. split.
  - intros Hne. by rewrite lookup_insert_ne.
  - intros k' Hk'. rewrite deref_insert, lookup_insert_ne; [done|].
    intros ->. contradiction.
Qed.

Ltac frame :=
  repeat first
    [ match goal with |- PreOrder _ => apply _ end
    | apply preserves_ret | apply preserves_raise | apply preserves_lift
    | apply preserves_reads | apply preserves_dict_subscript
    | apply emit_same_heap | apply collaborator_call_same_heap
    | apply gate_call_same_heap
    | apply emit_emits | apply collaborator_call_emits
    | apply gate_call_emits | apply dict_set_emits
    | apply emit_same_gate | apply collaborator_call_same_gate
    | apply dict_set_same_gate
    | apply emit_writes_within | apply collaborator_call_writes_within
    | apply gate_call_writes_within | apply dict_set_writes_within
    | apply preserves_bind; [| |intros ?]
    | apply preserves_try_except; [| |intros ?]
    | match goal with
      | |- preserves _ (if ?b then _ else _) => destruct b
      | |- preserves _ (let '(_, _) := ?x in _) => destruct x
      end ].

(** *** Traces *)

Lemma calls_app (p : event -> bool) (t u : list event) :
  calls p (t ++ u) = (calls p t + calls p u)%nat.
Proof. unfold calls. by rewrite List.filter_app, length_app. Qed.

Lemma new_events_app (w w' : world G) (evs : list event) :
  trace w' = trace w ++ evs → new_events w w' = evs.
Proof. unfold new_events. intros ->. by rewrite drop_app_length. Qed.

Lemma calls_building_rounds (k : nat) (cid : string) (net : option string) :
  calls is_get_amphora (building_rounds CONF k cid net) = k.
Proof.
  induction k as [|k IH]; [done|].
  unfold calls in *. simpl. by rewrite IH.
Qed.

(** *** The readiness poller *)

(** While the driver reports a building instance and the sleep returns,
    the loop polls, sleeps and goes round again. *)
Lemma active_wait_loop_building (k n : nat) (cid aid : string)
    (net : option string) (w : world G) :
  time_sleep (amp_active_wait_sec CONF) = Returns tt →
  building_until K compute w cid net k →
  active_wait_loop CONF K compute (k + n) cid aid net w
  = active_wait_loop CONF K compute n cid aid net
      (World (heap w) (trace w ++ building_rounds CONF k cid net) (gate w)).
Proof.
  intros Hsleep. revert w. induction k as [|k IH]; intros w Hb.
  - simpl. rewrite app_nil_r. by destruct w.
  - destruct (Hb 0%nat ltac:(lia)) as (a & f & Ha & Hna & Hne).
    unfold reported in Ha. rewrite Nat.add_0_r in Ha.
    change (S k + n)%nat with (S (k + n)).
    cbn [active_wait_loop].
    unfold bind at 1, compute_get_amphora, collaborator_call.
    rewrite Ha.
    apply String.eqb_neq in Hna, Hne. rewrite Hna, Hne.
    unfold bind at 1, sleep, collaborator_call. rewrite Hsleep.
    cbn [heap trace gate].
    rewrite IH.
    + cbn [heap trace gate]. rewrite <- !app_assoc. reflexivity.
    + intros i Hi. destruct (Hb (S i) ltac:(lia)) as (a' & f' & Ha' & Hb').
      exists a', f'. split; [|done].
      unfold reported in *. cbn [trace].
      rewrite !calls_app. unfold calls at 2 3. simpl.
      rewrite <- Ha'. f_equal. lia.
Qed.

(** The poll that follows [k] building rounds asks the driver for its
    [k]-th report. *)
Lemma active_wait_loop_next (k n : nat) (cid aid : string)
    (net : option string) (w : world G) :
  time_sleep (amp_active_wait_sec CONF) = Returns tt →
  building_until K compute w cid net k →
  active_wait_loop CONF K compute (k + S n) cid aid net w
  = (let w1 := World (heap w)
                 ((trace w ++ building_rounds CONF k cid net)
                    ++ [call_get_amphora cid net]) (gate w) in
     match reported compute w cid net k with
     | Returns (amp, fault) =>
         if String.eqb (status amp) (ACTIVE K) then
           ((if negb (Z.eqb (build_rate_limit CONF) (-1))
             then rate_limit_remove_from_build_req_queue aid
             else ret tt) ;;; ret (to_dict amp)) w1
         else if String.eqb (status amp) (ERROR K) then
           (Raises (ComputeBuildException fault), w1)
         else
           (sleep (amp_active_wait_sec CONF) ;;;
            active_wait_loop CONF K compute n cid aid net) w1
     | Raises e => (Raises e, w1)
     end).
Proof.
  intros Hsleep Hb. rewrite active_wait_loop_building by done.
  cbn [active_wait_loop].
  unfold bind at 1, compute_get_amphora, collaborator_call, reported.
  cbn [heap trace gate]. rewrite calls_app, calls_building_rounds.
  destruct (driver_get_amphora compute _ cid net) as [[amp fault]|e]; [|done].
  destruct (String.eqb (status amp) (ACTIVE K)); [done|].
  by destruct (String.eqb (status amp) (ERROR K)).
Qed.

Lemma ComputeActiveWait_execute_eq (cid aid : string) (az : option loc)
    (w : world G) :
  ComputeActiveWait_execute CONF K compute cid aid az w
  = active_wait_loop CONF K compute (Z.to_nat (amp_active_retries CONF))
      cid aid (resolve_amp_network K (heap w) az) w.
Proof. reflexivity. Qed.


(** *** Reverts *)

(** What [ComputeCreate.revert] does, step by step. *)
Lemma ComputeCreate_revert_run (result : pyval) (aid : string) (w : world G) :
  ComputeCreate_revert compute result aid w
  = (Returns tt,
     if is_Failure result then w
     else
       World (heap w)
         (trace w
            ++ [call_log LvlWarning
                  "Reverting compute create for amphora with id %(amp)s and compute id: %(comp)s";
                call_delete result]
            ++ match driver_delete compute (calls is_delete (trace w)) result with
               | Returns _ => []
               | Raises _ =>
                   [call_log LvlException "Reverting compute create failed"]
               end)
         (gate w)).
Proof.
  unfold ComputeCreate_revert.
  destruct (is_Failure result); [done|].
  unfold bind, LOG, emit, try_except, compute_delete, collaborator_call.
  cbn [heap trace gate]. rewrite calls_app.
  unfold calls at 2. cbn [List.filter is_delete length]. rewrite Nat.add_0_r.
  destruct (driver_delete compute _ result) as [[]|e];
    cbn [heap trace gate]; by rewrite <- !app_assoc.
Qed.

(** What [NovaServerGroupCreate.revert] does, step by step. *)
Lemma NovaServerGroupCreate_revert_run (result : pyval) (w : world G) :
  NovaServerGroupCreate_revert compute result w
  = (Returns tt,
     World (heap w)
       (trace w
          ++ [call_log LvlWarning "Reverting server group create with id:%s";
              call_delete_server_group result]
          ++ match driver_delete_server_group compute
                     (calls is_delete_server_group (trace w)) result with
             | Returns _ => []
             | Raises _ =>
                 [call_log LvlError
                    "Failed to delete server group.  Resources may still be in use for server group: %(sg)s due to error: %(except)s"]
             end)
       (gate w)).
Proof.
  unfold NovaServerGroupCreate_revert.
  unfold bind, LOG, emit, try_except, compute_delete_server_group,
    collaborator_call.
  cbn [heap trace gate]. rewrite calls_app.
  unfold calls at 2. cbn [List.filter is_delete_server_group length].
  rewrite Nat.add_0_r.
  destruct (driver_delete_server_group compute _ result) as [[]|e];
    cbn [heap trace gate]; by rewrite <- !app_assoc.
Qed.

(** The calls a revert of [ComputeCreate] makes on the driver. *)
Lemma ComputeCreate_revert_driver_calls (result : pyval) (aid : string)
    (w : world G) :
  List.filter is_driver_call
    (new_events w (snd (ComputeCreate_revert compute result aid w)))
  = if is_Failure result then [] else [call_delete result].
Proof.
  rewrite ComputeCreate_revert_run. cbn [snd].
  destruct (is_Failure result).
  - rewrite (new_events_app w w []); [done|by rewrite app_nil_r].
  - erewrite new_events_app by reflexivity.
    by destruct (driver_delete compute _ result).
Qed.

(** C4 (the half the code misses).  [NovaServerGroupCreate.revert] has
    no check for the failure marker: when [execute] itself failed and
    [revert] receives the [Failure], it still calls the driver's
    [delete_server_group] once, with the [Failure] object as the group
    id, whereas [ComputeCreate.revert] on the same marker returns at once
    and leaves the trace as it was. *)
Theorem NovaServerGroupCreate_revert_failure_calls_driver
    (e : exn) (aid : string) (w : world G) :
  List.filter is_driver_call
    (new_events w (snd (NovaServerGroupCreate_revert compute (VFailure e) w)))
  = [call_delete_server_group (VFailure e)]
  ∧ ComputeCreate_revert compute (VFailure e) aid w = (Returns tt, w).
Proof.
  split; [|by rewrite ComputeCreate_revert_run].
  rewrite NovaServerGroupCreate_revert_run. cbn [snd].
  erewrite new_events_app by reflexivity.
  by destruct (driver_delete_server_group compute _ _).
Qed.

(** C5. Neither revert ever raises, whatever [result] it receives and
    whatever the driver's delete does: each returns normally, and a
    delete that raised is followed in the trace by the log entry of the
    [except] clause and by nothing else, so the failure being unwound is
    not replaced by another one. *)
Theorem reverts_never_raise (result : pyval) (aid : string) (w : world G) :
  let run_create := ComputeCreate_revert compute result aid w in
  let run_group := NovaServerGroupCreate_revert compute result w in
  fst run_create = Returns tt
  ∧ fst run_group = Returns tt
  ∧ (∀ e, is_Failure result = false →
       driver_delete compute (calls is_delete (trace w)) result = Raises e →
       ∃ msg, new_events w (snd run_create)
              = [call_log LvlWarning msg; call_delete result;
                 call_log LvlException "Reverting compute create failed"])
  ∧ (∀ e, driver_delete_server_group compute
            (calls is_delete_server_group (trace w)) result = Raises e →
       ∃ msg msg', new_events w (snd run_group)
                   = [call_log LvlWarning msg;
                      call_delete_server_group result;
                      call_log LvlError msg']).
Proof.
  cbn zeta.
  rewrite ComputeCreate_revert_run, NovaServerGroupCreate_revert_run.
  cbn [fst snd]. repeat split.
  - intros e Hnf He. rewrite Hnf, He. eexists.
    by erewrite new_events_app by reflexivity.
  - intros e He. rewrite He. do 2 eexists.
    by erewrite new_events_app by reflexivity.
Qed.

(** C9, as the code has it.  [NovaServerGroupDelete.execute] with no
    group id ([None]) returns normally and leaves the trace as it was, so
    no call reaches the driver, and no run ever hands the driver [None].
    With any other value it makes exactly one call,
    [delete_server_group] on that value, and gives back what the driver
    gave: the test on line 281 is [is not None], so the empty identifier
    is passed on like any other. *)
Theorem NovaServerGroupDelete_execute_calls (w : world G) :
  NovaServerGroupDelete_execute compute VNone w = (Returns tt, w)
  ∧ (∀ v : pyval,
       v ≠ VNone →
       let run := NovaServerGroupDelete_execute compute v w in
       fst run = driver_delete_server_group compute
                   (calls is_delete_server_group (trace w)) v
       ∧ new_events w (snd run) = [call_delete_server_group v])
  ∧ (∀ (v : pyval) (e : event),
       e ∈ new_events w (snd (NovaServerGroupDelete_execute compute v w)) →
       e ≠ call_delete_server_group VNone).
Proof.
  split; [done|]. split.
  - intros v Hv. destruct v; [done| |]; cbn; (split; [done|]);
      by erewrite new_events_app by reflexivity.
  - intros v e. destruct v; cbn.
    + rewrite (new_events_app w w []) by (by rewrite app_nil_r).
      by intros ?%elem_of_nil.
    + erewrite new_events_app by reflexivity.
      intros ->%list_elem_of_singleton. congruence.
    + erewrite new_events_app by reflexivity.
      intros ->%list_elem_of_singleton. congruence.
Qed.

(** *** Bulk teardown *)

Section Teardown.

Variable loadbalancer_repo : LoadBalancerRepository.

Lemma filter_driver_call_deletes (hs : list pyval) :
  List.filter is_driver_call (call_delete <$> hs) = call_delete <$> hs.
Proof. induction hs as [|h hs IH]; [done|]. simpl. f_equal. exact IH. Qed.

Lemma calls_delete_snoc (t : list event) (h : pyval) :
  calls is_delete (t ++ [call_delete h]) = S (calls is_delete t).
Proof. rewrite calls_app. unfold calls at 2. simpl. lia. Qed.

(** When every delete returns, the loop deletes each amphora in turn. *)
Lemma delete_amphorae_all (amps : list db_amphora) (w : world G) :
  (∀ j a, amps !! j = Some a →
     driver_delete compute (calls is_delete (trace w) + j) (amp_compute_id a)
     = Returns tt) →
  delete_amphorae compute amps w
  = (Returns tt,
     World (heap w) (trace w ++ (call_delete <$> (amp_compute_id <$> amps)))
       (gate w)).
Proof.
  revert w. induction amps as [|a rest IH]; intros w Hok.
  - simpl. rewrite app_nil_r. by destruct w.
  - cbn [delete_amphorae].
    unfold bind at 1, try_except, compute_delete, collaborator_call.
    pose proof (Hok 0%nat a eq_refl) as H0. rewrite Nat.add_0_r in H0.
    rewrite H0, IH.
    + cbn [heap trace gate fmap list_fmap]. by rewrite <- app_assoc.
    + intros j b Hj. cbn [trace]. rewrite calls_delete_snoc.
      rewrite <- (Hok (S j) b Hj). f_equal. lia.
Qed.

(** When the [i]-th delete is the first to raise, the loop stops there:
    it logs and raises the same exception. *)
Lemma delete_amphorae_first_failure (i : nat) (amps : list db_amphora)
    (a : db_amphora) (e : exn) (w : world G) :
  amps !! i = Some a →
  (∀ j b, (j < i)%nat → amps !! j = Some b →
     driver_delete compute (calls is_delete (trace w) + j) (amp_compute_id b)
     = Returns tt) →
  driver_delete compute (calls is_delete (trace w) + i) (amp_compute_id a)
  = Raises e →
  delete_amphorae compute amps w
  = (Raises e,
     World (heap w)
       (trace w ++ (call_delete <$> (amp_compute_id <$> take (S i) amps))
          ++ [call_log LvlException
                "Compute delete for amphora id: %s failed"])
       (gate w)).
Proof.
  revert amps w. induction i as [|i IH]; intros [|a0 rest] w Hi Hok He;
    try discriminate.
  - injection Hi as ->. rewrite Nat.add_0_r in He.
    cbn [delete_amphorae].
    unfold bind at 1, try_except, compute_delete, collaborator_call.
    rewrite He. unfold bind, LOG, emit, raise. cbn [heap trace gate].
    rewrite firstn_cons, take_0. cbn [fmap list_fmap].
    by rewrite <- !app_assoc.
  - cbn [delete_amphorae].
    unfold bind at 1, try_except, compute_delete, collaborator_call.
    pose proof (Hok 0%nat a0 ltac:(lia) eq_refl) as H0.
    rewrite Nat.add_0_r in H0. rewrite H0.
    rewrite (IH rest _ Hi).
    + cbn [heap trace gate]. rewrite firstn_cons.
      cbn [fmap list_fmap]. by rewrite <- !app_assoc.
    + intros j b Hj Hb. cbn [trace]. rewrite calls_delete_snoc.
      rewrite <- (Hok (S j) b ltac:(lia) Hb). f_equal. lia.
    + cbn [trace]. rewrite calls_delete_snoc. rewrite <- He. f_equal. lia.
Qed.

(** [execute], step by step: the session, the load balancer id, the
    repository row, then the loop. *)
Lemma DeleteAmphoraeOnLoadBalancer_execute_run (loadbalancer : loc)
    (w : world G) :
  DeleteAmphoraeOnLoadBalancer_execute K compute loadbalancer_repo
    loadbalancer w
  = let w1 := World (heap w) (trace w ++ [call_get_session]) (gate w) in
    match get_session (calls is_get_session (trace w)) with
    | Raises e => (Raises e, w1)
    | Returns _ =>
        match deref (heap w) loadbalancer !! LOADBALANCER_ID K with
        | None => (Raises (KeyError (LOADBALANCER_ID K)), w1)
        | Some lb_id =>
            let w2 :=
              World (heap w)
                (trace w ++ [call_get_session; call_repo_get lb_id])
                (gate w) in
            match repo_get loadbalancer_repo (calls is_repo_get (trace w))
                    lb_id with
            | Raises e => (Raises e, w2)
            | Returns None => (Raises (AttributeError "amphorae"), w2)
            | Returns (Some lb) => delete_amphorae compute (amphorae lb) w2
            end
        end
    end.
Proof.
  unfold DeleteAmphoraeOnLoadBalancer_execute.
  unfold bind at 1, db_apis_get_session, collaborator_call.
  destruct (get_session _) as [[]|e]; [|done].
  unfold bind at 1, dict_subscript. cbn [heap trace gate].
  destruct (deref (heap w) loadbalancer !! LOADBALANCER_ID K) as [lb_id|];
    [|done].
  unfold bind, loadbalancer_repo_get, collaborator_call.
  cbn [heap trace gate]. rewrite calls_app. unfold calls at 2.
  cbn [List.filter is_repo_get length]. rewrite Nat.add_0_r.
  rewrite <- app_assoc. cbn [app].
  by destruct (repo_get loadbalancer_repo _ lb_id) as [[lb|]|e].
Qed.

(** C6. Bulk teardown of a load balancer whose repository row lists the
    compute ids [hs] (the session is obtained, the load balancer carries
    its id and the repository returns the row): the driver's delete is
    called on them in order; if the delete of the [i]-th is the first to
    raise, the task raises that same exception and the driver has been
    called on exactly the first [i + 1] ids, so none of the later ones
    was attempted; if no delete raises, the task returns and the driver
    has been called exactly once per id, in order. *)
Theorem DeleteAmphoraeOnLoadBalancer_execute_stops_at_first_failure
    (loadbalancer : loc) (lb_id : string) (lb : db_loadbalancer)
    (w : world G) :
  get_session (calls is_get_session (trace w)) = Returns tt →
  deref (heap w) loadbalancer !! LOADBALANCER_ID K = Some lb_id →
  repo_get loadbalancer_repo (calls is_repo_get (trace w)) lb_id
  = Returns (Some lb) →
  let hs := amp_compute_id <$> amphorae lb in
  let answer i h :=
    driver_delete compute (calls is_delete (trace w) + i) h in
  let run :=
    DeleteAmphoraeOnLoadBalancer_execute K compute loadbalancer_repo
      loadbalancer w in
  let driver_calls := List.filter is_driver_call (new_events w (snd run)) in
  (∀ i h e,
     hs !! i = Some h →
     (∀ j hj, (j < i)%nat → hs !! j = Some hj → answer j hj = Returns tt) →
     answer i h = Raises e →
     fst run = Raises e ∧ driver_calls = call_delete <$> take (S i) hs)
  ∧ ((∀ j hj, hs !! j = Some hj → answer j hj = Returns tt) →
     fst run = Returns tt ∧ driver_calls = call_delete <$> hs).
Proof.
  intros Hsession Hid Hrepo hs answer run driver_calls.
  subst driver_calls run answer hs.
  rewrite DeleteAmphoraeOnLoadBalancer_execute_run, Hsession, Hid, Hrepo.
  cbn zeta.
  set (w1 := World (heap w)
               (trace w ++ [call_get_session; call_repo_get lb_id]) (gate w)).
  assert (calls is_delete (trace w1) = calls is_delete (trace w)) as Hd.
  { subst w1. cbn [trace]. rewrite calls_app. unfold calls at 2. simpl. lia. }
  split.
  - intros i h e Hi Hok He.
    apply list_lookup_fmap_Some in Hi as (a & -> & Hi).
    rewrite (delete_amphorae_first_failure i (amphorae lb) a e w1 Hi).
    + cbn [fst snd]. split; [done|].
      erewrite new_events_app
        by (subst w1; cbn [trace]; rewrite <- app_assoc; reflexivity).
      cbn [app List.filter is_driver_call].
      rewrite List.filter_app, filter_driver_call_deletes. cbn.
      by rewrite app_nil_r, fmap_take.
    + intros j b Hj Hb. rewrite Hd. apply Hok; [done|].
      by rewrite list_lookup_fmap, Hb.
    + by rewrite Hd.
  - intros Hok.
    rewrite (delete_amphorae_all (amphorae lb) w1).
    + cbn [fst snd]. split; [done|].
      erewrite new_events_app
        by (subst w1; cbn [trace]; rewrite <- app_assoc; reflexivity).
      cbn [app List.filter is_driver_call].
      by rewrite filter_driver_call_deletes.
    + intros j b Hb. rewrite Hd. apply Hok.
      by rewrite list_lookup_fmap, Hb.
Qed.

End Teardown.

(** *** Instance create *)

Section Create.

Variable templaters : Templaters.

Lemma calls_none (p : event → bool) (evs : list event) :
  Forall (λ e, p e = false) evs → calls p evs = 0%nat.
Proof.
  unfold calls. induction 1 as [|e evs He _ IH]; [done|].
  simpl. by rewrite He.
Qed.

(** Rendering the boot configuration makes no call, and writes only the
    two generated files into [config_drive_files]. *)
Lemma render_config_drive_emits (P : event → Prop) (aid topology : string)
    (l : loc) :
  preserves (emits_only P)
    (render_config_drive (G:=G) CONF templaters aid topology l).
Proof. unfold render_config_drive. frame. Qed.

Lemma render_config_drive_same_gate (aid topology : string) (l : loc) :
  preserves same_gate
    (render_config_drive (G:=G) CONF templaters aid topology l).
Proof. unfold render_config_drive. frame. Qed.

Lemma render_config_drive_writes_within (aid topology : string) (l : loc) :
  preserves
    (writes_within l
       ["/etc/octavia/amphora-agent.conf"; "/etc/rsyslog.d/10-rsyslog.conf"])
    (render_config_drive (G:=G) CONF templaters aid topology l).
Proof. unfold render_config_drive. frame; set_solver. Qed.

Ltac unfold_guarded :=
  unfold ComputeCreate_guarded, ComputeCreate_try, request_build_slot,
    build_instance, render_config_drive,
    rate_limit_add_to_build_request_queue, compute_build, LOG.

(** The guarded body only adds log entries, the request for a build
    slot (when the rate limit is enabled) and a build on [nets]. *)
Lemma ComputeCreate_guarded_emits (P : event → Prop) (aid : string) (l : loc)
    (prio : Z) (sg : option string) (ports : list port) (nets : list string)
    (topology flv : string) (zone : option string) :
  (∀ lvl msg, P (call_log lvl msg)) →
  (build_rate_limit CONF ≠ -1 →
   P (call_add_to_build_request_queue aid prio)) →
  (∀ a, b_network_ids a = nets → P (call_build a)) →
  preserves (emits_only P)
    (ComputeCreate_guarded CONF compute templaters aid l prio sg ports nets
       topology flv zone).
Proof.
  intros Hlog Hadd Hbuild. unfold_guarded.
  destruct (Z.eqb_spec (build_rate_limit CONF) (-1)); cbn [negb];
    frame; auto.
Qed.

Lemma ComputeCreate_guarded_same_gate (aid : string) (l : loc) (prio : Z)
    (sg : option string) (ports : list port) (nets : list string)
    (topology flv : string) (zone : option string) :
  build_rate_limit CONF = -1 →
  preserves same_gate
    (ComputeCreate_guarded CONF compute templaters aid l prio sg ports nets
       topology flv zone).
Proof. intros Hlim. unfold_guarded. rewrite Hlim. cbn [Z.eqb negb]. frame. Qed.

Lemma ComputeCreate_guarded_writes_within (aid : string) (l : loc) (prio : Z)
    (sg : option string) (ports : list port) (nets : list string)
    (topology flv : string) (zone : option string) :
  preserves
    (writes_within l
       ["/etc/octavia/amphora-agent.conf"; "/etc/rsyslog.d/10-rsyslog.conf"])
    (ComputeCreate_guarded CONF compute templaters aid l prio sg ports nets
       topology flv zone).
Proof. unfold_guarded. frame; set_solver. Qed.

(** Allocating an empty dictionary at a location outside the store does
    not change what any reference reads. *)
Lemma deref_alloc (h : gmap loc dict) (l x : loc) :
  l ∉ dom h → deref (<[l := ∅]> h) x = deref h x.
Proof.
  intros Hl. unfold deref. destruct (decide (l = x)) as [->|Hne].
  - rewrite lookup_insert_eq. apply not_elem_of_dom in Hl. by rewrite Hl.
  - by rewrite lookup_insert_ne.
Qed.

Lemma resolve_availability_zone_ext (h h' : gmap loc dict) (az : option loc)
    (nets : list string) :
  (∀ x, deref h' x = deref h x) →
  resolve_availability_zone K h' az nets
  = resolve_availability_zone K h az nets.
Proof.
  intros Hd. unfold resolve_availability_zone, dict_truthy.
  destruct az as [l|]; [|done]. by rewrite Hd.
Qed.

Lemma resolve_flavor_ext (h h' : gmap loc dict) (flavor : option loc) :
  (∀ x, deref h' x = deref h x) →
  resolve_flavor CONF K h' flavor = resolve_flavor CONF K h flavor.
Proof.
  intros Hd. unfold resolve_flavor, dict_truthy.
  destruct flavor as [l|]; [|done]. by rewrite Hd.
Qed.

(** [execute] up to the [try]: the working dictionary [l] is the caller's
    when that is given and not empty, and a new one otherwise; flavor,
    zone and networks are those read in the store [execute] started
    in. *)
Lemma ComputeCreate_execute_unfold (aid : string) (cdf : option loc)
    (prio : Z) (sg : option string) (ports : option (list port))
    (flavor az : option loc) (w : world G) :
  ∃ (l : loc) (h1 : gmap loc dict),
    ((cdf = Some l ∧ dict_truthy (heap w) l = true ∧ h1 = heap w)
     ∨ ((l ∉ dom (heap w)) ∧ h1 = <[l := ∅]> (heap w)
        ∧ ∀ l0, cdf = Some l0 → dict_truthy (heap w) l0 = false))
    ∧ ComputeCreate_execute CONF K compute templaters aid cdf prio sg ports
        flavor az w
      = ComputeCreate_guarded CONF compute templaters aid l prio sg
          (or_empty_list ports)
          (snd (resolve_availability_zone K (heap w) az
                  (amp_boot_network_list CONF)))
          (fst (resolve_flavor CONF K (heap w) flavor))
          (snd (resolve_flavor CONF K (heap w) flavor))
          (fst (resolve_availability_zone K (heap w) az
                  (amp_boot_network_list CONF)))
          (World h1
             (trace w
                ++ [call_log LvlDebug
                      "Compute create execute for amphora with id %s"])
             (gate w)).
Proof.
  assert (∀ h1 l, (∀ x, deref h1 x = deref (heap w) x) →
    (or_new_dict cdf w = (Returns l, World h1 (trace w) (gate w))) →
    ComputeCreate_execute CONF K compute templaters aid cdf prio sg ports
        flavor az w
      = ComputeCreate_guarded CONF compute templaters aid l prio sg
          (or_empty_list ports)
          (snd (resolve_availability_zone K (heap w) az
                  (amp_boot_network_list CONF)))
          (fst (resolve_flavor CONF K (heap w) flavor))
          (snd (resolve_flavor CONF K (heap w) flavor))
          (fst (resolve_availability_zone K (heap w) az
                  (amp_boot_network_list CONF)))
          (World h1
             (trace w
                ++ [call_log LvlDebug
                      "Compute create execute for amphora with id %s"])
             (gate w))) as Hrun.
  { intros h1 l Hd Hor. unfold ComputeCreate_execute.
    unfold bind at 1. rewrite Hor.
    unfold bind, LOG, emit, reads. cbn [heap trace gate].
    by rewrite (resolve_availability_zone_ext (heap w) h1),
         (resolve_flavor_ext (heap w) h1). }
  pose proof (is_fresh (dom (heap w))) as Hfresh.
  destruct cdf as [l0|].
  - destruct (dict_truthy (heap w) l0) eqn:Ht.
    + exists l0, (heap w). split; [by left|].
      apply Hrun; [done|]. unfold or_new_dict, bind, reads.
      cbn [heap]. rewrite Ht. by destruct w.
    + exists (fresh (dom (heap w))), (<[fresh (dom (heap w)) := ∅]> (heap w)).
      split; [right; split_and!; [done..|by intros ? [= ->]]|].
      apply Hrun; [intros x; by apply deref_alloc|].
      unfold or_new_dict, bind, reads. cbn [heap]. by rewrite Ht.
  - exists (fresh (dom (heap w))), (<[fresh (dom (heap w)) := ∅]> (heap w)).
    split; [right; split_and!; [done..|by intros ? [=]]|].
    apply Hrun; [intros x; by apply deref_alloc|done].
Qed.

(** A run that returns went through each step of a sequence. *)
Lemma bind_returns {A B} (m : M G A) (k : A → M G B) (w w' : world G) (b : B) :
  bind m k w = (Returns b, w') →
  ∃ a w1, m w = (Returns a, w1) ∧ k a w1 = (Returns b, w').
Proof.
  unfold bind. destruct (m w) as [[a|e] w1]; [|discriminate]. eauto.
Qed.

(** Rendering that returns has stored both generated files. *)
Lemma render_config_drive_returns (aid topology : string) (l : loc)
    (w w' : world G) (payload : option dict * option string) :
  render_config_drive CONF templaters aid topology l w = (Returns payload, w') →
  ∃ ac lc,
    build_agent_config templaters aid topology = Returns ac
    ∧ build_logging_config templaters (logging_template_override CONF)
      = Returns lc
    ∧ deref (heap w') l
      = <["/etc/rsyslog.d/10-rsyslog.conf" := lc]>
          (<["/etc/octavia/amphora-agent.conf" := ac]> (deref (heap w) l)).
Proof.
  unfold render_config_drive, bind, lift, dict_set, reads, ret.
  destruct (build_agent_config templaters aid topology) as [ac|];
    [|discriminate].
  destruct (build_logging_config templaters _) as [lc|]; [|discriminate].
  cbn [heap trace gate]. rewrite !deref_insert.
  destruct (user_data_config_drive CONF).
  - destruct (build_user_data_config templaters _); [|discriminate].
    intros [= <- <-]. exists ac, lc. cbn [heap]. by rewrite deref_insert.
  - intros [= <- <-]. exists ac, lc. cbn [heap]. by rewrite deref_insert.
Qed.

Lemma writes_within_nil (l : loc) (w w' : world G) :
  writes_within l [] w w' → deref (heap w') l = deref (heap w) l.
Proof.
  intros H. apply map_eq. intros k. apply (H l). apply not_elem_of_nil.
Qed.

(** The guarded body that returns has stored both generated files in the
    working dictionary. *)
Lemma ComputeCreate_guarded_returns (aid : string) (l : loc) (prio : Z)
    (sg : option string) (ports : list port) (nets : list string)
    (topology flv : string) (zone : option string) (w w' : world G)
    (cid : string) :
  ComputeCreate_guarded CONF compute templaters aid l prio sg ports nets
    topology flv zone w = (Returns cid, w') →
  ∃ ac lc,
    build_agent_config templaters aid topology = Returns ac
    ∧ build_logging_config templaters (logging_template_override CONF)
      = Returns lc
    ∧ deref (heap w') l
      = <["/etc/rsyslog.d/10-rsyslog.conf" := lc]>
          (<["/etc/octavia/amphora-agent.conf" := ac]> (deref (heap w) l)).
Proof.
  unfold ComputeCreate_guarded, try_except.
  destruct (ComputeCreate_try _ _ _ _ _ _ _ _ _ _ _ _ w) as [[c|e] w1] eqn:Htry.
  - intros [= -> ->]. unfold ComputeCreate_try in Htry.
    apply bind_returns in Htry as ([] & w2 & Hslot & Htry).
    apply bind_returns in Htry as (payload & w3 & Hrender & Hbuild).
    apply render_config_drive_returns in Hrender as (ac & lc & Ha & Hl & Hd).
    exists ac, lc. split_and!; [done..|].
    assert (deref (heap w2) l = deref (heap w) l) as <-.
    { apply writes_within_nil.
      assert (preserves (writes_within l [])
                (request_build_slot (G:=G) CONF aid prio)) as Hp
        by (unfold request_build_slot, rate_limit_add_to_build_request_queue;
            frame).
      specialize (Hp w). by rewrite Hslot in Hp. }
    rewrite <- Hd. apply writes_within_nil.
    assert (preserves (writes_within l [])
              (build_instance (G:=G) CONF compute aid sg ports nets flv zone
                 payload)) as Hp
      by (unfold build_instance, compute_build, LOG; frame).
    specialize (Hp w3). by rewrite Hbuild in Hp.
  - unfold bind, LOG, emit, raise. discriminate.
Qed.

Lemma calls_emits_only (p : event → bool) (w w' : world G) :
  emits_only (λ e, p e = false) w w' → calls p (trace w') = calls p (trace w).
Proof.
  intros (evs & -> & HF). rewrite calls_app, (calls_none p evs HF). lia.
Qed.

(** The compute id [execute] returns is the answer of the one build it
    asked the driver for. *)
Lemma ComputeCreate_execute_returns_built (aid : string) (cdf : option loc)
    (prio : Z) (sg : option string) (ports : option (list port))
    (flavor az : option loc) (w w1 : world G) (compute_id : string) :
  ComputeCreate_execute CONF K compute templaters aid cdf prio sg ports
    flavor az w = (Returns compute_id, w1) →
  ∃ a, driver_build compute (calls is_build (trace w)) a = Returns compute_id
       ∧ call_build a ∈ new_events w w1.
Proof.
  destruct (ComputeCreate_execute_unfold aid cdf prio sg ports flavor az w)
    as (l & h1 & _ & ->).
  set (w0 := World h1 _ (gate w)).
  unfold ComputeCreate_guarded, try_except.
  destruct (ComputeCreate_try _ _ _ _ _ _ _ _ _ _ _ _ w0) as [[c|e] w'] eqn:Htry;
    [|unfold bind, LOG, emit, raise; discriminate].
  intros [= -> ->]. unfold ComputeCreate_try in Htry.
  apply bind_returns in Htry as ([] & w2 & Hslot & Htry).
  apply bind_returns in Htry as (payload & w3 & Hrender & Hbuild).
  set (P := λ e, is_build e = false).
  assert (emits_only P w w3) as Hpre.
  { trans w0; [|trans w2].
    - exists [call_log LvlDebug
                "Compute create execute for amphora with id %s"].
      split; [reflexivity|]. by apply Forall_singleton.
    - assert (preserves (emits_only P)
                (request_build_slot (G:=G) CONF aid prio)) as Hp
        by (unfold request_build_slot, rate_limit_add_to_build_request_queue;
            frame; done).
      specialize (Hp w0). rewrite Hslot in Hp. exact Hp.
    - pose proof (render_config_drive_emits P aid
                    (fst (resolve_flavor CONF K (heap w) flavor)) l w2) as Hp.
      rewrite Hrender in Hp. exact Hp. }
  pose proof (calls_emits_only is_build w w3 Hpre) as Hcalls.
  destruct Hpre as (evs & Htr & _).
  unfold build_instance, compute_build, bind, collaborator_call, LOG, emit,
    ret in Hbuild.
  rewrite Hcalls in Hbuild. cbn [heap trace gate] in Hbuild.
  match type of Hbuild with
  | context [driver_build compute _ ?a] => exists a
  end.
  destruct (driver_build compute _ _) as [c|e]; [|discriminate].
  injection Hbuild as -> <-. split; [done|].
  unfold new_events. cbn [trace]. rewrite Htr, <- !app_assoc.
  rewrite drop_app_length. set_solver.
Qed.

(** C3. When [ComputeCreate.execute] has returned a compute id (the one
    the driver's build gave), a later [revert] that is handed that id
    calls the driver exactly once, [delete] on that id, and returns. *)
Theorem ComputeCreate_revert_deletes_created (aid : string)
    (cdf : option loc) (prio : Z) (sg : option string)
    (ports : option (list port)) (flavor az : option loc)
    (w w1 w2 : world G) (compute_id : string) :
  ComputeCreate_execute CONF K compute templaters aid cdf prio sg ports
    flavor az w = (Returns compute_id, w1) →
  let undo := ComputeCreate_revert compute (VStr compute_id) aid w2 in
  (∃ a, driver_build compute (calls is_build (trace w)) a = Returns compute_id
        ∧ call_build a ∈ new_events w w1)
  ∧ fst undo = Returns tt
  ∧ List.filter is_driver_call (new_events w2 (snd undo))
    = [call_delete (VStr compute_id)]
  ∧ calls is_delete (new_events w2 (snd undo)) = 1%nat.
Proof.
  intros Hrun undo. subst undo.
  split; [by eapply ComputeCreate_execute_returns_built|].
  split; [by rewrite ComputeCreate_revert_run|].
  split; [by rewrite ComputeCreate_revert_driver_calls|].
  rewrite ComputeCreate_revert_run. cbn [snd is_Failure].
  erewrite new_events_app by reflexivity.
  by destruct (driver_delete compute _ _).
Qed.

Lemma not_elem_of_pair (k a b : string) : k ≠ a → k ≠ b → k ∉ [a; b].
Proof.
  intros Ha Hb Hin.
  apply elem_of_cons in Hin as [?|Hin]; [done|].
  apply elem_of_cons in Hin as [?|Hin]; [done|].
  by apply elem_of_nil in Hin.
Qed.

Lemma dict_truthy_true (h : gmap loc dict) (l : loc) :
  dict_truthy h l = true ↔ deref h l ≠ ∅.
Proof.
  unfold dict_truthy. rewrite negb_true_iff, bool_decide_eq_false. done.
Qed.

Lemma dict_truthy_false (h : gmap loc dict) (l : loc) :
  dict_truthy h l = false ↔ deref h l = ∅.
Proof.
  unfold dict_truthy. rewrite negb_false_iff, bool_decide_eq_true. done.
Qed.

(** C7. Every build that [ComputeCreate.execute] asks of the driver
    carries the networks resolved from the availability zone: when its
    metadata supplies a management network id (a non-empty string), the
    list is exactly that one network, the default boot networks being
    replaced; when there is no availability zone, or its metadata has no
    management network (or an empty one), the list is the configured
    [amp_boot_network_list] unchanged. *)
Theorem ComputeCreate_execute_network_ids (aid : string) (cdf : option loc)
    (prio : Z) (sg : option string) (ports : option (list port))
    (flavor az : option loc) (w : world G) (a : build_args) :
  let run :=
    ComputeCreate_execute CONF K compute templaters aid cdf prio sg ports
      flavor az w in
  call_build a ∈ new_events w (snd run) →
  (∀ l n, az = Some l →
     deref (heap w) l !! MANAGEMENT_NETWORK K = Some n → n ≠ "" →
     b_network_ids a = [n])
  ∧ (az = None → b_network_ids a = amp_boot_network_list CONF)
  ∧ (∀ l, az = Some l →
       deref (heap w) l !! MANAGEMENT_NETWORK K = None →
       b_network_ids a = amp_boot_network_list CONF)
  ∧ (∀ l, az = Some l →
       deref (heap w) l !! MANAGEMENT_NETWORK K = Some "" →
       b_network_ids a = amp_boot_network_list CONF).
Proof.
  intros run Hin. subst run.
  destruct (ComputeCreate_execute_unfold aid cdf prio sg ports flavor az w)
    as (l0 & h1 & _ & Heq).
  rewrite Heq in Hin. clear Heq.
  set (nets := snd (resolve_availability_zone K (heap w) az
                      (amp_boot_network_list CONF))) in *.
  assert (b_network_ids a = nets) as ->.
  { set (P := λ e, ∀ b, e = call_build b → b_network_ids b = nets).
    match type of Hin with
    | context [ComputeCreate_guarded _ _ _ ?aid ?l ?prio ?sg ?ps _ ?t ?f ?z ?w0] =>
        destruct (ComputeCreate_guarded_emits P aid l prio sg ps nets t f z
                    ltac:(done) ltac:(done)
                    ltac:(by intros b Hb c [= <-]) w0)
          as (evs & Htr & HF)
    end.
    unfold new_events in Hin. rewrite Htr in Hin. cbn [trace] in Hin.
    rewrite <- app_assoc, drop_app_length in Hin.
    apply elem_of_cons in Hin as [Hin|Hin]; [discriminate|].
    rewrite Forall_forall in HF. by apply (HF _ Hin). }
  subst nets. unfold resolve_availability_zone. split_and!.
  - intros l n -> Hn Hne. rewrite Hn.
    assert (dict_truthy (heap w) l = true) as ->.
    { apply dict_truthy_true. intros He. by rewrite He in Hn. }
    cbn [snd]. unfold str_truthy.
    apply String.eqb_neq in Hne. by rewrite Hne.
  - by intros ->.
  - intros l -> Hn. rewrite Hn. by destruct (dict_truthy (heap w) l).
  - intros l -> Hn. rewrite Hn. by destruct (dict_truthy (heap w) l).
Qed.

(** With the rate limit disabled the poller's loop makes no call to it. *)
Lemma active_wait_loop_no_gate_call (n : nat) (cid aid : string)
    (net : option string) :
  build_rate_limit CONF = -1 →
  preserves (emits_only (λ e, is_gate_call e = false))
    (active_wait_loop CONF K compute n cid aid net).
Proof.
  intros Hlim. induction n as [|n IH]; cbn [active_wait_loop].
  - frame.
  - unfold compute_get_amphora, sleep. rewrite Hlim. cbn [Z.eqb negb].
    frame; done.
Qed.

Lemma active_wait_loop_same_gate (n : nat) (cid aid : string)
    (net : option string) :
  build_rate_limit CONF = -1 →
  preserves same_gate (active_wait_loop CONF K compute n cid aid net).
Proof.
  intros Hlim. induction n as [|n IH]; cbn [active_wait_loop].
  - frame.
  - unfold compute_get_amphora, sleep. rewrite Hlim. cbn [Z.eqb negb].
    frame; done.
Qed.

(** C10. With [build_rate_limit] at -1, neither [ComputeCreate.execute]
    nor [ComputeActiveWait.execute] touches the rate limit: whatever the
    run and its outcome, the trace gains no call to it and its state is
    the one the run started with. *)
Theorem rate_limit_disabled_no_gate_interaction (aid : string)
    (cdf : option loc) (prio : Z) (sg : option string)
    (ports : option (list port)) (flavor az : option loc) (w : world G)
    (cid aid' : string) (az' : option loc) (w2 : world G) :
  build_rate_limit CONF = -1 →
  let create :=
    ComputeCreate_execute CONF K compute templaters aid cdf prio sg ports
      flavor az w in
  let wait := ComputeActiveWait_execute CONF K compute cid aid' az' w2 in
  (gate (snd create) = gate w
   ∧ calls is_gate_call (new_events w (snd create)) = 0%nat)
  ∧ (gate (snd wait) = gate w2
     ∧ calls is_gate_call (new_events w2 (snd wait)) = 0%nat).
Proof.
  intros Hlim create wait. subst create wait. split.
  - destruct (ComputeCreate_execute_unfold aid cdf prio sg ports flavor az w)
      as (l0 & h1 & _ & ->).
    match goal with
    | |- context [ComputeCreate_guarded _ _ _ ?aid ?l ?prio ?sg ?ps ?n ?t ?f ?z ?w0] =>
        pose proof (ComputeCreate_guarded_same_gate aid l prio sg ps n t f z
                      Hlim w0) as Hg;
        destruct (ComputeCreate_guarded_emits (λ e, is_gate_call e = false)
                    aid l prio sg ps n t f z
                    ltac:(done) ltac:(done) ltac:(done) w0)
          as (evs & Htr & HF)
    end.
    split; [exact Hg|].
    unfold new_events. rewrite Htr. cbn [trace].
    rewrite <- app_assoc, drop_app_length, calls_app.
    by rewrite (calls_none _ evs HF).
  - rewrite ComputeActiveWait_execute_eq.
    split; [by apply active_wait_loop_same_gate|].
    match goal with
    | |- context [active_wait_loop _ _ _ ?n ?c ?a ?net ?w0] =>
        destruct (active_wait_loop_no_gate_call n c a net Hlim w0)
          as (evs & Htr & HF)
    end.
    rewrite (new_events_app _ _ _ Htr). by apply calls_none.
Qed.

(** *** Calls to the rate limit *)

Lemma try_except_bind {A B} (m : M G A) (k : A → M G B) (h : exn → M G B)
    (w : world G) :
  try_except (bind m k) h w
  = match m w with
    | (Returns a, w1) => try_except (k a) h w1
    | (Raises e, w1) => h e w1
    end.
Proof. unfold try_except, bind. by destruct (m w) as [[a|e] w1]. Qed.

Lemma calls_no_gate_call (evs : list event) :
  Forall (λ e, is_gate_call e = false) evs →
  calls is_add_to_build_request_queue evs = 0%nat
  ∧ calls is_remove_from_build_req_queue evs = 0%nat.
Proof.
  intros HF. split; apply calls_none; eapply Forall_impl; try exact HF;
    by intros [].
Qed.

(** With the rate limit enabled, [ComputeCreate.execute] asks it for a
    build slot once, first thing in the [try], and calls it no more; it
    returns only if the slot was granted. *)
Lemma ComputeCreate_execute_gate (aid : string) (cdf : option loc) (prio : Z)
    (sg : option string) (ports : option (list port))
    (flavor az : option loc) (w : world G) :
  build_rate_limit CONF ≠ -1 →
  let run :=
    ComputeCreate_execute CONF K compute templaters aid cdf prio sg ports
      flavor az w in
  let slot := add_to_build_request_queue aid prio (gate w) in
  gate (snd run) = snd slot
  ∧ (∃ evs, trace (snd run) = trace w ++ evs
            ∧ calls is_add_to_build_request_queue evs = 1%nat
            ∧ calls is_remove_from_build_req_queue evs = 0%nat)
  ∧ (∀ cid, fst run = Returns cid → fst slot = Returns tt).
Proof.
  intros Hlim run slot. subst run slot.
  destruct (ComputeCreate_execute_unfold aid cdf prio sg ports flavor az w)
    as (l0 & h1 & _ & ->).
  unfold ComputeCreate_guarded, ComputeCreate_try.
  rewrite try_except_bind. unfold request_build_slot.
  apply Z.eqb_neq in Hlim. rewrite Hlim. cbn [negb].
  unfold rate_limit_add_to_build_request_queue, gate_call. cbn [heap trace gate].
  destruct (add_to_build_request_queue aid prio (gate w)) as [[[]|e] g].
  - match goal with
    | |- context [try_except ?m ?h ?w0] =>
        assert (preserves same_gate (try_except m h)) as Hg
          by (unfold build_instance, render_config_drive, compute_build, LOG;
              frame);
        assert (preserves (emits_only (λ e, is_gate_call e = false))
                  (try_except m h)) as He
          by (unfold build_instance, render_config_drive, compute_build, LOG;
              frame; done);
        specialize (Hg w0); destruct (He w0) as (evs & Htr & HF);
        set (run := try_except m h w0) in *
    end.
    cbn [fst snd gate trace] in *. split_and!; [done| |done].
    destruct (calls_no_gate_call evs HF) as [Ha Hr].
    eexists. rewrite Htr, <- !app_assoc. split; [reflexivity|].
    rewrite !calls_app, Ha, Hr. by unfold calls.
  - unfold bind, LOG, emit, raise. cbn [fst snd heap trace gate].
    split_and!; [done| |done].
    eexists. rewrite <- !app_assoc. split; [reflexivity|]. by unfold calls.
Qed.

(** With the rate limit enabled and a release that returns, the poller
    releases once when it returns and never when it raises. *)
Lemma active_wait_loop_gate (n : nat) (cid aid : string)
    (net : option string) (w w' : world G) (r : outcome dict) :
  build_rate_limit CONF ≠ -1 →
  (∀ g, fst (remove_from_build_req_queue aid g) = Returns tt) →
  active_wait_loop CONF K compute n cid aid net w = (r, w') →
  ∃ evs, trace w' = trace w ++ evs
         ∧ calls is_add_to_build_request_queue evs = 0%nat
         ∧ match r with
           | Returns _ =>
               gate w' = snd (remove_from_build_req_queue aid (gate w))
               ∧ calls is_remove_from_build_req_queue evs = 1%nat
           | Raises _ =>
               gate w' = gate w
               ∧ calls is_remove_from_build_req_queue evs = 0%nat
           end.
Proof.
  intros Hlim Hrel. apply Z.eqb_neq in Hlim.
  revert w. induction n as [|n IH]; intros w Hrun;
    cbn [active_wait_loop] in Hrun.
  - injection Hrun as <- <-. exists []. by rewrite app_nil_r.
  - unfold bind at 1, compute_get_amphora, collaborator_call in Hrun.
    destruct (driver_get_amphora compute _ cid net) as [[amp fault]|e].
    + destruct (String.eqb (status amp) (ACTIVE K)).
      * rewrite Hlim in Hrun. cbn [negb] in Hrun.
        unfold bind, rate_limit_remove_from_build_req_queue, gate_call, ret
          in Hrun.
        cbn [heap trace gate] in Hrun. specialize (Hrel (gate w)).
        destruct (remove_from_build_req_queue aid (gate w)) as [o g].
        cbn [fst] in Hrel. subst o. injection Hrun as <- <-.
        cbn [snd heap trace gate].
        eexists. rewrite <- !app_assoc. split; [reflexivity|]. by unfold calls.
      * destruct (String.eqb (status amp) (ERROR K)).
        -- injection Hrun as <- <-. cbn [heap trace gate].
           eexists. split; [reflexivity|]. by unfold calls.
        -- unfold bind at 1, sleep, collaborator_call in Hrun.
           cbn [heap trace gate] in Hrun.
           destruct (time_sleep _) as [[]|e].
           ++ apply IH in Hrun as (evs & -> & Ha & Hcase).
              cbn [heap trace gate] in *.
              eexists. rewrite <- !app_assoc. split; [reflexivity|].
              rewrite !calls_app, Ha. split; [by unfold calls|].
              destruct r; destruct Hcase as [-> ->]; by unfold calls.
           ++ injection Hrun as <- <-. cbn [heap trace gate].
              eexists. rewrite <- !app_assoc. split; [reflexivity|].
              by unfold calls.
    + injection Hrun as <- <-. cbn [heap trace gate].
      eexists. split; [reflexivity|]. by unfold calls.
Qed.

End Create.

(** *** The store *)

Section Store.

Variable templaters : Templaters.
Variable loadbalancer_repo : LoadBalancerRepository.

Lemma ComputeActiveWait_execute_same_heap (cid aid : string)
    (az : option loc) :
  preserves (same_heap (G:=G)) (ComputeActiveWait_execute CONF K compute cid aid az).
Proof.
  unfold ComputeActiveWait_execute. apply preserves_bind; [apply _|frame|].
  intros net. generalize (Z.to_nat (amp_active_retries CONF)).
  intros n. induction n as [|n IH]; cbn [active_wait_loop].
  - frame.
  - unfold compute_get_amphora, sleep,
      rate_limit_remove_from_build_req_queue. frame. exact IH.
Qed.

Lemma DeleteAmphoraeOnLoadBalancer_execute_same_heap (lb : loc) :
  preserves (same_heap (G:=G))
    (DeleteAmphoraeOnLoadBalancer_execute K compute loadbalancer_repo lb).
Proof.
  unfold DeleteAmphoraeOnLoadBalancer_execute, loadbalancer_repo_get,
    db_apis_get_session.
  frame.
  match goal with
  | |- preserves _ (match ?x with Some _ => _ | None => _ end) =>
      destruct x as [db_lb|]; [|frame]
  end.
  induction (amphorae db_lb) as [|amp rest IH]; cbn [delete_amphorae].
  - frame.
  - unfold compute_delete, LOG. frame. exact IH.
Qed.

Lemma ComputeDelete_execute_same_heap (amp : loc) :
  preserves (same_heap (G:=G)) (ComputeDelete_execute K compute amp).
Proof. unfold ComputeDelete_execute, compute_delete, LOG. frame. Qed.

Lemma NovaServerGroupCreate_execute_same_heap (lb_id : string) :
  preserves (same_heap (G:=G)) (NovaServerGroupCreate_execute CONF compute lb_id).
Proof.
  unfold NovaServerGroupCreate_execute, compute_create_server_group, LOG.
  frame.
Qed.

Lemma NovaServerGroupDelete_execute_same_heap (sg_id : pyval) :
  preserves (same_heap (G:=G)) (NovaServerGroupDelete_execute compute sg_id).
Proof.
  unfold NovaServerGroupDelete_execute, compute_delete_server_group.
  destruct sg_id; frame.
Qed.

(** C8, as the code has it.  [ComputeCreate.execute] changes nothing in
    the store except through [config_drive_files]: a dictionary that is
    not the one passed as [config_drive_files], or that is passed empty,
    is left as it was; in the one passed, no entry other than the two
    generated files changes; and when a non-empty dictionary is passed
    and [execute] returns, that very dictionary has received the rendered
    agent and logging configurations under their two paths.  Every other
    task of the module leaves the whole store as it was. *)
Theorem ComputeCreate_execute_store_frame (aid : string) (cdf : option loc)
    (prio : Z) (sg : option string) (ports : option (list port))
    (flavor az : option loc) (w : world G) :
  let run :=
    ComputeCreate_execute CONF K compute templaters aid cdf prio sg ports
      flavor az w in
  (∀ l, is_Some (heap w !! l) →
     cdf ≠ Some l ∨ deref (heap w) l = ∅ →
     heap (snd run) !! l = heap w !! l)
  ∧ (∀ l k, cdf = Some l →
       k ≠ "/etc/octavia/amphora-agent.conf" →
       k ≠ "/etc/rsyslog.d/10-rsyslog.conf" →
       deref (heap (snd run)) l !! k = deref (heap w) l !! k)
  ∧ (∀ l cid, cdf = Some l → deref (heap w) l ≠ ∅ →
       fst run = Returns cid →
       ∃ ac lc,
         build_agent_config templaters aid
           (fst (resolve_flavor CONF K (heap w) flavor)) = Returns ac
         ∧ build_logging_config templaters (logging_template_override CONF)
           = Returns lc
         ∧ deref (heap (snd run)) l
           = <["/etc/rsyslog.d/10-rsyslog.conf" := lc]>
               (<["/etc/octavia/amphora-agent.conf" := ac]>
                  (deref (heap w) l)))
  ∧ (∀ (w' : world G) cid aid' az' result lb amp lb_id sg_id,
       heap (snd (ComputeActiveWait_execute CONF K compute cid aid' az' w'))
       = heap w'
       ∧ heap (snd (ComputeCreate_revert compute result aid' w')) = heap w'
       ∧ heap (snd (DeleteAmphoraeOnLoadBalancer_execute K compute
                      loadbalancer_repo lb w')) = heap w'
       ∧ heap (snd (ComputeDelete_execute K compute amp w')) = heap w'
       ∧ heap (snd (NovaServerGroupCreate_execute CONF compute lb_id w'))
         = heap w'
       ∧ heap (snd (NovaServerGroupCreate_revert compute result w')) = heap w'
       ∧ heap (snd (NovaServerGroupDelete_execute compute sg_id w'))
         = heap w').
Proof.
  intros run. subst run.
  split_and!;
    [| | |intros w' cid aid' az' result lb amp lb_id sg_id; split_and!;
          [apply ComputeActiveWait_execute_same_heap
          |by rewrite ComputeCreate_revert_run; destruct (is_Failure result)
          |apply DeleteAmphoraeOnLoadBalancer_execute_same_heap
          |apply ComputeDelete_execute_same_heap
          |apply NovaServerGroupCreate_execute_same_heap
          |by rewrite NovaServerGroupCreate_revert_run
          |apply NovaServerGroupDelete_execute_same_heap]].
  all: destruct (ComputeCreate_execute_unfold templaters aid cdf prio sg ports
                   flavor az w) as (l0 & h1 & Hcase & ->).
  all: match goal with
       | |- context [ComputeCreate_guarded _ _ _ ?aid ?l ?prio ?sg ?ps ?n ?t ?f ?z ?w0] =>
           pose proof (ComputeCreate_guarded_writes_within templaters aid l
                         prio sg ps n t f z w0) as Hw;
           set (run := ComputeCreate_guarded _ _ _ aid l prio sg ps n t f z w0)
             in *
       end.
  all: unfold writes_within in Hw; cbn [heap] in Hw.
  all: destruct Hcase as [(-> & Ht & ->)|(Hfresh & -> & Hfalse)].
  all: try apply dict_truthy_true in Ht.
  - intros l _ Hor. apply (Hw l). intros ->.
    destruct Hor as [Hne|He]; [congruence|contradiction].
  - intros l Hl _.
    assert (l ≠ l0) as Hne.
    { intros ->. apply Hfresh. by apply elem_of_dom. }
    rewrite (proj1 (Hw l) Hne). by rewrite lookup_insert_ne.
  - intros l k [= ->] Hk1 Hk2. apply (Hw l). by apply not_elem_of_pair.
  - intros l k Hcdf Hk1 Hk2. specialize (Hfalse l Hcdf).
    apply dict_truthy_false in Hfalse.
    destruct (decide (l = l0)) as [->|Hne].
    + destruct (Hw l0) as [_ Hkeys].
      rewrite Hkeys by (by apply not_elem_of_pair).
      by rewrite deref_insert, Hfalse.
    + unfold deref at 1. rewrite (proj1 (Hw l) Hne).
      by rewrite lookup_insert_ne.
  - intros l cid [= ->] _ Hret. destruct run as [r w'] eqn:Hrun.
    cbn [fst snd] in *. subst r.
    by apply ComputeCreate_guarded_returns in Hrun.
  - intros l cid Hcdf Hne. specialize (Hfalse l Hcdf).
    apply dict_truthy_false in Hfalse. contradiction.
Qed.

End Store.

End Properties.

(** *** The admission ticket over a provisioning run *)

Section Saga.

Context {time_module : TimeModule}.
Variable CONF : conf.
Variable K : constants.
Variable compute : ComputeDriver.
Variable templaters : Templaters.
Variable cert : CertMaterial.

Lemma ticket_count_admission (limit : Z) (aid : string) (prio : Z)
    (g : admission_gate) :
  fst (admission limit aid prio g) = Returns tt →
  ticket_count (snd (admission limit aid prio g)) aid = 1%nat.
Proof.
  unfold admission, ticket_count. case_bool_decide; [|discriminate].
  intros _. cbn. by rewrite lookup_insert_eq.
Qed.

Lemma ticket_count_release (aid : string) (g : admission_gate) :
  ticket_count (snd (release aid g)) aid = 0%nat.
Proof. unfold release, ticket_count. cbn. by rewrite lookup_delete_eq. Qed.

Lemma calls_cons (p : event → bool) (e : event) (t : list event) :
  calls p (e :: t) = ((if p e then 1 else 0) + calls p t)%nat.
Proof. unfold calls. simpl. by destruct (p e). Qed.

Lemma calls_nil (p : event → bool) : calls p [] = 0%nat.
Proof. done. Qed.

(** The reverts leave the rate limit alone. *)
Lemma ComputeCreate_revert_quiet {G : Type} (result : pyval) (aid : string)
    (w : world G) :
  ∃ R, snd (ComputeCreate_revert compute result aid w)
       = World (heap w) (trace w ++ R) (gate w)
       ∧ calls is_add_to_build_request_queue R = 0%nat
       ∧ calls is_remove_from_build_req_queue R = 0%nat.
Proof.
  rewrite ComputeCreate_revert_run. cbn [snd].
  destruct (is_Failure result).
  - exists []. rewrite app_nil_r. by destruct w.
  - eexists. split; [reflexivity|].
    by destruct (driver_delete compute _ _).
Qed.

Lemma NovaServerGroupCreate_revert_quiet {G : Type} (result : pyval)
    (w : world G) :
  ∃ R, snd (NovaServerGroupCreate_revert compute result w)
       = World (heap w) (trace w ++ R) (gate w)
       ∧ calls is_add_to_build_request_queue R = 0%nat
       ∧ calls is_remove_from_build_req_queue R = 0%nat.
Proof.
  rewrite NovaServerGroupCreate_revert_run. cbn [snd].
  eexists. split; [reflexivity|].
  by destruct (driver_delete_server_group compute _ _).
Qed.

(** A run whose requests all come before its releases, with no more
    releases than requests and at most one request, has at every moment
    at most one request that is not yet released. *)
Lemma outstanding_prefix (A B p : list event) :
  calls is_remove_from_build_req_queue A = 0%nat →
  (calls is_add_to_build_request_queue A ≤ 1)%nat →
  calls is_add_to_build_request_queue B = 0%nat →
  (calls is_remove_from_build_req_queue B
   ≤ calls is_add_to_build_request_queue A)%nat →
  p `prefix_of` A ++ B →
  (calls is_remove_from_build_req_queue p
   ≤ calls is_add_to_build_request_queue p ≤ 1)%nat.
Proof.
  intros HrA HaA HaB HrB [k Hk]. symmetry in Hk.
  apply app_eq_inv in Hk as [(k' & -> & ->)|(k' & -> & ->)].
  - rewrite !calls_app in *. lia.
  - rewrite !calls_app in *. lia.
Qed.

(** [NovaServerGroupCreate.execute], step by step. *)
Lemma NovaServerGroupCreate_execute_run {G : Type} (lb_id : string)
    (w : world G) :
  NovaServerGroupCreate_execute CONF compute lb_id w
  = let name := ("octavia-lb-" ++ lb_id)%string in
    let policy := anti_affinity_policy CONF in
    match driver_create_server_group compute
            (calls is_create_server_group (trace w)) name policy with
    | Returns group =>
        (Returns (sg_id group),
         World (heap w)
           (trace w
              ++ [call_create_server_group name policy;
                  call_log LvlDebug
                    "Server Group created with id: %s for load balancer id: %s"])
           (gate w))
    | Raises e =>
        (Raises e,
         World (heap w) (trace w ++ [call_create_server_group name policy])
           (gate w))
    end.
Proof.
  unfold NovaServerGroupCreate_execute, bind, compute_create_server_group,
    collaborator_call, LOG, emit, ret.
  destruct (driver_create_server_group compute _ _ _) as [group|e]; [|done].
  cbn [heap trace gate]. by rewrite <- app_assoc.
Qed.

(** [CertComputeCreate.execute] either fails on the certificate material
    and leaves the world as it was, or is the base class's [execute] on
    a new dictionary, from the same trace and rate-limit state. *)
Lemma CertComputeCreate_execute_cases {G : Type}
    {rate_limit : AmphoraBuildRateLimit G} (aid server_pem : string)
    (prio : Z) (sg : option string) (ports : option (list port))
    (flavor az : option loc) (w : world G) :
  (∃ e, CertComputeCreate_execute CONF K compute templaters cert aid
          server_pem prio sg ports flavor az w = (Raises e, w))
  ∨ (∃ l d,
       CertComputeCreate_execute CONF K compute templaters cert aid
         server_pem prio sg ports flavor az w
       = ComputeCreate_execute CONF K compute templaters aid (Some l) prio
           sg ports flavor az
           (World (<[l := d]> (heap w)) (trace w) (gate w))).
Proof.
  unfold CertComputeCreate_execute, bind, lift, new_dict_of.
  destruct (read_file cert _) as [ca|e]; [|left; by exists e].
  destruct (get_compatible_server_certs_key_passphrase cert) as [key|e];
    [|left; by exists e].
  destruct (fernet_decrypt cert key server_pem) as [pem|e];
    [|left; by exists e].
  right. by eexists _, _.
Qed.

(** With the rate limit enabled, the Instance Create step asks for a
    build slot at most once and releases none; it returns only if the
    slot was granted, and when it has not asked it has raised. *)
Lemma instance_create_execute_gate (step : instance_create) (aid : string)
    (prio : Z) (sg : option string) (ports : option (list port))
    (flavor az : option loc) (w : world admission_gate) :
  build_rate_limit CONF ≠ -1 →
  let limit := build_rate_limit CONF in
  let run :=
    instance_create_execute (rate_limit := spec_gate limit) CONF K compute
      templaters cert step aid prio sg ports flavor az w in
  let slot := admission limit aid prio (gate w) in
  ∃ evs, trace (snd run) = trace w ++ evs
    ∧ calls is_remove_from_build_req_queue evs = 0%nat
    ∧ ((calls is_add_to_build_request_queue evs = 1%nat
        ∧ gate (snd run) = snd slot
        ∧ (∀ cid, fst run = Returns cid → fst slot = Returns tt))
       ∨ (calls is_add_to_build_request_queue evs = 0%nat
          ∧ gate (snd run) = gate w
          ∧ ∃ e, fst run = Raises e)).
Proof.
  intros Hlim limit run slot. subst run slot.
  destruct step as [cdf|server_pem]; cbn [instance_create_execute].
  - destruct (ComputeCreate_execute_gate (rate_limit := spec_gate limit)
                CONF K compute templaters aid cdf prio sg ports flavor az w
                Hlim) as (Hg & (evs & Htr & Ha & Hr) & Hret).
    exists evs. split; [done|]. split; [done|]. left. by split_and!.
  - destruct (CertComputeCreate_execute_cases (rate_limit := spec_gate limit)
                aid server_pem prio sg ports flavor az w)
      as [(e & ->)|(l & d & ->)].
    + exists []. rewrite app_nil_r. split; [done|]. split; [done|].
      right. split_and!; [done..|by exists e].
    + destruct (ComputeCreate_execute_gate (rate_limit := spec_gate limit)
                  CONF K compute templaters aid (Some l) prio sg ports flavor
                  az (World (<[l := d]> (heap w)) (trace w) (gate w)) Hlim)
        as (Hg & (evs & Htr & Ha & Hr) & Hret).
      exists evs. split; [done|]. split; [done|]. left. by split_and!.
Qed.

(** The tickets over Instance Create followed by the Readiness Poller:
    the events split into those of the create, where the one request is,
    and those of the poller and of the revert, where the one release
    is. *)
Lemma create_and_wait_tickets (step : instance_create) (aid : string)
    (prio : Z) (sg : option string) (ports : option (list port))
    (flavor az : option loc) (w : world admission_gate) :
  build_rate_limit CONF ≠ -1 →
  let limit := build_rate_limit CONF in
  let run :=
    create_and_wait (rate_limit := spec_gate limit) CONF K compute
      templaters cert step aid prio sg ports flavor az w in
  ∃ A B, trace (snd run) = trace w ++ A ++ B
    ∧ calls is_remove_from_build_req_queue A = 0%nat
    ∧ (calls is_add_to_build_request_queue A ≤ 1)%nat
    ∧ calls is_add_to_build_request_queue B = 0%nat
    ∧ (calls is_remove_from_build_req_queue B
       ≤ calls is_add_to_build_request_queue A)%nat
    ∧ match fst run with
      | Returns _ =>
          calls is_add_to_build_request_queue A = 1%nat
          ∧ fst (admission limit aid prio (gate w)) = Returns tt
          ∧ calls is_remove_from_build_req_queue B = 1%nat
          ∧ ticket_count (gate (snd run)) aid = 0%nat
      | Raises _ =>
          calls is_remove_from_build_req_queue B = 0%nat
          ∧ (calls is_add_to_build_request_queue A = 1%nat →
             fst (admission limit aid prio (gate w)) = Returns tt →
             ticket_count (gate (snd run)) aid = 1%nat)
      end.
Proof.
  intros Hlim limit run. subst run. unfold create_and_wait.
  pose proof (instance_create_execute_gate step aid prio sg ports flavor az w
                Hlim) as Hc.
  cbn zeta in Hc. fold limit in Hc.
  destruct (instance_create_execute CONF K compute templaters cert step aid
              prio sg ports flavor az w) as [[cid|e] w1].
  - cbn [fst snd] in Hc. destruct Hc as (A & Htr1 & HrA & Hcase).
    destruct Hcase as [(HaA & Hg1 & Hret)|(_ & _ & e & He)];
      [|discriminate].
    specialize (Hret cid eq_refl).
    destruct (ComputeActiveWait_execute CONF K compute cid aid az w1)
      as [[amp|e] w2] eqn:Hwait;
      rewrite ComputeActiveWait_execute_eq in Hwait;
      apply (active_wait_loop_gate (rate_limit := spec_gate limit)) in Hwait
        as (B & Htr2 & HaB & Hg2 & HrB); try done.
    + exists A, B. cbn [fst snd].
      split; [by rewrite Htr2, Htr1, app_assoc|].
      split_and!; [done|lia|done|lia|done..|].
      rewrite Hg2. apply ticket_count_release.
    + destruct (ComputeCreate_revert_quiet (VStr cid) aid w2)
        as (R & -> & HaR & HrR).
      cbn [fst snd trace gate].
      exists A, (B ++ R).
      split; [by rewrite Htr2, Htr1, <- !app_assoc|].
      rewrite !calls_app. split_and!; [done|lia|lia|lia|lia|].
      intros _ _. rewrite Hg2, Hg1. by apply ticket_count_admission.
  - cbn [fst snd] in Hc. destruct Hc as (A & Htr1 & HrA & Hcase).
    rewrite ComputeCreate_revert_run. cbn [is_Failure fst snd].
    exists A, []. rewrite app_nil_r.
    split; [done|].
    destruct Hcase as [(HaA & Hg1 & _)|(HaA & Hg1 & _)].
    + split_and!; [done|lia|done|by unfold calls; simpl; lia|done|].
      intros _ Hslot. rewrite Hg1. by apply ticket_count_admission.
    + split_and!; [done|lia|done|by unfold calls; simpl; lia|done|].
      intros Hone. lia.
Qed.

(** From the split of a run's events to the life of the ticket. *)
Lemma ticket_lifecycle_of_split (evs A B : list event) (r : outcome dict)
    (slot : outcome unit) (count : nat) :
  evs = A ++ B →
  calls is_remove_from_build_req_queue A = 0%nat →
  (calls is_add_to_build_request_queue A ≤ 1)%nat →
  calls is_add_to_build_request_queue B = 0%nat →
  (calls is_remove_from_build_req_queue B
   ≤ calls is_add_to_build_request_queue A)%nat →
  match r with
  | Returns _ =>
      calls is_add_to_build_request_queue A = 1%nat
      ∧ slot = Returns tt
      ∧ calls is_remove_from_build_req_queue B = 1%nat
      ∧ count = 0%nat
  | Raises _ =>
      calls is_remove_from_build_req_queue B = 0%nat
      ∧ (calls is_add_to_build_request_queue A = 1%nat →
         slot = Returns tt → count = 1%nat)
  end →
  (∀ p, p `prefix_of` evs →
     (calls is_remove_from_build_req_queue p
      ≤ calls is_add_to_build_request_queue p ≤ 1)%nat)
  ∧ match r with
    | Returns _ =>
        (calls is_add_to_build_request_queue evs = 1%nat
         ∧ slot = Returns tt)
        ∧ calls is_remove_from_build_req_queue evs = 1%nat
        ∧ count = 0%nat
    | Raises _ =>
        calls is_remove_from_build_req_queue evs = 0%nat
        ∧ (calls is_add_to_build_request_queue evs = 1%nat
           ∧ slot = Returns tt →
           count = 1%nat)
    end.
Proof.
  intros -> HrA HaA HaB HrB Hcase. split.
  - intros p Hp. by eapply outstanding_prefix.
  - rewrite !calls_app. destruct r.
    + destruct Hcase as (Ha1 & Hslot & Hr1 & Hcnt).
      split_and!; [lia|done|lia|done].
    + destruct Hcase as (Hr0 & Hcnt).
      split; [lia|]. intros [Hadd Hslot]. apply Hcnt; [lia|done].
Qed.

(** C2, as the code has it.  With the build rate limit enabled and the
    gate of the spec, in every provisioning run (with or without Group
    Create, with either Instance Create): no release comes before its
    request and there is at most one request, so at no moment of the run
    is more than one ticket of the amphora outstanding.  A run that
    succeeds has registered a ticket (the request was made and the gate
    granted it) and removes it exactly once, when the poll reaches
    [ACTIVE]; it ends with no ticket for the amphora.  A run that is
    aborted never removes the ticket: the failures of the poller and the
    reverts make no call to the gate, so a ticket that was registered is
    still outstanding once the saga is unwound. *)
Theorem provision_saga_ticket_lifecycle (group : placement)
    (step : instance_create) (aid : string) (prio : Z)
    (ports : option (list port)) (flavor az : option loc)
    (w : world admission_gate) :
  build_rate_limit CONF ≠ -1 →
  let limit := build_rate_limit CONF in
  let run :=
    provision_saga (rate_limit := spec_gate limit) CONF K compute templaters
      cert group step aid prio ports flavor az w in
  let evs := new_events w (snd run) in
  let registered :=
    calls is_add_to_build_request_queue evs = 1%nat
    ∧ fst (admission limit aid prio (gate w)) = Returns tt in
  (∀ p, p `prefix_of` evs →
     (calls is_remove_from_build_req_queue p
      ≤ calls is_add_to_build_request_queue p ≤ 1)%nat)
  ∧ match fst run with
    | Returns _ =>
        registered
        ∧ calls is_remove_from_build_req_queue evs = 1%nat
        ∧ ticket_count (gate (snd run)) aid = 0%nat
    | Raises _ =>
        calls is_remove_from_build_req_queue evs = 0%nat
        ∧ (registered → ticket_count (gate (snd run)) aid = 1%nat)
    end.
Proof.
  intros Hlim limit run evs registered. subst registered evs run.
  destruct group as [sg|lb_id]; cbn [provision_saga].
  - destruct (create_and_wait_tickets step aid prio sg ports flavor az w Hlim)
      as (A & B & Htr & HrA & HaA & HaB & HrB & Hcase).
    cbn zeta in Htr, Hcase. fold limit in Htr, Hcase.
    rewrite (new_events_app w _ (A ++ B) Htr).
    by eapply ticket_lifecycle_of_split.
  - rewrite NovaServerGroupCreate_execute_run. cbn zeta.
    destruct (driver_create_server_group compute _ _ _) as [group|e].
    + set (G1 := [call_create_server_group ("octavia-lb-" ++ lb_id)%string
                    (anti_affinity_policy CONF);
                  call_log LvlDebug
                    "Server Group created with id: %s for load balancer id: %s"]).
      set (w1 := World (heap w) (trace w ++ G1) (gate w)).
      assert (calls is_add_to_build_request_queue G1 = 0%nat
              ∧ calls is_remove_from_build_req_queue G1 = 0%nat)
        as [HaG HrG] by done.
      destruct (create_and_wait_tickets step aid prio (Some (sg_id group))
                  ports flavor az w1 Hlim)
        as (A & B & Htr & HrA & HaA & HaB & HrB & Hcase).
      cbn zeta in Htr, Hcase. fold limit in Htr, Hcase.
      change (gate w1) with (gate w) in Hcase.
      change (trace w1) with (trace w ++ G1) in Htr.
      destruct (create_and_wait CONF K compute templaters cert step aid prio
                  (Some (sg_id group)) ports flavor az w1) as [[amp|e] w2].
      * cbn [fst snd] in *.
        rewrite (new_events_app w w2 ((G1 ++ A) ++ B))
          by (by rewrite Htr, <- !app_assoc).
        destruct Hcase as (Ha1 & Hslot & Hr1 & Hcnt).
        apply (ticket_lifecycle_of_split _ (G1 ++ A) B (Returns amp));
          rewrite ?calls_app; try done; try lia.
      * cbn [fst snd] in *.
        destruct (NovaServerGroupCreate_revert_quiet (VStr (sg_id group)) w2)
          as (R & -> & HaR & HrR).
        cbn [gate trace]. destruct Hcase as (Hr0 & Hcnt).
        rewrite (new_events_app w _ ((G1 ++ A) ++ (B ++ R)))
          by (cbn [trace]; by rewrite Htr, <- !app_assoc).
        apply (ticket_lifecycle_of_split _ (G1 ++ A) (B ++ R) (Raises e));
          rewrite ?calls_app; try done; try lia.
        split; [lia|]. intros Hadd Hslot. apply Hcnt; [lia|done].
    + set (c := call_create_server_group ("octavia-lb-" ++ lb_id)%string
                 (anti_affinity_policy CONF)).
      cbn [fst snd].
      destruct (NovaServerGroupCreate_revert_quiet (VFailure e)
                  (World (heap w) (trace w ++ [c]) (gate w)))
        as (R & -> & HaR & HrR).
      cbn [heap gate trace].
      rewrite (new_events_app w _ ((c :: R) ++ []))
        by (cbn [trace]; by rewrite app_nil_r, <- app_assoc).
      apply (ticket_lifecycle_of_split _ (c :: R) [] (Raises e));
        rewrite ?calls_cons, ?calls_nil;
        cbn [c is_add_to_build_request_queue is_remove_from_build_req_queue];
        try done; try lia.
Qed.

End Saga.

(** ** The properties on the sample deployments *)

(** The readiness poller on the runs that section 8 of the spec lists. *)

Example poller_error_on_first_poll :
  let w := World ∅ [] empty_gate in
  let run :=
    ComputeActiveWait_execute (time_module := python_time) (rate_limit := spec_gate 5) (sample_conf 5 3)
      sample_constants (scripted_driver ["ERROR"] None) "vm-1" "amp-1" None w in
  fst run = Raises (ComputeBuildException (Some "No valid host was found"))
  ∧ new_events w (snd run) = [call_get_amphora "vm-1" None].
Proof. vm_compute. done. Qed.

Example poller_timeout_after_two_polls :
  let w := World ∅ [] empty_gate in
  let run :=
    ComputeActiveWait_execute (time_module := python_time) (rate_limit := spec_gate 5) (sample_conf 5 2)
      sample_constants (scripted_driver ["BUILD"; "BUILD"] None) "vm-1" "amp-1"
      None w in
  fst run = Raises (ComputeWaitTimeoutException "vm-1")
  ∧ calls is_get_amphora (new_events w (snd run)) = 2%nat.
Proof. vm_compute. done. Qed.

Example poller_active_on_third_poll :
  let w := World ∅ [] empty_gate in
  let run :=
    ComputeActiveWait_execute (time_module := python_time) (rate_limit := spec_gate 5) (sample_conf 5 3)
      sample_constants (scripted_driver ["BUILD"; "BUILD"; "ACTIVE"] None)
      "vm-1" "amp-1" None w in
  new_events w (snd run)
  = [call_get_amphora "vm-1" None; call_sleep 0;
     call_get_amphora "vm-1" None; call_sleep 0;
     call_get_amphora "vm-1" None;
     call_remove_from_build_req_queue "amp-1"].
Proof. vm_compute. done. Qed.

(** The two reverts on the failure marker, side by side. *)
Example reverts_on_failure_marker :
  let w : world unit := World ∅ [] tt in
  let failed := VFailure (CollaboratorError "quota exceeded") in
  trace (snd (ComputeCreate_revert (scripted_driver [] None) failed "amp-1" w))
  = []
  ∧ trace (snd (NovaServerGroupCreate_revert (scripted_driver [] None)
                  failed w))
    = [call_log LvlWarning "Reverting server group create with id:%s";
       call_delete_server_group failed;
       call_log LvlError
         "Failed to delete server group.  Resources may still be in use for server group: %(sg)s due to error: %(except)s"].
Proof. vm_compute. done. Qed.



(** A run whose instance goes to [ERROR]: the ticket that [execute]
    registered is removed neither by the poller nor by the revert, and is
    still outstanding when the saga has been unwound. *)
Lemma provision_saga_ticket_never_released :
  let w := World ∅ [] empty_gate in
  let run :=
    provision_saga (time_module := python_time) (rate_limit := spec_gate 5)
      (sample_conf 5 3) sample_constants (scripted_driver ["ERROR"] None)
      sample_templaters (sample_cert false) (ExistingGroup None)
      (PlainCreate None) "amp-1" 40 None None None w in
  fst run = Raises (ComputeBuildException (Some "No valid host was found"))
  ∧ ticket_count (gate w) "amp-1" = 0%nat
  ∧ fst (admission 5 "amp-1" 40 (gate w)) = Returns tt
  ∧ calls is_add_to_build_request_queue (new_events w (snd run)) = 1%nat
  ∧ calls is_remove_from_build_req_queue (new_events w (snd run)) = 0%nat
  ∧ calls is_delete (new_events w (snd run)) = 1%nat
  ∧ ticket_count (gate (snd run)) "amp-1" = 1%nat.
Proof. vm_compute. split_and!; done. Qed.

Lemma outcome_case_returns {A : Type} (r : outcome A) (a : A) (P Q : Prop) :
  r = Returns a →
  match r with Returns _ => P | Raises _ => Q end → P.
Proof. by intros ->. Qed.

(** The lifecycle on a run that allocates its placement group, creates
    the instance with certificates and succeeds at the second poll. *)
Lemma provision_saga_ticket_lifecycle_witness :
  let CONF := sample_conf 5 3 in
  let drv := scripted_driver ["BUILD"; "ACTIVE"] None in
  let w := World ∅ [] empty_gate in
  let run :=
    provision_saga (time_module := python_time) (rate_limit := spec_gate 5)
      CONF sample_constants drv sample_templaters (sample_cert false)
      (NewGroup "lb-1") (CertCreate "TOKEN") "amp-1" 40 None None None w in
  build_rate_limit CONF ≠ -1
  ∧ fst run = Returns {[ "compute_id" := "vm-1" ]}
  ∧ calls is_add_to_build_request_queue (new_events w (snd run)) = 1%nat
  ∧ calls is_remove_from_build_req_queue (new_events w (snd run)) = 1%nat
  ∧ ticket_count (gate (snd run)) "amp-1" = 0%nat.
Proof.
  intros CONF drv w run.
  assert (build_rate_limit CONF ≠ -1) as Hlim by discriminate.
  assert (fst run = Returns {[ "compute_id" := "vm-1" ]}) as Hret
    by (vm_compute; reflexivity).
  split; [exact Hlim|]. split; [exact Hret|].
  pose proof (provision_saga_ticket_lifecycle (time_module := python_time)
                CONF sample_constants drv sample_templaters
                (sample_cert false) (NewGroup "lb-1") (CertCreate "TOKEN")
                "amp-1" 40 None None None w Hlim) as [_ Hcase].
  eapply outcome_case_returns in Hcase; [|exact Hret].
  destruct Hcase as ((Hadd & _) & Hrem & Hcount).
  split; [exact Hadd|]. split; [exact Hrem|exact Hcount].
Defined.

(** A create that returns ["vm-1"], then its revert. *)
Lemma ComputeCreate_revert_deletes_created_witness :
  let CONF := sample_conf 5 3 in
  let drv := scripted_driver [] None in
  let w := World ∅ [] empty_gate in
  let created :=
    ComputeCreate_execute (rate_limit := spec_gate 5) CONF sample_constants
      drv sample_templaters "amp-1" None 40 None None None None w in
  let undo := ComputeCreate_revert drv (VStr "vm-1") "amp-1" (snd created) in
  created = (Returns "vm-1", snd created)
  ∧ fst undo = Returns tt
  ∧ List.filter is_driver_call (new_events (snd created) (snd undo))
    = [call_delete (VStr "vm-1")].
Proof.
  intros CONF drv w created undo.
  assert (created = (Returns "vm-1", snd created)) as Hrun
    by (vm_compute; reflexivity).
  split; [exact Hrun|].
  destruct (ComputeCreate_revert_deletes_created CONF sample_constants drv
              sample_templaters "amp-1" None 40 None None None None w
              (snd created) (snd created) "vm-1" Hrun)
    as (_ & Hret & Hcalls & _).
  split; [exact Hret|exact Hcalls].
Defined.

(** Both reverts against a driver whose deletes raise. *)
Lemma reverts_never_raise_witness :
  let drv := scripted_driver [] (Some 0%nat) in
  let w : world unit := World ∅ [] tt in
  fst (ComputeCreate_revert drv (VStr "vm-1") "amp-1" w) = Returns tt
  ∧ fst (NovaServerGroupCreate_revert drv (VStr "sg-1") w) = Returns tt
  ∧ (∃ msg, new_events w (snd (ComputeCreate_revert drv (VStr "vm-1")
                                 "amp-1" w))
            = [call_log LvlWarning msg; call_delete (VStr "vm-1");
               call_log LvlException "Reverting compute create failed"]).
Proof.
  intros drv w.
  destruct (reverts_never_raise drv (VStr "vm-1") "amp-1" w)
    as (Hc & _ & Hlog & _).
  destruct (reverts_never_raise drv (VStr "sg-1") "amp-1" w)
    as (_ & Hg & _ & _).
  split; [exact Hc|]. split; [exact Hg|].
  exact (Hlog (CollaboratorError "delete failed") eq_refl eq_refl).
Defined.

(** Bulk teardown over three amphorae when the second delete fails. *)
Lemma DeleteAmphoraeOnLoadBalancer_execute_stops_at_first_failure_witness :
  let drv := scripted_driver [] (Some 1%nat) in
  let w : world unit :=
    World {[ 0%nat := {[ "loadbalancer_id" := "lb-1" ]} ]} [] tt in
  let run :=
    DeleteAmphoraeOnLoadBalancer_execute (db_apis := sample_db_apis true)
      sample_constants drv sample_repo 0%nat w in
  fst run = Raises (CollaboratorError "delete failed")
  ∧ List.filter is_driver_call (new_events w (snd run))
    = [call_delete (VStr "vm-1"); call_delete (VStr "vm-2")].
Proof.
  intros drv w run.
  destruct (DeleteAmphoraeOnLoadBalancer_execute_stops_at_first_failure
              (db_apis := sample_db_apis true)
              sample_constants drv sample_repo 0%nat "lb-1"
              {| amphorae :=
                   [ {| amp_id := "amp-1"; amp_compute_id := VStr "vm-1" |};
                     {| amp_id := "amp-2"; amp_compute_id := VStr "vm-2" |};
                     {| amp_id := "amp-3"; amp_compute_id := VStr "vm-3" |} ] |}
              w eq_refl ltac:(vm_compute; reflexivity) eq_refl)
    as [Hfail _].
  apply (Hfail 1%nat (VStr "vm-2") (CollaboratorError "delete failed"));
    [reflexivity| |reflexivity].
  intros j hj Hj Hlook. destruct j as [|j]; [reflexivity|lia].
Defined.

(** A create in an availability zone that names a management network:
    the build asked of the driver is on that network alone. *)
Lemma ComputeCreate_execute_network_ids_witness :
  let CONF := sample_conf (-1) 3 in
  let drv := scripted_driver [] None in
  let w : world unit :=
    World {[ 0%nat := {[ "management_network" := "az1-mgmt-net" ]} ]} [] tt in
  let run :=
    ComputeCreate_execute (rate_limit := no_gate) CONF sample_constants drv
      sample_templaters "amp-1" None 40 None None None (Some 0%nat) w in
  ∃ a, call_build a ∈ new_events w (snd run)
       ∧ b_network_ids a = ["az1-mgmt-net"].
Proof.
  intros CONF drv w run.
  assert (∃ a, call_build a ∈ new_events w (snd run)) as [a Hin].
  { vm_compute. eexists. apply list_elem_of_further, list_elem_of_here. }
  exists a. split; [exact Hin|].
  destruct (ComputeCreate_execute_network_ids (rate_limit := no_gate) CONF
              sample_constants drv
              sample_templaters "amp-1" None 40 None None None (Some 0%nat)
              w a Hin)
    as [Hnet _].
  apply (Hnet 0%nat "az1-mgmt-net");
    [reflexivity|vm_compute; reflexivity|discriminate].
Defined.

(** A create that is handed a dictionary holding the server certificate:
    after [execute] the caller's dictionary is no longer what it was. *)
Lemma ComputeCreate_execute_mutates_config_drive_files :
  let w : world unit :=
    World {[ 0%nat := {[ "/etc/octavia/certs/server.pem" := "PEM" ]} ]} [] tt in
  let run :=
    ComputeCreate_execute (rate_limit := no_gate) (sample_conf (-1) 3)
      sample_constants (scripted_driver [] None) sample_templaters
      "amp-1" (Some 0%nat) 40 None None None None w in
  fst run = Returns "vm-1"
  ∧ heap (snd run) !! 0%nat ≠ heap w !! 0%nat
  ∧ deref (heap w) 0%nat !! "/etc/octavia/amphora-agent.conf" = None
  ∧ deref (heap (snd run)) 0%nat !! "/etc/octavia/amphora-agent.conf"
    = Some "[DEFAULT] amphora_id = amp-1".
Proof. vm_compute. split_and!; done. Qed.

(** The same create, through the frame: the certificate entry is kept
    and the two generated files are added. *)
Lemma ComputeCreate_execute_store_frame_witness :
  let CONF := sample_conf (-1) 3 in
  let drv := scripted_driver [] None in
  let w : world unit :=
    World {[ 0%nat := {[ "/etc/octavia/certs/server.pem" := "PEM" ]} ]} [] tt in
  let run :=
    ComputeCreate_execute (rate_limit := no_gate) CONF sample_constants drv
      sample_templaters "amp-1" (Some 0%nat) 40 None None None None w in
  deref (heap (snd run)) 0%nat !! "/etc/octavia/certs/server.pem"
  = deref (heap w) 0%nat !! "/etc/octavia/certs/server.pem"
  ∧ ∃ ac lc,
      deref (heap (snd run)) 0%nat
      = <["/etc/rsyslog.d/10-rsyslog.conf" := lc]>
          (<["/etc/octavia/amphora-agent.conf" := ac]> (deref (heap w) 0%nat)).
Proof.
  intros CONF drv w run.
  destruct (ComputeCreate_execute_store_frame (rate_limit := no_gate)
              (time_module := python_time) (db_apis := sample_db_apis true)
              CONF
              sample_constants drv sample_templaters sample_repo "amp-1"
              (Some 0%nat) 40 None None None None w)
    as (_ & Hkeys & Hwritten & _).
  split.
  - apply Hkeys; [reflexivity|discriminate|discriminate].
  - destruct (Hwritten 0%nat "vm-1" eq_refl)
      as (ac & lc & _ & _ & Hd);
      [vm_compute; discriminate|vm_compute; reflexivity|].
    exists ac, lc. exact Hd.
Defined.

(** The delete-only task with and without a group id. *)
Lemma NovaServerGroupDelete_execute_calls_witness :
  let drv := scripted_driver [] None in
  let w : world unit := World ∅ [] tt in
  let run := NovaServerGroupDelete_execute drv (VStr "sg-1") w in
  VStr "sg-1" ≠ VNone
  ∧ NovaServerGroupDelete_execute drv VNone w = (Returns tt, w)
  ∧ new_events w (snd run) = [call_delete_server_group (VStr "sg-1")]
  ∧ (∀ e, e ∈ new_events w (snd run) → e ≠ call_delete_server_group VNone).
Proof.
  intros drv w run.
  assert (VStr "sg-1" ≠ VNone) as Hpresent by discriminate.
  destruct (NovaServerGroupDelete_execute_calls drv w)
    as (Hnone & Hsome & Hvoid).
  split; [exact Hpresent|]. split; [exact Hnone|].
  split; [exact (proj2 (Hsome (VStr "sg-1") Hpresent))|].
  exact (Hvoid (VStr "sg-1")).
Defined.

(** The delete-only task on the empty identifier: it is not [None], so
    the driver is called with it. *)
Lemma NovaServerGroupDelete_execute_passes_empty_identifier :
  let drv := scripted_driver [] None in
  let w : world unit := World ∅ [] tt in
  let run := NovaServerGroupDelete_execute drv (VStr "") w in
  new_events w (snd run) = [call_delete_server_group (VStr "")]
  ∧ calls is_driver_call (new_events w (snd run)) = 1%nat.
Proof. vm_compute. done. Qed.

(** A create and a poll with the rate limit disabled. *)
Lemma rate_limit_disabled_no_gate_interaction_witness :
  let CONF := sample_conf (-1) 3 in
  let drv := scripted_driver ["ACTIVE"] None in
  let w := World ∅ [] empty_gate in
  let create :=
    ComputeCreate_execute (rate_limit := spec_gate (-1)) CONF
      sample_constants drv sample_templaters "amp-1" None 40 None None None
      None w in
  let wait :=
    ComputeActiveWait_execute (time_module := python_time) (rate_limit := spec_gate (-1)) CONF
      sample_constants drv "vm-1" "amp-1" None (snd create) in
  build_rate_limit CONF = -1
  ∧ fst create = Returns "vm-1"
  ∧ gate (snd create) = empty_gate
  ∧ gate (snd wait) = empty_gate
  ∧ calls is_gate_call (new_events (snd create) (snd wait)) = 0%nat.
Proof.
  intros CONF drv w create wait.
  destruct (rate_limit_disabled_no_gate_interaction
              (time_module := python_time) (rate_limit := spec_gate (-1)) CONF sample_constants drv
              sample_templaters "amp-1" None 40 None None None None w
              "vm-1" "amp-1" None (snd create) eq_refl)
    as ((Hg1 & _) & (Hg2 & Hc2)).
  split; [reflexivity|]. split; [vm_compute; reflexivity|].
  split; [exact Hg1|]. split; [|exact Hc2].
  etrans; [exact Hg2|exact Hg1].
Defined.

(** ** Further properties of the tasks *)

Section Further.

Context {G : Type} {rate_limit : AmphoraBuildRateLimit G}.
Context {time_module : TimeModule} {db_apis : DbApis}.
Variable CONF : conf.
Variable K : constants.
Variable compute : ComputeDriver.

(** *** The readiness poller, whatever the driver does *)

Ltac solve_events :=
  repeat (apply Forall_cons; split; [naive_solver|]); by apply Forall_nil.

Lemma active_wait_loop_events (n : nat) (cid aid : string)
    (net : option string) (w w' : world G) (r : outcome dict) :
  active_wait_loop CONF K compute n cid aid net w = (r, w') →
  ∃ evs, trace w' = trace w ++ evs
         ∧ (calls is_get_amphora evs ≤ n)%nat
         ∧ Forall (λ e, e = call_get_amphora cid net
                        ∨ e = call_sleep (amp_active_wait_sec CONF)
                        ∨ e = call_remove_from_build_req_queue aid) evs.
Proof.
  revert w. induction n as [|n IH]; intros w Hrun;
    cbn [active_wait_loop] in Hrun.
  - injection Hrun as <- <-. exists []. rewrite app_nil_r.
    split_and!; [done|by unfold calls|solve_events].
  - unfold bind at 1, compute_get_amphora, collaborator_call in Hrun.
    destruct (driver_get_amphora compute _ cid net) as [[amp fault]|e].
    + destruct (String.eqb (status amp) (ACTIVE K)).
      * destruct (negb _).
        -- unfold bind, rate_limit_remove_from_build_req_queue, gate_call, ret
             in Hrun.
           cbn [heap trace gate] in Hrun.
           destruct (remove_from_build_req_queue aid (gate w)) as [[[]|e] g];
             injection Hrun as <- <-; cbn [trace];
             (eexists; rewrite <- !app_assoc; split; [reflexivity|]);
             (split; [unfold calls; simpl; lia|solve_events]).
        -- unfold bind, ret in Hrun. injection Hrun as <- <-. cbn [trace].
           eexists. split; [reflexivity|].
           split; [unfold calls; simpl; lia|]. solve_events.
      * destruct (String.eqb (status amp) (ERROR K)).
        -- injection Hrun as <- <-. cbn [trace].
           eexists. split; [reflexivity|].
           split; [unfold calls; simpl; lia|]. solve_events.
        -- unfold bind at 1, sleep, collaborator_call in Hrun.
           cbn [heap trace gate] in Hrun.
           destruct (time_sleep _) as [[]|e].
           ++ apply IH in Hrun as (evs & -> & Hle & HF). cbn [trace].
              eexists. rewrite <- !app_assoc. split; [reflexivity|].
              split.
              ** rewrite !calls_app. unfold calls at 1 2. simpl. lia.
              ** rewrite !Forall_app. split_and!; [solve_events..|done].
           ++ injection Hrun as <- <-. cbn [trace].
              eexists. rewrite <- !app_assoc. split; [reflexivity|].
              split; [unfold calls; simpl; lia|solve_events].
    + injection Hrun as <- <-. cbn [trace].
      eexists. split; [reflexivity|].
      split; [unfold calls; simpl; lia|]. solve_events.
Qed.

(** X1. Whatever the driver and the rate limit do, the poller asks the
    driver for the status at most [amp_active_retries] times (never, when
    that option is zero or negative), every query is for the compute id
    it was given and the management network it resolved, every sleep
    lasts [amp_active_wait_sec], and nothing else reaches a collaborator
    but the release of the amphora's own build slot. *)
Theorem ComputeActiveWait_execute_polls_bounded (cid aid : string)
    (az : option loc) (w : world G) :
  let run := ComputeActiveWait_execute CONF K compute cid aid az w in
  let net := resolve_amp_network K (heap w) az in
  (calls is_get_amphora (new_events w (snd run))
   ≤ Z.to_nat (amp_active_retries CONF))%nat
  ∧ Forall (λ e, e = call_get_amphora cid net
                 ∨ e = call_sleep (amp_active_wait_sec CONF)
                 ∨ e = call_remove_from_build_req_queue aid)
      (new_events w (snd run)).
Proof.
  intros run net. subst run. rewrite ComputeActiveWait_execute_eq. fold net.
  destruct (active_wait_loop CONF K compute _ cid aid net w) as [r w'] eqn:Hrun.
  apply active_wait_loop_events in Hrun as (evs & Htr & Hle & HF).
  cbn [snd]. by rewrite (new_events_app w w' evs Htr).
Qed.

(** X2. If the driver raises on a poll that follows only building
    reports (each followed by a sleep that returned), the poller raises
    that same exception at once: the poll is the last entry of the
    trace, no slot is released and there is no retry. *)
Theorem ComputeActiveWait_execute_driver_error (cid aid : string)
    (az : option loc) (w : world G) (k : nat) (e : exn) :
  let run := ComputeActiveWait_execute CONF K compute cid aid az w in
  let net := resolve_amp_network K (heap w) az in
  time_sleep (amp_active_wait_sec CONF) = Returns tt →
  (k < Z.to_nat (amp_active_retries CONF))%nat →
  building_until K compute w cid net k →
  reported compute w cid net k = Raises e →
  fst run = Raises e
  ∧ new_events w (snd run)
    = building_rounds CONF k cid net ++ [call_get_amphora cid net]
  ∧ gate (snd run) = gate w.
Proof.
  intros run net Hsleep Hk Hb Hrep. subst run.
  rewrite ComputeActiveWait_execute_eq. fold net.
  replace (Z.to_nat (amp_active_retries CONF))
    with (k + S (Z.to_nat (amp_active_retries CONF) - S k))%nat by lia.
  rewrite active_wait_loop_next by done. rewrite Hrep. cbn [fst snd gate].
  split_and!; [done| |done].
  apply new_events_app. cbn [trace]. by rewrite app_assoc.
Qed.

Lemma active_wait_loop_returns (n : nat) (cid aid : string)
    (net : option string) (w w' : world G) (d : dict) :
  active_wait_loop CONF K compute n cid aid net w = (Returns d, w') →
  ∃ k amp fault,
    (k < n)%nat
    ∧ building_until K compute w cid net k
    ∧ reported compute w cid net k = Returns (amp, fault)
    ∧ status amp = ACTIVE K
    ∧ d = to_dict amp.
Proof.
  revert w. induction n as [|n IH]; intros w Hrun;
    cbn [active_wait_loop] in Hrun; [discriminate|].
  unfold bind at 1, compute_get_amphora, collaborator_call in Hrun.
  destruct (driver_get_amphora compute _ cid net) as [[amp fault]|e] eqn:Hp;
    [|discriminate].
  destruct (String.eqb (status amp) (ACTIVE K)) eqn:Hact.
  - exists 0%nat, amp, fault. split_and!.
    + lia.
    + intros i Hi. lia.
    + unfold reported. by rewrite Nat.add_0_r.
    + by apply String.eqb_eq.
    + unfold bind, ret in Hrun.
      destruct (negb _);
        [unfold rate_limit_remove_from_build_req_queue, gate_call in Hrun;
         destruct (remove_from_build_req_queue aid _) as [[[]|?] ?]|];
        try discriminate; congruence.
  - destruct (String.eqb (status amp) (ERROR K)) eqn:Herr; [discriminate|].
    unfold bind at 1, sleep, collaborator_call in Hrun.
    cbn [heap trace gate] in Hrun.
    destruct (time_sleep _) as [[]|?]; [|discriminate].
    apply IH in Hrun as (k & amp' & fault' & Hk & Hb & Hrep & Hst & ->).
    assert (∀ i, reported compute
                   (World (heap w)
                      ((trace w ++ [call_get_amphora cid net])
                         ++ [call_sleep (amp_active_wait_sec CONF)]) (gate w))
                   cid net i
                 = reported compute w cid net (S i)) as Hshift.
    { intros i. unfold reported. cbn [trace]. rewrite !calls_app.
      unfold calls at 2 3. simpl. f_equal. lia. }
    exists (S k), amp', fault'. split_and!; [lia| |by rewrite <- Hshift|done..].
    intros [|i] Hi.
    + exists amp, fault. unfold reported. rewrite Nat.add_0_r.
      split; [done|]. split; by apply String.eqb_neq.
    + destruct (Hb i ltac:(lia)) as (a & f & Ha & Hs).
      exists a, f. by rewrite <- Hshift.
Qed.

(** X3. The poller never reports success on its own: when it returns,
    some poll within the retry bound reported [ACTIVE], every poll
    before it reported a building instance, and what is returned is that
    amphora's [to_dict()]. *)
Theorem ComputeActiveWait_execute_returns_only_active (cid aid : string)
    (az : option loc) (w : world G) (d : dict) :
  let run := ComputeActiveWait_execute CONF K compute cid aid az w in
  let net := resolve_amp_network K (heap w) az in
  fst run = Returns d →
  ∃ k amp fault,
    (k < Z.to_nat (amp_active_retries CONF))%nat
    ∧ building_until K compute w cid net k
    ∧ reported compute w cid net k = Returns (amp, fault)
    ∧ status amp = ACTIVE K
    ∧ d = to_dict amp.
Proof.
  intros run net. subst run. rewrite ComputeActiveWait_execute_eq. fold net.
  destruct (active_wait_loop CONF K compute _ cid aid net w) as [r w'] eqn:Hrun.
  cbn [fst]. intros ->. by eapply active_wait_loop_returns.
Qed.

(** X14. An exception of [time.sleep] ends the wait.  If the first poll
    reports a building instance and the sleep that follows raises (as
    it does on a negative [amp_active_wait_sec]), the poller raises that
    exception after this one poll: it polls no more, raises no timeout
    and leaves the rate limit alone. *)
Theorem ComputeActiveWait_execute_sleep_error (cid aid : string)
    (az : option loc) (w : world G) (amp : amphora) (fault : option string)
    (e : exn) :
  let run := ComputeActiveWait_execute CONF K compute cid aid az w in
  let net := resolve_amp_network K (heap w) az in
  (0 < Z.to_nat (amp_active_retries CONF))%nat →
  reported compute w cid net 0 = Returns (amp, fault) →
  still_building K amp →
  time_sleep (amp_active_wait_sec CONF) = Raises e →
  fst run = Raises e
  ∧ new_events w (snd run)
    = [call_get_amphora cid net; call_sleep (amp_active_wait_sec CONF)]
  ∧ gate (snd run) = gate w.
Proof.
  intros run net Hr Hrep [Hna Hne] Hsleep. subst run.
  rewrite ComputeActiveWait_execute_eq. fold net.
  destruct (Z.to_nat (amp_active_retries CONF)) as [|n]; [lia|].
  assert (active_wait_loop CONF K compute (S n) cid aid net w
          = (Raises e,
             World (heap w)
               ((trace w ++ [call_get_amphora cid net])
                  ++ [call_sleep (amp_active_wait_sec CONF)])
               (gate w))) as ->.
  { cbn [active_wait_loop].
    unfold bind at 1, compute_get_amphora, collaborator_call.
    unfold reported in Hrep. rewrite Nat.add_0_r in Hrep. rewrite Hrep.
    apply String.eqb_neq in Hna, Hne. rewrite Hna, Hne.
    unfold bind at 1, sleep, collaborator_call. by rewrite Hsleep. }
  cbn [fst snd gate]. split_and!; [done| |done].
  apply new_events_app. cbn [trace]. by rewrite <- app_assoc.
Qed.

(** *** Instance create, step by step *)

Section FurtherCreate.

Variable templaters : Templaters.

Lemma request_build_slot_run (aid : string) (prio : Z) (w : world G) :
  request_build_slot CONF aid prio w
  = if Z.eqb (build_rate_limit CONF) (-1) then (Returns tt, w)
    else (fst (add_to_build_request_queue aid prio (gate w)),
          World (heap w) (trace w ++ [call_add_to_build_request_queue aid prio])
            (snd (add_to_build_request_queue aid prio (gate w)))).
Proof.
  unfold request_build_slot, rate_limit_add_to_build_request_queue, gate_call.
  destruct (Z.eqb _ _); cbn [negb]; [done|].
  by destruct (add_to_build_request_queue aid prio (gate w)).
Qed.

(** What rendering leaves behind and hands on: no call, the rate limit
    as it was, and on success the working dictionary with both generated
    files, which goes to the driver as it is or rendered into user
    data. *)
Lemma render_config_drive_run (aid topology : string) (l : loc)
    (w w' : world G) (r : outcome (option dict * option string)) :
  render_config_drive CONF templaters aid topology l w = (r, w') →
  trace w' = trace w ∧ gate w' = gate w
  ∧ match r with
    | Returns payload =>
        ∃ ac lc,
          build_agent_config templaters aid topology = Returns ac
          ∧ build_logging_config templaters (logging_template_override CONF)
            = Returns lc
          ∧ deref (heap w') l
            = <["/etc/rsyslog.d/10-rsyslog.conf" := lc]>
                (<["/etc/octavia/amphora-agent.conf" := ac]> (deref (heap w) l))
          ∧ if user_data_config_drive CONF then
              ∃ u, build_user_data_config templaters (deref (heap w') l)
                   = Returns u
                   ∧ payload = (None, Some u)
            else payload = (Some (deref (heap w') l), None)
    | Raises e =>
        build_agent_config templaters aid topology = Raises e
        ∨ build_logging_config templaters (logging_template_override CONF)
          = Raises e
        ∨ (user_data_config_drive CONF = true
           ∧ ∃ ac lc,
               build_user_data_config templaters
                 (<["/etc/rsyslog.d/10-rsyslog.conf" := lc]>
                    (<["/etc/octavia/amphora-agent.conf" := ac]>
                       (deref (heap w) l))) = Raises e)
    end.
Proof.
  unfold render_config_drive, bind, lift, dict_set, reads, ret.
  destruct (build_agent_config templaters aid topology) as [ac|e];
    [|intros [= <- <-]; auto].
  destruct (build_logging_config templaters _) as [lc|e];
    [|intros [= <- <-]; auto].
  cbn [heap trace gate]. rewrite !deref_insert.
  destruct (user_data_config_drive CONF).
  - destruct (build_user_data_config templaters _) as [u|e] eqn:Hu;
      intros [= <- <-]; cbn [heap trace gate]; rewrite ?deref_insert.
    + split_and!; [done..|]. exists ac, lc. split_and!; [done..|]. by exists u.
    + split_and!; [done..|]. right. right. split; [done|]. by exists ac, lc.
  - intros [= <- <-]. cbn [heap trace gate]. rewrite deref_insert.
    split_and!; [done..|]. by exists ac, lc.
Qed.

(** The [try] from the rendering on, with its handler: either the
    rendering fails, which is logged and raised again, or the driver is
    asked for one build and its answer is [execute]'s. *)
Lemma render_and_build_shape (aid : string) (l : loc) (sg : option string)
    (ports : list port) (nets : list string) (topology flv : string)
    (zone : option string) (w1 : world G) :
  let run :=
    try_except
      (payload <- render_config_drive CONF templaters aid topology l ;;
       build_instance CONF compute aid sg ports nets flv zone payload)
      (fun e =>
         LOG LvlException "Compute create for amphora id: %s failed" ;;;
         raise e) w1 in
  let files ac lc :=
    <["/etc/rsyslog.d/10-rsyslog.conf" := lc]>
      (<["/etc/octavia/amphora-agent.conf" := ac]> (deref (heap w1) l)) in
  gate (snd run) = gate w1
  ∧ ((∃ e, fst run = Raises e
           ∧ trace (snd run)
             = trace w1
                 ++ [call_log LvlException
                       "Compute create for amphora id: %s failed"]
           ∧ (build_agent_config templaters aid topology = Raises e
              ∨ build_logging_config templaters
                  (logging_template_override CONF) = Raises e
              ∨ (user_data_config_drive CONF = true
                 ∧ ∃ ac lc, build_user_data_config templaters (files ac lc)
                            = Raises e)))
     ∨ (∃ ac lc payload,
          build_agent_config templaters aid topology = Returns ac
          ∧ build_logging_config templaters (logging_template_override CONF)
            = Returns lc
          ∧ (if user_data_config_drive CONF then
               ∃ u, build_user_data_config templaters (files ac lc) = Returns u
                    ∧ payload = (None, Some u)
             else payload = (Some (files ac lc), None))
          ∧ let a :=
              {| b_name := "amphora-" ++ aid;
                 b_amphora_flavor := flv;
                 b_image_id := amp_image_id CONF;
                 b_image_tag := amp_image_tag CONF;
                 b_image_owner := amp_image_owner_id CONF;
                 b_key_name := amp_ssh_key_name CONF;
                 b_sec_groups := amp_secgroup_list CONF;
                 b_network_ids := nets;
                 b_port_ids := List.map port_id ports;
                 b_config_drive_files := fst payload;
                 b_user_data := snd payload;
                 b_server_group_id := sg;
                 b_availability_zone := zone |} in
            let answer := driver_build compute (calls is_build (trace w1)) a in
            fst run = answer
            ∧ trace (snd run)
              = trace w1
                  ++ [call_build a;
                      match answer with
                      | Returns _ =>
                          call_log LvlDebug
                            "Server created with id: %s for amphora id: %s"
                      | Raises _ =>
                          call_log LvlException
                            "Compute create for amphora id: %s failed"
                      end])).
Proof.
  intros run files. subst run. rewrite try_except_bind.
  destruct (render_config_drive CONF templaters aid topology l w1)
    as [[payload|e] w2] eqn:Hr;
    apply render_config_drive_run in Hr as (Htr & Hg & Hr).
  - destruct Hr as (ac & lc & Ha & Hl & Hd & Hp).
    unfold try_except, build_instance, bind, compute_build, collaborator_call,
      LOG, emit, ret, raise.
    cbn [heap trace gate]. rewrite Htr, Hg.
    set (a := {| b_name := _ |}).
    split; [destruct (driver_build compute _ a); reflexivity|].
    right. exists ac, lc, payload.
    split; [done|]. split; [done|]. split.
    + rewrite Hd in Hp. exact Hp.
    + cbn zeta. fold a.
      destruct (driver_build compute _ a); cbn [fst snd trace];
        rewrite <- ?app_assoc; split; reflexivity.
  - unfold bind, LOG, emit, raise. cbn [fst snd heap trace gate].
    rewrite Htr, Hg. split; [done|]. left. exists e. split_and!; [done..|].
    destruct Hr as [Hr|[Hr|[Hu Hr]]]; [by left|by right; left|].
    right. right. done.
Qed.

(** The whole of [ComputeCreate.execute]: either something fails before
    the driver is reached (the build slot is refused or a rendering
    fails), which is logged and raised again, or the driver is asked for
    one build, whose answer is [execute]'s. *)
Lemma ComputeCreate_execute_shape (aid : string) (cdf : option loc)
    (prio : Z) (sg : option string) (ports : option (list port))
    (flavor az : option loc) (w : world G) :
  let run :=
    ComputeCreate_execute CONF K compute templaters aid cdf prio sg ports
      flavor az w in
  let slot :=
    if Z.eqb (build_rate_limit CONF) (-1) then []
    else [call_add_to_build_request_queue aid prio] in
  let d0 := match cdf with Some l => deref (heap w) l | None => ∅ end in
  let fl := resolve_flavor CONF K (heap w) flavor in
  let zn :=
    resolve_availability_zone K (heap w) az (amp_boot_network_list CONF) in
  let files ac lc :=
    <["/etc/rsyslog.d/10-rsyslog.conf" := lc]>
      (<["/etc/octavia/amphora-agent.conf" := ac]> d0) in
  let entered :=
    call_log LvlDebug "Compute create execute for amphora with id %s" in
  let failed :=
    call_log LvlException "Compute create for amphora id: %s failed" in
  (∃ e, fst run = Raises e
        ∧ new_events w (snd run) = entered :: slot ++ [failed]
        ∧ ((build_rate_limit CONF ≠ -1
            ∧ fst (add_to_build_request_queue aid prio (gate w)) = Raises e)
           ∨ build_agent_config templaters aid (fst fl) = Raises e
           ∨ build_logging_config templaters (logging_template_override CONF)
             = Raises e
           ∨ (user_data_config_drive CONF = true
              ∧ ∃ ac lc, build_user_data_config templaters (files ac lc)
                         = Raises e)))
  ∨ (∃ ac lc payload,
       build_agent_config templaters aid (fst fl) = Returns ac
       ∧ build_logging_config templaters (logging_template_override CONF)
         = Returns lc
       ∧ (if user_data_config_drive CONF then
            ∃ u, build_user_data_config templaters (files ac lc) = Returns u
                 ∧ payload = (None, Some u)
          else payload = (Some (files ac lc), None))
       ∧ (build_rate_limit CONF ≠ -1 →
          fst (add_to_build_request_queue aid prio (gate w)) = Returns tt)
       ∧ let a :=
           {| b_name := "amphora-" ++ aid;
              b_amphora_flavor := snd fl;
              b_image_id := amp_image_id CONF;
              b_image_tag := amp_image_tag CONF;
              b_image_owner := amp_image_owner_id CONF;
              b_key_name := amp_ssh_key_name CONF;
              b_sec_groups := amp_secgroup_list CONF;
              b_network_ids := snd zn;
              b_port_ids := List.map port_id (or_empty_list ports);
              b_config_drive_files := fst payload;
              b_user_data := snd payload;
              b_server_group_id := sg;
              b_availability_zone := fst zn |} in
         let answer := driver_build compute (calls is_build (trace w)) a in
         fst run = answer
         ∧ new_events w (snd run)
           = entered :: slot
               ++ [call_build a;
                   match answer with
                   | Returns _ =>
                       call_log LvlDebug
                         "Server created with id: %s for amphora id: %s"
                   | Raises _ => failed
                   end]).
Proof.
  intros run slot d0 fl zn files entered failed. subst run.
  destruct (ComputeCreate_execute_unfold CONF K compute templaters aid cdf prio
              sg ports flavor az w) as (l & h1 & Hcase & ->).
  fold fl zn.
  assert (deref h1 l = d0) as Hd0.
  { subst d0. destruct Hcase as [(-> & _ & ->)|(Hfresh & -> & Hfalse)];
      [done|].
    rewrite deref_insert. destruct cdf as [l0|]; [|done].
    symmetry. by apply dict_truthy_false, Hfalse. }
  assert (∀ (t : list event) (g : G),
            calls is_build t = calls is_build (trace w) →
            let w1 := World h1 t g in
            let rest :=
              try_except
                (payload <- render_config_drive CONF templaters aid (fst fl) l ;;
                 build_instance CONF compute aid sg (or_empty_list ports)
                   (snd zn) (snd fl) (fst zn) payload)
                (fun e =>
                   LOG LvlException "Compute create for amphora id: %s failed" ;;;
                   raise e) w1 in
            (∃ e, fst rest = Raises e ∧ trace (snd rest) = t ++ [failed]
                  ∧ (build_agent_config templaters aid (fst fl) = Raises e
                     ∨ build_logging_config templaters
                         (logging_template_override CONF) = Raises e
                     ∨ (user_data_config_drive CONF = true
                        ∧ ∃ ac lc, build_user_data_config templaters
                                     (files ac lc) = Raises e)))
            ∨ (∃ ac lc payload,
                 build_agent_config templaters aid (fst fl) = Returns ac
                 ∧ build_logging_config templaters
                     (logging_template_override CONF) = Returns lc
                 ∧ (if user_data_config_drive CONF then
                      ∃ u, build_user_data_config templaters (files ac lc)
                           = Returns u
                           ∧ payload = (None, Some u)
                    else payload = (Some (files ac lc), None))
                 ∧ let a :=
                     {| b_name := "amphora-" ++ aid;
                        b_amphora_flavor := snd fl;
                        b_image_id := amp_image_id CONF;
                        b_image_tag := amp_image_tag CONF;
                        b_image_owner := amp_image_owner_id CONF;
                        b_key_name := amp_ssh_key_name CONF;
                        b_sec_groups := amp_secgroup_list CONF;
                        b_network_ids := snd zn;
                        b_port_ids := List.map port_id (or_empty_list ports);
                        b_config_drive_files := fst payload;
                        b_user_data := snd payload;
                        b_server_group_id := sg;
                        b_availability_zone := fst zn |} in
                   let answer :=
                     driver_build compute (calls is_build (trace w)) a in
                   fst rest = answer
                   ∧ trace (snd rest)
                     = t ++ [call_build a;
                             match answer with
                             | Returns _ =>
                                 call_log LvlDebug
                                   "Server created with id: %s for amphora id: %s"
                             | Raises _ => failed
                             end])) as Hrest.
  { intros t g Hcalls w1 rest.
    destruct (render_and_build_shape aid l sg (or_empty_list ports) (snd zn)
                (fst fl) (snd fl) (fst zn) w1) as (_ & Hshape).
    cbn zeta in Hshape. fold rest in Hshape. subst w1.
    cbn [heap trace] in Hshape. rewrite Hd0, Hcalls in Hshape.
    exact Hshape. }
  unfold ComputeCreate_guarded, ComputeCreate_try.
  rewrite try_except_bind, request_build_slot_run. cbn [heap trace gate].
  subst slot. destruct (Z.eqb_spec (build_rate_limit CONF) (-1)) as [Hlim|Hlim].
  - specialize (Hrest (trace w ++ [entered]) (gate w)).
    cbn zeta in Hrest. cbn beta.
    destruct Hrest
      as [(e & Hres & Htr & Hwhy)
         |(ac & lc & payload & Ha & Hl & Hp & Hres & Htr)].
    { rewrite calls_app. unfold calls at 2. simpl. lia. }
    + left. exists e. split; [exact Hres|].
      split; [apply new_events_app; etrans; [exact Htr|];
              by rewrite <- app_assoc|].
      by right.
    + right. exists ac, lc, payload.
      split; [done|]. split; [done|]. split; [done|]. split; [done|].
      cbn zeta. split; [exact Hres|].
      apply new_events_app. etrans; [exact Htr|]. by rewrite <- app_assoc.
  - destruct (add_to_build_request_queue aid prio (gate w)) as [[[]|e] g]
      eqn:Hadd; cbn [fst snd].
    + specialize (Hrest ((trace w ++ [entered])
                           ++ [call_add_to_build_request_queue aid prio]) g).
      cbn zeta in Hrest. cbn beta.
      destruct Hrest
        as [(e & Hres & Htr & Hwhy)
           |(ac & lc & payload & Ha & Hl & Hp & Hres & Htr)].
      { rewrite !calls_app. unfold calls at 2 3. simpl. lia. }
      * left. exists e. split; [exact Hres|].
        split; [apply new_events_app; etrans; [exact Htr|];
                by rewrite <- !app_assoc|].
        by right.
      * right. exists ac, lc, payload.
        split; [done|]. split; [done|]. split; [done|]. split; [done|].
        cbn zeta. split; [exact Hres|].
        apply new_events_app. etrans; [exact Htr|]. by rewrite <- !app_assoc.
    + left. exists e. unfold bind, LOG, emit, raise. cbn [fst snd trace].
      split; [done|].
      split; [apply new_events_app; by rewrite <- !app_assoc|].
      by left.
Qed.

Lemma filter_slot (p : event → bool) (aid : string) (prio : Z) :
  p (call_add_to_build_request_queue aid prio) = false →
  List.filter p
    (if Z.eqb (build_rate_limit CONF) (-1) then []
     else [call_add_to_build_request_queue aid prio]) = [].
Proof. intros Hp. destruct (Z.eqb _ _); [done|]. simpl. by rewrite Hp. Qed.

Lemma last_two (l : list event) (b f : event) : last (l ++ [b; f]) = Some f.
Proof.
  change [b; f] with ([b] ++ [f]). rewrite app_assoc. apply last_snoc.
Qed.

(** X4. [ComputeCreate.execute] logs a failure exactly once, as the last
    thing it does before it raises, wherever the failure came from (the
    rate limit, a templater or the driver); a run that returns has logged
    no exception. *)
Theorem ComputeCreate_execute_failure_logged_once (aid : string)
    (cdf : option loc) (prio : Z) (sg : option string)
    (ports : option (list port)) (flavor az : option loc) (w : world G) :
  let run :=
    ComputeCreate_execute CONF K compute templaters aid cdf prio sg ports
      flavor az w in
  let evs := new_events w (snd run) in
  match fst run with
  | Raises _ =>
      List.filter is_exception_log evs
      = [call_log LvlException "Compute create for amphora id: %s failed"]
      ∧ last evs
        = Some (call_log LvlException
                  "Compute create for amphora id: %s failed")
  | Returns _ => List.filter is_exception_log evs = []
  end.
Proof.
  intros run evs. subst evs run.
  destruct (ComputeCreate_execute_shape aid cdf prio sg ports flavor az w)
    as [(e & -> & -> & _)|(ac & lc & payload & _ & _ & _ & _ & Hrun)].
  - cbn [List.filter is_exception_log].
    rewrite List.filter_app, filter_slot by done.
    split; [done|]. rewrite app_comm_cons. apply last_snoc.
  - cbn zeta in Hrun. destruct Hrun as [-> ->].
    cbn [List.filter is_exception_log].
    rewrite List.filter_app, filter_slot by done.
    destruct (driver_build compute _ _); cbn; [done|].
    split; [done|].
    rewrite app_comm_cons. apply last_two.
Qed.

(** X5. When the rate limit refuses the build slot, [execute] raises the
    rate limit's exception without having reached the driver, and no
    dictionary that existed before the call has changed: the caller's
    [config_drive_files] does not yet hold the generated files. *)
Theorem ComputeCreate_execute_slot_refused (aid : string)
    (cdf : option loc) (prio : Z) (sg : option string)
    (ports : option (list port)) (flavor az : option loc) (w : world G)
    (e : exn) :
  let run :=
    ComputeCreate_execute CONF K compute templaters aid cdf prio sg ports
      flavor az w in
  build_rate_limit CONF ≠ -1 →
  fst (add_to_build_request_queue aid prio (gate w)) = Raises e →
  fst run = Raises e
  ∧ List.filter is_driver_call (new_events w (snd run)) = []
  ∧ (∀ l, is_Some (heap w !! l) → heap (snd run) !! l = heap w !! l).
Proof.
  intros run Hlim Hadd. subst run.
  destruct (ComputeCreate_execute_unfold CONF K compute templaters aid cdf prio
              sg ports flavor az w) as (l & h1 & Hcase & ->).
  unfold ComputeCreate_guarded, ComputeCreate_try.
  rewrite try_except_bind, request_build_slot_run. cbn [heap trace gate].
  apply Z.eqb_neq in Hlim. rewrite Hlim, Hadd.
  unfold bind, LOG, emit, raise. cbn [fst snd heap trace].
  split; [done|]. split.
  - erewrite new_events_app by (by rewrite <- !app_assoc). done.
  - intros l' Hl'.
    destruct Hcase as [(_ & _ & ->)|(Hfresh & -> & _)]; [done|].
    rewrite lookup_insert_ne; [done|].
    intros ->. apply Hfresh. by apply elem_of_dom.
Qed.

(** X6. [ComputeCreate.execute] calls the driver at most once, and only
    to build: either it never reaches the driver and raises, or it asks
    for exactly one build and its outcome is the driver's, the compute id
    returned or the exception raised, unchanged. *)
Theorem ComputeCreate_execute_driver_calls (aid : string)
    (cdf : option loc) (prio : Z) (sg : option string)
    (ports : option (list port)) (flavor az : option loc) (w : world G) :
  let run :=
    ComputeCreate_execute CONF K compute templaters aid cdf prio sg ports
      flavor az w in
  let driver_calls := List.filter is_driver_call (new_events w (snd run)) in
  (driver_calls = [] ∧ ∃ e, fst run = Raises e)
  ∨ (∃ a, driver_calls = [call_build a]
          ∧ fst run = driver_build compute (calls is_build (trace w)) a).
Proof.
  intros run driver_calls. subst driver_calls run.
  destruct (ComputeCreate_execute_shape aid cdf prio sg ports flavor az w)
    as [(e & Hres & -> & _)|(ac & lc & payload & _ & _ & _ & _ & Hrun)].
  - left. split; [|by exists e].
    cbn [List.filter is_driver_call].
    by rewrite List.filter_app, filter_slot.
  - right. cbn zeta in Hrun. destruct Hrun as [Hres ->].
    eexists. split; [|exact Hres].
    cbn [List.filter is_driver_call].
    rewrite List.filter_app, filter_slot by done.
    by destruct (driver_build compute _ _).
Qed.

Lemma elem_of_slot_build (a : build_args) (aid : string) (prio : Z)
    (tl : list event) :
  call_build a
  ∈ (if Z.eqb (build_rate_limit CONF) (-1) then []
     else [call_add_to_build_request_queue aid prio]) ++ tl →
  call_build a ∈ tl.
Proof.
  destruct (Z.eqb _ _); [done|].
  intros [Hin|Hin]%elem_of_app; [|done].
  by apply list_elem_of_singleton in Hin.
Qed.

(** X7. The build that [execute] asks for is named after the amphora,
    carries the ids of the given ports in order (none when [ports] is
    absent), the server group it was given, and image, key and security
    groups from the configuration.  Its flavor is the Octavia flavor's
    [compute_flavor] when the flavor has one and the configured
    [amp_flavor_id] otherwise; its availability zone is the metadata's
    [compute_zone], or none. *)
Theorem ComputeCreate_execute_build_request (aid : string)
    (cdf : option loc) (prio : Z) (sg : option string)
    (ports : option (list port)) (flavor az : option loc) (w : world G)
    (a : build_args) :
  let run :=
    ComputeCreate_execute CONF K compute templaters aid cdf prio sg ports
      flavor az w in
  call_build a ∈ new_events w (snd run) →
  b_name a = ("amphora-" ++ aid)%string
  ∧ b_port_ids a = List.map port_id (or_empty_list ports)
  ∧ b_server_group_id a = sg
  ∧ (b_image_id a, b_image_tag a, b_image_owner a)
    = (amp_image_id CONF, amp_image_tag CONF, amp_image_owner_id CONF)
  ∧ b_key_name a = amp_ssh_key_name CONF
  ∧ b_sec_groups a = amp_secgroup_list CONF
  ∧ (∀ l f, flavor = Some l →
       deref (heap w) l !! COMPUTE_FLAVOR K = Some f →
       b_amphora_flavor a = f)
  ∧ (flavor = None
     ∨ (∃ l, flavor = Some l ∧ deref (heap w) l !! COMPUTE_FLAVOR K = None) →
     b_amphora_flavor a = amp_flavor_id CONF)
  ∧ b_availability_zone a
    = match az with
      | Some l => deref (heap w) l !! COMPUTE_ZONE K
      | None => None
      end.
Proof.
  intros run Hin. subst run.
  destruct (ComputeCreate_execute_shape aid cdf prio sg ports flavor az w)
    as [(e & _ & Hevs & _)|(ac & lc & payload & _ & _ & _ & _ & Hrun)].
  - rewrite Hevs in Hin. apply elem_of_cons in Hin as [?|Hin]; [done|].
    apply elem_of_slot_build in Hin.
    by apply list_elem_of_singleton in Hin.
  - cbn zeta in Hrun. destruct Hrun as [_ Hevs]. rewrite Hevs in Hin.
    apply elem_of_cons in Hin as [?|Hin]; [done|].
    apply elem_of_slot_build in Hin.
    apply elem_of_cons in Hin as [[= ->]|Hin];
      [|apply list_elem_of_singleton in Hin;
        by destruct (driver_build compute _ _)].
    cbn [b_name b_port_ids b_server_group_id b_image_id b_image_tag
         b_image_owner b_key_name b_sec_groups b_amphora_flavor
         b_availability_zone].
    split_and!; try done.
    + intros l f -> Hf. unfold resolve_flavor.
      assert (dict_truthy (heap w) l = true) as ->.
      { apply dict_truthy_true. intros He. by rewrite He in Hf. }
      by rewrite Hf.
    + intros [->|(l & -> & Hf)]; [done|]. unfold resolve_flavor.
      rewrite Hf. by destruct (dict_truthy (heap w) l).
    + unfold resolve_availability_zone. destruct az as [l|]; [|done].
      destruct (dict_truthy (heap w) l) eqn:Ht; [done|].
      apply dict_truthy_false in Ht. by rewrite Ht.
Qed.

(** X8. The boot configuration reaches the driver in exactly one of two
    forms.  Both generated files have been rendered and added to the
    caller's files; with [user_data_config_drive] set the driver gets no
    config drive files and the user data rendered from them, otherwise
    it gets those files and no user data. *)
Theorem ComputeCreate_execute_boot_payload (aid : string)
    (cdf : option loc) (prio : Z) (sg : option string)
    (ports : option (list port)) (flavor az : option loc) (w : world G)
    (a : build_args) :
  let run :=
    ComputeCreate_execute CONF K compute templaters aid cdf prio sg ports
      flavor az w in
  let given := match cdf with Some l => deref (heap w) l | None => ∅ end in
  call_build a ∈ new_events w (snd run) →
  ∃ ac lc,
    build_agent_config templaters aid
      (fst (resolve_flavor CONF K (heap w) flavor)) = Returns ac
    ∧ build_logging_config templaters (logging_template_override CONF)
      = Returns lc
    ∧ let files :=
        <["/etc/rsyslog.d/10-rsyslog.conf" := lc]>
          (<["/etc/octavia/amphora-agent.conf" := ac]> given) in
      if user_data_config_drive CONF then
        b_config_drive_files a = None
        ∧ ∃ u, build_user_data_config templaters files = Returns u
               ∧ b_user_data a = Some u
      else
        b_config_drive_files a = Some files ∧ b_user_data a = None.
Proof.
  intros run given Hin. subst run.
  destruct (ComputeCreate_execute_shape aid cdf prio sg ports flavor az w)
    as [(e & _ & Hevs & _)|(ac & lc & payload & Ha & Hl & Hp & _ & Hrun)].
  - rewrite Hevs in Hin. apply elem_of_cons in Hin as [?|Hin]; [done|].
    apply elem_of_slot_build in Hin.
    by apply list_elem_of_singleton in Hin.
  - cbn zeta in Hrun. destruct Hrun as [_ Hevs]. rewrite Hevs in Hin.
    apply elem_of_cons in Hin as [?|Hin]; [done|].
    apply elem_of_slot_build in Hin.
    apply elem_of_cons in Hin as [[= ->]|Hin];
      [|apply list_elem_of_singleton in Hin;
        by destruct (driver_build compute _ _)].
    exists ac, lc. split; [done|]. split; [done|].
    cbn zeta. cbn [b_config_drive_files b_user_data]. fold given in Hp.
    destruct (user_data_config_drive CONF).
    + destruct Hp as (u & Hu & ->). split; [done|]. by exists u.
    + by rewrite Hp.
Qed.

End FurtherCreate.

(** *** Deletes *)

Lemma ComputeDelete_execute_run (amphora : loc) (w : world G) :
  ComputeDelete_execute K compute amphora w
  = match deref (heap w) amphora !! COMPUTE_ID K with
    | None =>
        (Raises (KeyError (COMPUTE_ID K)),
         World (heap w)
           (trace w
              ++ [call_log LvlDebug
                    "Compute Delete execute for amphora with id %s";
                  call_log LvlException
                    "Compute delete for amphora id: %s failed"])
           (gate w))
    | Some cid =>
        (driver_delete compute (calls is_delete (trace w)) (VStr cid),
         World (heap w)
           (trace w
              ++ call_log LvlDebug
                   "Compute Delete execute for amphora with id %s"
              :: call_delete (VStr cid)
              :: match driver_delete compute (calls is_delete (trace w))
                         (VStr cid) with
                 | Returns _ => []
                 | Raises _ =>
                     [call_log LvlException
                        "Compute delete for amphora id: %s failed"]
                 end)
           (gate w))
    end.
Proof.
  unfold ComputeDelete_execute, try_except, bind, dict_subscript,
    compute_delete, collaborator_call, LOG, emit, raise.
  cbn [heap trace gate].
  destruct (deref (heap w) amphora !! COMPUTE_ID K) as [cid|];
    cbn [heap trace gate].
  - rewrite calls_app. unfold calls at 2. simpl. rewrite Nat.add_0_r.
    destruct (driver_delete compute _ _) as [[]|e];
      cbn [heap trace gate]; by rewrite <- !app_assoc.
  - by rewrite <- !app_assoc.
Qed.

(** X9. [ComputeDelete.execute] reads the compute id from the amphora
    dictionary inside its [try]: when the key is missing, the [KeyError]
    is logged and raised and the driver is never called; otherwise the
    driver's delete is called exactly once on that id, the task's outcome
    is the driver's, and a failure is logged once before it is raised
    again. *)
Theorem ComputeDelete_execute_outcome (amphora : loc) (w : world G) :
  let run := ComputeDelete_execute K compute amphora w in
  let entered :=
    call_log LvlDebug "Compute Delete execute for amphora with id %s" in
  let failed :=
    call_log LvlException "Compute delete for amphora id: %s failed" in
  match deref (heap w) amphora !! COMPUTE_ID K with
  | None =>
      fst run = Raises (KeyError (COMPUTE_ID K))
      ∧ new_events w (snd run) = [entered; failed]
  | Some cid =>
      let answer := driver_delete compute (calls is_delete (trace w)) (VStr cid) in
      fst run = answer
      ∧ new_events w (snd run)
        = entered :: call_delete (VStr cid)
            :: match answer with Returns _ => [] | Raises _ => [failed] end
  end.
Proof.
  intros run entered failed. subst run.
  rewrite ComputeDelete_execute_run.
  destruct (deref (heap w) amphora !! COMPUTE_ID K) as [cid|]; cbn [fst snd].
  - split; [done|]. by apply new_events_app.
  - split; [done|]. by apply new_events_app.
Qed.

Section FurtherTeardown.

Variable loadbalancer_repo : LoadBalancerRepository.

(** X10. Bulk teardown before its first delete.  It asks for a database
    session first: if that raises, the task raises the same exception
    and has done nothing else.  With a session, a load balancer
    dictionary without the id raises [KeyError] and the repository is
    not asked; a repository that raises, or that has no such load
    balancer, makes the task raise after that one query.  None of these
    failures is logged, and a load balancer without amphorae makes the
    task return with no driver call. *)
Theorem DeleteAmphoraeOnLoadBalancer_execute_early_failures
    (loadbalancer : loc) (w : world G) :
  let run :=
    DeleteAmphoraeOnLoadBalancer_execute K compute loadbalancer_repo
      loadbalancer w in
  match get_session (calls is_get_session (trace w)) with
  | Raises e =>
      fst run = Raises e ∧ new_events w (snd run) = [call_get_session]
  | Returns _ =>
      match deref (heap w) loadbalancer !! LOADBALANCER_ID K with
      | None =>
          fst run = Raises (KeyError (LOADBALANCER_ID K))
          ∧ new_events w (snd run) = [call_get_session]
      | Some lb_id =>
          match repo_get loadbalancer_repo (calls is_repo_get (trace w))
                  lb_id with
          | Raises e =>
              fst run = Raises e
              ∧ new_events w (snd run)
                = [call_get_session; call_repo_get lb_id]
          | Returns None =>
              fst run = Raises (AttributeError "amphorae")
              ∧ new_events w (snd run)
                = [call_get_session; call_repo_get lb_id]
          | Returns (Some lb) =>
              amphorae lb = [] →
              fst run = Returns tt
              ∧ new_events w (snd run)
                = [call_get_session; call_repo_get lb_id]
          end
      end
  end.
Proof.
  intros run. subst run. rewrite DeleteAmphoraeOnLoadBalancer_execute_run.
  cbn zeta.
  destruct (get_session _) as [[]|e];
    [|split; [done|by apply new_events_app]].
  destruct (deref (heap w) loadbalancer !! LOADBALANCER_ID K) as [lb_id|];
    [|split; [done|by apply new_events_app]].
  destruct (repo_get loadbalancer_repo _ lb_id) as [[lb|]|e].
  - intros ->. cbn [delete_amphorae]. unfold ret.
    split; [done|by apply new_events_app].
  - split; [done|by apply new_events_app].
  - split; [done|by apply new_events_app].
Qed.

End FurtherTeardown.

(** *** Server groups *)

(** X11. [NovaServerGroupCreate.execute] asks the driver once for a
    group named ["octavia-lb-"] followed by the load balancer id, with
    the configured anti-affinity policy, and returns the id of the group
    the driver made; a driver failure is raised unchanged and not logged.
    Reverting with the id it returned asks the driver once to delete
    that very group, and returns whatever the delete does. *)
Theorem NovaServerGroupCreate_execute_then_revert (lb_id : string)
    (w w2 : world G) :
  let run := NovaServerGroupCreate_execute CONF compute lb_id w in
  let answer :=
    driver_create_server_group compute
      (calls is_create_server_group (trace w)) ("octavia-lb-" ++ lb_id)%string
      (anti_affinity_policy CONF) in
  List.filter is_driver_call (new_events w (snd run))
  = [call_create_server_group ("octavia-lb-" ++ lb_id)%string
       (anti_affinity_policy CONF)]
  ∧ match answer with
    | Returns group =>
        fst run = Returns (sg_id group)
        ∧ let undo :=
            NovaServerGroupCreate_revert compute (VStr (sg_id group)) w2 in
          fst undo = Returns tt
          ∧ List.filter is_driver_call (new_events w2 (snd undo))
            = [call_delete_server_group (VStr (sg_id group))]
    | Raises e =>
        fst run = Raises e
        ∧ new_events w (snd run)
          = [call_create_server_group ("octavia-lb-" ++ lb_id)%string
               (anti_affinity_policy CONF)]
    end.
Proof.
  intros run answer. subst run answer.
  unfold NovaServerGroupCreate_execute, bind, compute_create_server_group,
    collaborator_call, LOG, emit, ret.
  destruct (driver_create_server_group compute _ _ _) as [group|e];
    cbn [fst snd heap trace gate].
  - split; [by erewrite new_events_app
                 by (cbn [trace]; rewrite <- app_assoc; reflexivity)|].
    split; [done|]. cbn zeta.
    rewrite NovaServerGroupCreate_revert_run. cbn [fst snd].
    split; [done|]. erewrite new_events_app by reflexivity.
    by destruct (driver_delete_server_group compute _ _).
  - split; [by erewrite new_events_app by reflexivity|].
    split; [done|]. by apply new_events_app.
Qed.

(** *** Instance create with certificates *)

Section FurtherCert.

Variable templaters : Templaters.
Variable cert : CertMaterial.

(** X12. When the certificate material cannot be had (the CA file
    cannot be read, there is no passphrase, or the server certificate
    does not decrypt), [CertComputeCreate.execute] raises that exception
    and nothing else has happened: no log entry, no request to the rate
    limit, no call to the driver, and the store is as it was. *)
Theorem CertComputeCreate_execute_material_failure (aid server_pem : string)
    (prio : Z) (sg : option string) (ports : option (list port))
    (flavor az : option loc) (w : world G) (e : exn) :
  let run :=
    CertComputeCreate_execute CONF K compute templaters cert aid server_pem
      prio sg ports flavor az w in
  read_file cert (client_ca cert) = Raises e
  ∨ (∃ ca, read_file cert (client_ca cert) = Returns ca
           ∧ get_compatible_server_certs_key_passphrase cert = Raises e)
  ∨ (∃ ca key, read_file cert (client_ca cert) = Returns ca
               ∧ get_compatible_server_certs_key_passphrase cert = Returns key
               ∧ fernet_decrypt cert key server_pem = Raises e) →
  run = (Raises e, w).
Proof.
  intros run Hfail. subst run.
  unfold CertComputeCreate_execute, bind, lift.
  destruct Hfail as [->|[(ca & -> & ->)|(ca & key & -> & -> & ->)]]; done.
Qed.

(** X13. When the certificate material is there, the files that reach
    the driver are the decrypted server certificate and the CA
    certificate under their two paths together with the two generated
    files (or, with [user_data_config_drive], the user data rendered from
    exactly those four), and no dictionary that existed before the call
    has changed: the certificates go into a dictionary of the task's
    own. *)
Theorem CertComputeCreate_execute_payload (aid server_pem : string)
    (prio : Z) (sg : option string) (ports : option (list port))
    (flavor az : option loc) (w : world G) (ca key pem : string) :
  let run :=
    CertComputeCreate_execute CONF K compute templaters cert aid server_pem
      prio sg ports flavor az w in
  read_file cert (client_ca cert) = Returns ca →
  get_compatible_server_certs_key_passphrase cert = Returns key →
  fernet_decrypt cert key server_pem = Returns pem →
  (∀ x, flavor = Some x → is_Some (heap w !! x)) →
  (∀ l, is_Some (heap w !! l) → heap (snd run) !! l = heap w !! l)
  ∧ (∀ a, call_build a ∈ new_events w (snd run) →
       ∃ ac lc,
         let files :=
           <["/etc/rsyslog.d/10-rsyslog.conf" := lc]>
             (<["/etc/octavia/amphora-agent.conf" := ac]>
                (<["/etc/octavia/certs/client_ca.pem" := ca]>
                   (<["/etc/octavia/certs/server.pem" := pem]> ∅))) in
         build_agent_config templaters aid
           (fst (resolve_flavor CONF K (heap w) flavor)) = Returns ac
         ∧ build_logging_config templaters (logging_template_override CONF)
           = Returns lc
         ∧ if user_data_config_drive CONF then
             b_config_drive_files a = None
             ∧ ∃ u, build_user_data_config templaters files = Returns u
                    ∧ b_user_data a = Some u
           else
             b_config_drive_files a = Some files ∧ b_user_data a = None).
Proof.
  intros run Hca Hkey Hpem Hflv.
  pose proof (is_fresh (dom (heap w))) as Hfresh.
  set (l := fresh (dom (heap w))) in *.
  set (d := <["/etc/octavia/certs/client_ca.pem" := ca]>
              (<["/etc/octavia/certs/server.pem" := pem]> ∅)).
  set (w1 := World (<[l := d]> (heap w)) (trace w) (gate w)).
  assert (run = ComputeCreate_execute CONF K compute templaters aid
                  (Some l) prio sg ports flavor az w1) as ->.
  { subst run. unfold CertComputeCreate_execute, bind at 1 2 3, lift.
    rewrite Hca, Hkey, Hpem. reflexivity. }
  assert (∀ x, x ≠ l → deref (heap w1) x = deref (heap w) x) as Hd.
  { intros x Hx. unfold deref, w1. cbn [heap]. by rewrite lookup_insert_ne. }
  assert (deref (heap w1) l = d) as Hdl by apply deref_insert.
  assert (d ≠ ∅) as Hne.
  { unfold d. apply insert_non_empty. }
  assert (∀ x, is_Some (heap w !! x) → x ≠ l) as Hold.
  { intros x Hx ->. apply Hfresh. by apply elem_of_dom. }
  split.
  - intros x Hx. specialize (Hold x Hx).
    destruct (ComputeCreate_execute_unfold CONF K compute templaters aid
                (Some l) prio sg ports flavor az w1)
      as (l0 & h1 & Hcase & ->).
    destruct Hcase as [([= <-] & _ & ->)|(_ & _ & Hfalse)].
    + match goal with
      | |- context [ComputeCreate_guarded _ _ _ ?aid ?l ?prio ?sg ?ps ?n ?t ?f ?z ?w0] =>
          pose proof (ComputeCreate_guarded_writes_within CONF compute
                        templaters aid l prio sg ps n t f z w0) as Hw
      end.
      rewrite (proj1 (Hw x) Hold). unfold w1. cbn [heap]. by rewrite lookup_insert_ne.
    + specialize (Hfalse l eq_refl). apply dict_truthy_false in Hfalse.
      by rewrite Hdl in Hfalse.
  - intros a Hin.
    change (new_events w ?x) with (new_events w1 x) in Hin.
    assert (resolve_flavor CONF K (heap w1) flavor
            = resolve_flavor CONF K (heap w) flavor) as Hfl.
    { unfold resolve_flavor, dict_truthy. destruct flavor as [x|]; [|done].
      by rewrite (Hd x (Hold x (Hflv x eq_refl))). }
    destruct (ComputeCreate_execute_shape templaters aid
                (Some l) prio sg ports flavor az w1)
      as [(e & _ & Hevs & _)|(ac & lc & payload & Ha & Hl & Hp & _ & Hrun)].
    + rewrite Hevs in Hin. apply elem_of_cons in Hin as [?|Hin]; [done|].
      apply elem_of_slot_build in Hin.
      by apply list_elem_of_singleton in Hin.
    + cbn zeta in Hrun. destruct Hrun as [_ Hevs]. rewrite Hevs in Hin.
      apply elem_of_cons in Hin as [?|Hin]; [done|].
      apply elem_of_slot_build in Hin.
      apply elem_of_cons in Hin as [[= ->]|Hin];
        [|apply list_elem_of_singleton in Hin;
          by destruct (driver_build compute _ _)].
      rewrite Hfl in Ha. rewrite Hdl in Hp.
      exists ac, lc. cbn zeta. split; [done|]. split; [done|].
      cbn [b_config_drive_files b_user_data]. fold d.
      destruct (user_data_config_drive CONF).
      * destruct Hp as (u & Hu & ->). split; [done|]. by exists u.
      * by rewrite Hp.
Qed.

End FurtherCert.

End Further.

(** ** The further properties on the sample deployments *)

(** A poll that cannot reach the compute service on its second round. *)
Lemma ComputeActiveWait_execute_driver_error_witness :
  let CONF := sample_conf 5 3 in
  let drv := failing_driver (Some 1%nat) in
  let w := World ∅ [] empty_gate in
  let run :=
    ComputeActiveWait_execute (time_module := python_time)
      (rate_limit := spec_gate 5) CONF sample_constants drv "vm-1" "amp-1"
      None w in
  building_until sample_constants drv w "vm-1" None 1
  ∧ fst run = Raises (CollaboratorError "nova unreachable")
  ∧ new_events w (snd run)
    = [call_get_amphora "vm-1" None; call_sleep 0;
       call_get_amphora "vm-1" None]
  ∧ gate (snd run) = empty_gate.
Proof.
  intros CONF drv w run.
  assert (building_until sample_constants drv w "vm-1" None 1) as Hb.
  { intros i Hi. destruct i as [|i]; [|lia].
    eexists _, _; (split; [reflexivity|split; discriminate]). }
  split; [exact Hb|].
  apply (ComputeActiveWait_execute_driver_error (time_module := python_time)
           (rate_limit := spec_gate 5)
           CONF sample_constants drv "vm-1" "amp-1" None w 1%nat
           (CollaboratorError "nova unreachable"));
    [reflexivity|vm_compute; lia|exact Hb|reflexivity].
Defined.

(** A poll with a wait of -1 between polls: the first sleep raises. *)
Lemma ComputeActiveWait_execute_sleep_error_witness :
  let CONF := sample_conf_wait (-1) 5 3 in
  let drv := scripted_driver ["BUILD"; "ACTIVE"] None in
  let w := World ∅ [] empty_gate in
  let run :=
    ComputeActiveWait_execute (time_module := python_time)
      (rate_limit := spec_gate 5) CONF sample_constants drv "vm-1" "amp-1"
      None w in
  time_sleep (TimeModule := python_time) (amp_active_wait_sec CONF)
  = Raises (ValueError "sleep length must be non-negative")
  ∧ fst run = Raises (ValueError "sleep length must be non-negative")
  ∧ new_events w (snd run) = [call_get_amphora "vm-1" None; call_sleep (-1)]
  ∧ gate (snd run) = empty_gate.
Proof.
  intros CONF drv w run.
  split; [reflexivity|].
  apply (ComputeActiveWait_execute_sleep_error (time_module := python_time)
           (rate_limit := spec_gate 5) CONF sample_constants drv "vm-1"
           "amp-1" None w
           {| status := "BUILD"; to_dict := {[ "compute_id" := "vm-1" ]} |}
           None (ValueError "sleep length must be non-negative"));
    [vm_compute; lia|reflexivity|split; discriminate|reflexivity].
Defined.

(** A poll that returns: the report it returns on is the active one. *)
Lemma ComputeActiveWait_execute_returns_only_active_witness :
  let CONF := sample_conf 5 3 in
  let drv := scripted_driver ["BUILD"; "ACTIVE"] None in
  let w := World ∅ [] empty_gate in
  let run :=
    ComputeActiveWait_execute (time_module := python_time)
      (rate_limit := spec_gate 5) CONF sample_constants drv "vm-1" "amp-1"
      None w in
  fst run = Returns {[ "compute_id" := "vm-1" ]}
  ∧ ∃ k amp fault,
      reported drv w "vm-1" None k = Returns (amp, fault)
      ∧ status amp = "ACTIVE"
      ∧ to_dict amp = {[ "compute_id" := "vm-1" ]}.
Proof.
  intros CONF drv w run.
  assert (fst run = Returns {[ "compute_id" := "vm-1" ]}) as Hret
    by reflexivity.
  split; [exact Hret|].
  destruct (ComputeActiveWait_execute_returns_only_active
              (time_module := python_time) (rate_limit := spec_gate 5)
              CONF sample_constants drv
              "vm-1" "amp-1" None w {[ "compute_id" := "vm-1" ]} Hret)
    as (k & amp & fault & _ & _ & Hrep & Hst & Hd).
  exists k, amp, fault. split; [exact Hrep|]. split; [exact Hst|].
  symmetry. exact Hd.
Defined.

(** A create at a gate with no capacity: refused before anything is
    rendered or built, the caller's files untouched. *)
Lemma ComputeCreate_execute_slot_refused_witness :
  let CONF := sample_conf 0 3 in
  let drv := scripted_driver [] None in
  let w :=
    World {[ 0%nat := {[ "/etc/octavia/certs/server.pem" := "PEM" ]} ]} []
      empty_gate in
  let run :=
    ComputeCreate_execute (rate_limit := spec_gate 0) CONF sample_constants
      drv sample_templaters "amp-1" (Some 0%nat) 40 None None None None w in
  build_rate_limit CONF ≠ -1
  ∧ fst run = Raises (CollaboratorError "admission gate at capacity")
  ∧ List.filter is_driver_call (new_events w (snd run)) = []
  ∧ heap (snd run) !! 0%nat = heap w !! 0%nat.
Proof.
  intros CONF drv w run.
  assert (build_rate_limit CONF ≠ -1) as Hon by discriminate.
  destruct (ComputeCreate_execute_slot_refused (rate_limit := spec_gate 0)
              CONF sample_constants drv sample_templaters "amp-1"
              (Some 0%nat) 40 None None None None w
              (CollaboratorError "admission gate at capacity") Hon eq_refl)
    as (Hres & Hcalls & Hheap).
  split; [exact Hon|]. split; [exact Hres|]. split; [exact Hcalls|].
  apply Hheap. eexists. vm_compute. reflexivity.
Defined.

(** A create with a flavor, a server group, a port and an availability
    zone: what the driver is asked to build. *)
Lemma ComputeCreate_execute_build_request_witness :
  let CONF := sample_conf (-1) 3 in
  let drv := scripted_driver [] None in
  let w : world unit :=
    World {[ 0%nat := {[ "compute_flavor" := "m1.amphora" ]};
             1%nat := {[ "compute_zone" := "az1" ]} ]} [] tt in
  let run :=
    ComputeCreate_execute (rate_limit := no_gate) CONF sample_constants drv
      sample_templaters "amp-1" None 40 (Some "sg-1")
      (Some [ {| port_id := "port-1" |} ]) (Some 0%nat) (Some 1%nat) w in
  ∃ a, call_build a ∈ new_events w (snd run)
       ∧ b_name a = "amphora-amp-1"
       ∧ b_port_ids a = ["port-1"]
       ∧ b_server_group_id a = Some "sg-1"
       ∧ b_amphora_flavor a = "m1.amphora"
       ∧ b_availability_zone a = Some "az1".
Proof.
  intros CONF drv w run.
  assert (∃ a, call_build a ∈ new_events w (snd run)) as [a Hin].
  { vm_compute. eexists. apply list_elem_of_further, list_elem_of_here. }
  exists a. split; [exact Hin|].
  destruct (ComputeCreate_execute_build_request (rate_limit := no_gate) CONF
              sample_constants drv sample_templaters "amp-1" None 40
              (Some "sg-1") (Some [ {| port_id := "port-1" |} ])
              (Some 0%nat) (Some 1%nat) w a Hin)
    as (Hname & Hports & Hsg & _ & _ & _ & Hflavor & _ & Hzone).
  split; [exact Hname|]. split; [exact Hports|]. split; [exact Hsg|].
  split; [|exact Hzone].
  apply (Hflavor 0%nat); [reflexivity|vm_compute; reflexivity].
Defined.

(** A create that is handed the server certificate: the driver gets the
    caller's files with the two generated ones, and no user data. *)
Lemma ComputeCreate_execute_boot_payload_witness :
  let CONF := sample_conf (-1) 3 in
  let drv := scripted_driver [] None in
  let w : world unit :=
    World {[ 0%nat := {[ "/etc/octavia/certs/server.pem" := "PEM" ]} ]} [] tt in
  let run :=
    ComputeCreate_execute (rate_limit := no_gate) CONF sample_constants drv
      sample_templaters "amp-1" (Some 0%nat) 40 None None None None w in
  ∃ a ac lc,
    call_build a ∈ new_events w (snd run)
    ∧ b_config_drive_files a
      = Some (<["/etc/rsyslog.d/10-rsyslog.conf" := lc]>
                (<["/etc/octavia/amphora-agent.conf" := ac]>
                   (deref (heap w) 0%nat)))
    ∧ b_user_data a = None.
Proof.
  intros CONF drv w run.
  assert (∃ a, call_build a ∈ new_events w (snd run)) as [a Hin].
  { vm_compute. eexists. apply list_elem_of_further, list_elem_of_here. }
  destruct (ComputeCreate_execute_boot_payload (rate_limit := no_gate) CONF
              sample_constants drv sample_templaters "amp-1" (Some 0%nat) 40
              None None None None w a Hin)
    as (ac & lc & _ & _ & Hfiles & Hdata).
  exists a, ac, lc. split; [exact Hin|]. split; [exact Hfiles|exact Hdata].
Defined.

(** A load balancer without amphorae: the session is obtained, the
    repository is asked and nothing is deleted. *)
Lemma DeleteAmphoraeOnLoadBalancer_execute_early_failures_witness :
  let drv := scripted_driver [] None in
  let w : world unit :=
    World {[ 0%nat := {[ "loadbalancer_id" := "lb-1" ]} ]} [] tt in
  let run :=
    DeleteAmphoraeOnLoadBalancer_execute (db_apis := sample_db_apis true)
      sample_constants drv vacant_repo 0%nat w in
  fst run = Returns tt
  ∧ new_events w (snd run) = [call_get_session; call_repo_get "lb-1"].
Proof.
  intros drv w run.
  exact (DeleteAmphoraeOnLoadBalancer_execute_early_failures
           (db_apis := sample_db_apis true)
           sample_constants drv vacant_repo 0%nat w eq_refl).
Defined.

(** A server certificate that does not decrypt: the task raises and the
    world is as before. *)
Lemma CertComputeCreate_execute_material_failure_witness :
  let CONF := sample_conf 5 3 in
  let drv := scripted_driver [] None in
  let w := World ∅ [] empty_gate in
  CertComputeCreate_execute (rate_limit := spec_gate 5) CONF sample_constants
    drv sample_templaters (sample_cert true) "amp-1" "TOKEN" 40 None None
    None None w
  = (Raises (CollaboratorError "InvalidToken"), w).
Proof.
  intros CONF drv w.
  apply (CertComputeCreate_execute_material_failure
           (rate_limit := spec_gate 5) CONF sample_constants drv
           sample_templaters (sample_cert true) "amp-1" "TOKEN" 40 None None
           None None w).
  right. right. exists "CA", "passphrase". split_and!; reflexivity.
Defined.

(** A create with certificates beside a flavor dictionary: the driver
    gets the two certificates and the two generated files, and the
    flavor dictionary is as before. *)
Lemma CertComputeCreate_execute_payload_witness :
  let CONF := sample_conf (-1) 3 in
  let drv := scripted_driver [] None in
  let w : world unit :=
    World {[ 0%nat := {[ "compute_flavor" := "m1.amphora" ]} ]} [] tt in
  let run :=
    CertComputeCreate_execute (rate_limit := no_gate) CONF sample_constants
      drv sample_templaters (sample_cert false) "amp-1" "TOKEN" 40 None None
      (Some 0%nat) None w in
  heap (snd run) !! 0%nat = heap w !! 0%nat
  ∧ ∃ a ac lc,
      call_build a ∈ new_events w (snd run)
      ∧ b_config_drive_files a
        = Some (<["/etc/rsyslog.d/10-rsyslog.conf" := lc]>
                  (<["/etc/octavia/amphora-agent.conf" := ac]>
                     (<["/etc/octavia/certs/client_ca.pem" := "CA"]>
                        (<["/etc/octavia/certs/server.pem" := "PEM:TOKEN"]>
                           ∅)))).
Proof.
  intros CONF drv w run.
  assert (is_Some (heap w !! 0%nat)) as Hin0
    by (eexists; vm_compute; reflexivity).
  destruct (CertComputeCreate_execute_payload (rate_limit := no_gate) CONF
              sample_constants drv sample_templaters (sample_cert false)
              "amp-1" "TOKEN" 40 None None (Some 0%nat) None w
              "CA" "passphrase" "PEM:TOKEN" eq_refl eq_refl eq_refl)
    as [Hheap Hbuild].
  { intros x [= <-]. exact Hin0. }
  split; [exact (Hheap 0%nat Hin0)|].
  assert (∃ a, call_build a ∈ new_events w (snd run)) as [a Hin].
  { vm_compute. eexists. apply list_elem_of_further, list_elem_of_here. }
  destruct (Hbuild a Hin) as (ac & lc & _ & _ & Hfiles & _).
  exists a, ac, lc. split; [exact Hin|exact Hfiles].
Defined.
